(** * The forecasting-model lifecycle of autogluon.timeseries

    A shallow embedding of
    [timeseries/src/autogluon/timeseries/models/abstract/abstract_timeseries_model.py]
    (classes [TimeSeriesModelBase] and [AbstractTimeSeriesModel]) and the
    properties of its constructor, [fit], [predict], [save] and [load],
    the out-of-fold predictions, scoring, the refit-full copy and the
    refit-full template.

    Conventions.
    - Python numbers ([int], finite [float]) are canonical rationals [Qc]:
      the code only compares, subtracts and multiplies them.  The methods
      compute without rounding; the time budget of [fit] is given once
      more over the arithmetic of doubles (module [Doubles]).  Non-finite
      floats are not represented.
    - A Python [dict] is an insertion-ordered association list with unique
      keys; keyword arguments (always string-keyed) are a [gmap string _].
    - A table keeps its columns in order, repeated labels included; the
      pandas operations that [predict] uses fail where pandas fails.
    - A class is a record of its class attributes and of the methods that
      subclasses override; a method takes the class where Python reads
      [self.__class__].
    - Methods that mutate [self], read the clock, log or touch the disk are
      computations in the monad [Py], which threads the instance and a
      [World] and may raise.  Calls of the two abstract hooks are recorded
      as events of the world.
    - Paths are POSIX paths. *)

From Stdlib Require Import QArith Qcanon ZArith String Ascii List.
From stdpp Require Import base option list strings sorting numbers gmap.

Local Open Scope string_scope.
Local Open Scope list_scope.
Local Open Scope Qc_scope.

(** ** Exceptions and outcomes *)

Inductive exn : Type :=
| ValueError (msg : string)
| TypeError
| AssertionError
| AttributeError (attr : string)
| KeyError
| OSError (path : string)
| TimeLimitExceeded
| HookError (msg : string).

Inductive outcome (A : Type) : Type :=
| Return (a : A)
| Raise (e : exn).
Arguments Return {A} a.
Arguments Raise {A} e.

Definition is_error {A} (r : outcome A) : bool :=
  match r with Return _ => false | Raise _ => true end.

(** ** Python values *)

(** Hashable values used as dictionary keys. *)
Inductive pykey : Type :=
| KStr (s : string)
| KInt (z : Z)
| KNone.

#[warnings="-register-all"] Inductive pyval : Type :=
| PyNone
| PyBool (b : bool)
| PyNum (q : Qc)
| PyStr (s : string)
| PyDict (items : list (pykey * pyval))
| PySpace (descr : string)      (* an instance of [autogluon.common.space.Space] *)
| PyObj (repr : string).        (* any other object *)

Definition pydict : Type := list (pykey * pyval).

Global Instance pykey_eq_dec : EqDecision pykey.
Proof. solve_decision. Defined.

(** [isinstance(k, str)] *)
Definition is_str_key (k : pykey) : bool :=
  match k with KStr _ => true | _ => false end.

(** [isinstance(v, dict)] *)
Definition is_dict (v : pyval) : bool :=
  match v with PyDict _ => true | _ => false end.

(** [isinstance(v, space.Space)] *)
Definition is_space (v : pyval) : bool :=
  match v with PySpace _ => true | _ => false end.

(** [v is not None] *)
Definition is_not_None (v : pyval) : bool :=
  match v with PyNone => false | _ => true end.

(** The numeric reading of a value in arithmetic ([bool] is a number in
    Python); [None] for values on which [*] and [<] with a float raise. *)
Definition as_number (v : pyval) : option Qc :=
  match v with
  | PyNum q => Some q
  | PyBool true => Some 1
  | PyBool false => Some 0
  | _ => None
  end.

(** *** Dictionaries *)

(** [d.get(k)] *)
Fixpoint dict_get (k : pykey) (d : pydict) : option pyval :=
  match d with
  | [] => None
  | (k', v) :: d' => if decide (k' = k) then Some v else dict_get k d'
  end.

(** [d.get(k)] as a value: a missing key reads as [None]. *)
Definition py_get (k : pykey) (d : pydict) : pyval := default PyNone (dict_get k d).

Definition dict_keys (d : pydict) : list pykey := d.*1.
Definition dict_values (d : pydict) : list pyval := d.*2.

(** [del d[k]] *)
Fixpoint dict_remove (k : pykey) (d : pydict) : pydict :=
  match d with
  | [] => []
  | (k', v) :: d' =>
      if decide (k' = k) then dict_remove k d' else (k', v) :: dict_remove k d'
  end.

(** [d.pop(k, dflt)]: the value and the dictionary left behind. *)
Definition dict_pop (k : pykey) (dflt : pyval) (d : pydict) : pyval * pydict :=
  (default dflt (dict_get k d), dict_remove k d).

(** [d[k] = v]: an existing key keeps its position. *)
Fixpoint dict_set (k : pykey) (v : pyval) (d : pydict) : pydict :=
  match d with
  | [] => [(k, v)]
  | (k', v') :: d' =>
      if decide (k' = k) then (k, v) :: d' else (k', v') :: dict_set k v d'
  end.

(** [{**a, **b}], also [a | b]. *)
Definition dict_merge (a b : pydict) : pydict :=
  foldl (λ acc kv, dict_set kv.1 kv.2 acc) a b.

(** Well-formed dictionaries have pairwise distinct keys. *)
Definition dict_wf (d : pydict) : Prop := NoDup (dict_keys d).

(** ** Strings and POSIX paths

    [str] methods and [os.path] functions used by the model, on the list
    of characters of a string. *)

Definition chars (s : string) : list ascii := list_ascii_of_string s.
Definition text (l : list ascii) : string := string_of_list_ascii l.

Definition sep : ascii := "/"%char.

Fixpoint drop_while {A} (p : A → bool) (l : list A) : list A :=
  match l with
  | [] => []
  | x :: l' => if p x then drop_while p l' else l
  end.

Definition is_sep (c : ascii) : bool := bool_decide (c = sep).

(** [s.startswith(p)] and [s.endswith(p)] on character lists. *)
Definition starts_with (p l : list ascii) : bool := bool_decide (take (length p) l = p).
Definition ends_with (p l : list ascii) : bool := starts_with (reverse p) (reverse l).

(** [posixpath.join(a, b)]: an absolute [b] discards [a]; a separator is
    inserted unless [a] is empty or already ends with one. *)
Definition join_chars (a b : list ascii) : list ascii :=
  if starts_with [sep] b then b
  else if bool_decide (a = []) || ends_with [sep] a then a ++ b
  else a ++ sep :: b.

Definition os_path_join (a b : string) : string :=
  text (join_chars (chars a) (chars b)).

(** [posixpath.dirname(p)]: everything up to the last separator, with
    trailing separators stripped unless the head consists of separators
    only.  [h] is the head read backwards. *)
Definition dirname_chars (p : list ascii) : list ascii :=
  let h := drop_while (λ c, negb (is_sep c)) (reverse p) in
  if forallb is_sep h then reverse h else reverse (drop_while is_sep h).

Definition os_path_dirname (p : string) : string := text (dirname_chars (chars p)).

(** The rest of [s] after the first occurrence of [pat], if any. *)
Fixpoint find_after (pat s : list ascii) : option (list ascii) :=
  if starts_with pat s then Some (drop (length pat) s)
  else match s with
       | [] => None
       | _ :: s' => find_after pat s'
       end.

(** [s.rsplit(by, 1)[0]]: the part before the last occurrence of [by], or
    all of [s] if there is none; an empty separator is a [ValueError]. *)
Definition rsplit1_head (s by_ : string) : outcome string :=
  if bool_decide (by_ = "") then Raise (ValueError "empty separator")
  else match find_after (reverse (chars by_)) (reverse (chars s)) with
       | Some r => Return (text (reverse r))
       | None => Return s
       end.

(** [re.sub(r"Model$", "", s)] *)
Definition strip_Model_suffix (s : string) : string :=
  if ends_with (chars "Model") (chars s)
  then text (reverse (drop 5 (reverse (chars s))))
  else s.

(** ** Tables

    A [TimeSeriesDataFrame] is a table over an (item, timestamp) index.
    A column label is a Python string.  [str(q)] of a float is injective
    (it round-trips) and never yields ["mean"], so the string [str(q)] is
    carried as [Quantile q]; [Col s] is any other string. *)

Inductive label : Type :=
| Mean                  (* "mean" *)
| Quantile (q : Qc)     (* str(q) *)
| Col (s : string).

Global Instance label_eq_dec : EqDecision label.
Proof. solve_decision. Defined.

(** [str(q)] as a column label. *)
Definition str_float (q : Qc) : label := Quantile q.

(** A cell holds a number or NaN. *)
Definition cell : Type := option Qc.

Record Frame : Type := mkFrame {
  index : list (string * Z);
  cols : list (label * list cell);
  static_features : list (label * list cell);
}.

(** [frame.columns] *)
Definition columns (fr : Frame) : list label := (cols fr).*1.

(** [label in frame.columns] *)
Definition has_column (l : label) (fr : Frame) : bool := bool_decide (l ∈ columns fr).

(** The data of every column carrying label [l], left to right. *)
Definition select (l : label) (fr : Frame) : list (list cell) :=
  (filter (λ c, c.1 = l) (cols fr)).*2.

Definition nan_column (fr : Frame) : list cell := replicate (length (index fr)) None.

(** [frame.reindex(columns=target)]: pandas refuses to reindex an axis
    that carries duplicate labels; otherwise every target label takes the
    column of that name, or a fresh all-NaN column. *)
Definition reindex (target : list label) (fr : Frame) : outcome Frame :=
  if decide (NoDup (columns fr)) then
    Return {| index := index fr;
              cols := (λ l, (l, default (nan_column fr) (head (select l fr)))) <$> target;
              static_features := static_features fr |}
  else Raise (ValueError "cannot reindex on an axis with duplicate labels").

(** [frame[dst] = frame[src]]: [frame[src]] is a single column only when
    exactly one column is labelled [src]; assigning anything else to one
    key is an error.  An existing [dst] is overwritten in place, a new one
    is appended. *)
Definition assign_column (dst src : label) (fr : Frame) : outcome Frame :=
  match select src fr with
  | [data] =>
      Return {| index := index fr;
                cols := if has_column dst fr
                        then (λ c, if decide (c.1 = dst) then (dst, data) else c) <$> cols fr
                        else cols fr ++ [(dst, data)];
                static_features := static_features fr |}
  | [] => Raise KeyError
  | _ => Raise (ValueError "cannot set a DataFrame with multiple columns to a single column")
  end.

(** [frame.drop(l, axis=1)], for a label that is present. *)
Definition drop_column (l : label) (fr : Frame) : Frame :=
  {| index := index fr; cols := filter (λ c, c.1 ≠ l) (cols fr); static_features := static_features fr |}.

(** A transformation of the values of a table that keeps its index and its
    column labels; it may look at the whole table. *)
Definition ValueMap : Type := Frame → label → list cell → list cell.

Definition map_values (f : ValueMap) (fr : Frame) : Frame :=
  {| index := index fr; cols := (λ c, (c.1, f fr c.1 c.2)) <$> cols fr;
     static_features := static_features fr |}.

(** ** Collaborators *)

(** The evaluation metric, seen through the one attribute the model reads. *)
Record TimeSeriesScorer : Type := {
  metric_name : string;
  optimized_by_median : bool;
}.

Record CovariateMetadata : Type := {
  md_known_covariates : list string;
  md_past_covariates : list string;
  md_static_features : list string;
}.

(** [CovariateMetadata()] *)
Definition empty_metadata : CovariateMetadata :=
  {| md_known_covariates := []; md_past_covariates := []; md_static_features := [] |}.

(** Modelled from the spec: the target scaler of [autogluon.timeseries.transforms]
    is not under src/.  It "normalizes the target column per entity" and
    "[inverse_transform] maps model output back to original scale": each
    method rewrites the values of a table and keeps its columns. *)
Record TargetScaler : Type := {
  ts_fit_transform : ValueMap;
  ts_transform : ValueMap;
  ts_inverse_transform : ValueMap;
}.

(** Modelled from the spec: the covariate scaler "normalizes known/past
    covariates and static features" and "exposes a specialized
    [transform_known_covariates] for inference-time covariate-only tables". *)
Record CovariateScaler : Type := {
  cs_fit_transform : ValueMap;
  cs_transform : ValueMap;
  cs_transform_known_covariates : ValueMap;
}.

(** Modelled from the spec: the covariate regressor "is applied to
    residualize the target ([transform])"; "at inference time its forecast
    component is added back via [inverse_transform], consuming the main
    model's quantile/mean output plus known covariates and static
    features".  Its [fit] only changes the regressor and is recorded as an
    event. *)
Record CovariateRegressor : Type := {
  cr_transform : ValueMap;
  cr_fit_transform : ValueMap;
  (* arguments: known covariates, static features *)
  cr_inverse_transform : Frame → list (label * list cell) → ValueMap;
}.

(** ** The model object *)

(** The attributes of a model instance.  The three transforms are only
    declared by the constructor and assigned by [fit]: the outer [None]
    is an attribute that does not exist yet.  [fitted_state] stands
    for whatever a concrete subclass keeps on the instance. *)
Record Model : Type := mkModel {
  name : string;
  path_root : string;
  path : string;
  eval_metric : TimeSeriesScorer;
  target : string;
  covariate_metadata : CovariateMetadata;
  freq : option string;
  prediction_length : Z;
  quantile_levels : list Qc;
  must_drop_median : bool;
  _oof_predictions : option (list Frame);
  _hyperparameters : pydict;
  _extra_ag_args : pydict;
  fit_time : option Qc;
  predict_time : option Qc;
  predict_1_time : option Qc;
  val_score : option Qc;
  target_scaler : option (option TargetScaler);
  covariate_scaler : option (option CovariateScaler);
  covariate_regressor : option (option CovariateRegressor);
  fitted_state : pyval;
}.

(** Attribute assignments [self.x = v]. *)
Definition set_name (v : string) (m : Model) : Model :=
  let 'mkModel _ a2 a3 a4 a5 a6 a7 a8 a9 a10 a11 a12 a13 a14 a15 a16 a17 a18 a19 a20 a21 := m in
  mkModel v a2 a3 a4 a5 a6 a7 a8 a9 a10 a11 a12 a13 a14 a15 a16 a17 a18 a19 a20 a21.
Definition set_path_root (v : string) (m : Model) : Model :=
  let 'mkModel a1 _ a3 a4 a5 a6 a7 a8 a9 a10 a11 a12 a13 a14 a15 a16 a17 a18 a19 a20 a21 := m in
  mkModel a1 v a3 a4 a5 a6 a7 a8 a9 a10 a11 a12 a13 a14 a15 a16 a17 a18 a19 a20 a21.
Definition set_path (v : string) (m : Model) : Model :=
  let 'mkModel a1 a2 _ a4 a5 a6 a7 a8 a9 a10 a11 a12 a13 a14 a15 a16 a17 a18 a19 a20 a21 := m in
  mkModel a1 a2 v a4 a5 a6 a7 a8 a9 a10 a11 a12 a13 a14 a15 a16 a17 a18 a19 a20 a21.
Definition set_oof_predictions (v : option (list Frame)) (m : Model) : Model :=
  let 'mkModel a1 a2 a3 a4 a5 a6 a7 a8 a9 a10 _ a12 a13 a14 a15 a16 a17 a18 a19 a20 a21 := m in
  mkModel a1 a2 a3 a4 a5 a6 a7 a8 a9 a10 v a12 a13 a14 a15 a16 a17 a18 a19 a20 a21.
Definition set_predict_time (v : option Qc) (m : Model) : Model :=
  let 'mkModel a1 a2 a3 a4 a5 a6 a7 a8 a9 a10 a11 a12 a13 a14 _ a16 a17 a18 a19 a20 a21 := m in
  mkModel a1 a2 a3 a4 a5 a6 a7 a8 a9 a10 a11 a12 a13 a14 v a16 a17 a18 a19 a20 a21.
Definition set_val_score (v : option Qc) (m : Model) : Model :=
  let 'mkModel a1 a2 a3 a4 a5 a6 a7 a8 a9 a10 a11 a12 a13 a14 a15 a16 _ a18 a19 a20 a21 := m in
  mkModel a1 a2 a3 a4 a5 a6 a7 a8 a9 a10 a11 a12 a13 a14 a15 a16 v a18 a19 a20 a21.
Definition set_target_scaler (v : option TargetScaler) (m : Model) : Model :=
  let 'mkModel a1 a2 a3 a4 a5 a6 a7 a8 a9 a10 a11 a12 a13 a14 a15 a16 a17 _ a19 a20 a21 := m in
  mkModel a1 a2 a3 a4 a5 a6 a7 a8 a9 a10 a11 a12 a13 a14 a15 a16 a17 (Some v) a19 a20 a21.
Definition set_covariate_scaler (v : option CovariateScaler) (m : Model) : Model :=
  let 'mkModel a1 a2 a3 a4 a5 a6 a7 a8 a9 a10 a11 a12 a13 a14 a15 a16 a17 a18 _ a20 a21 := m in
  mkModel a1 a2 a3 a4 a5 a6 a7 a8 a9 a10 a11 a12 a13 a14 a15 a16 a17 a18 (Some v) a20 a21.
Definition set_covariate_regressor (v : option CovariateRegressor) (m : Model) : Model :=
  let 'mkModel a1 a2 a3 a4 a5 a6 a7 a8 a9 a10 a11 a12 a13 a14 a15 a16 a17 a18 a19 _ a21 := m in
  mkModel a1 a2 a3 a4 a5 a6 a7 a8 a9 a10 a11 a12 a13 a14 a15 a16 a17 a18 a19 (Some v) a21.

(** The keyword arguments with which [fit] calls the training hook. *)
Record FitArgs : Type := {
  fa_train_data : Frame;
  fa_val_data : option Frame;
  fa_time_limit : option Qc;
  fa_verbosity : Z;
  fa_kwargs : gmap string pyval;     (* num_cpus, num_gpus and the caller's extras *)
}.

(** What a class contributes: its class attributes and the methods that
    subclasses override.  A hook runs on the instance, may change it and
    may raise. *)
Record ModelClass : Type := {
  cls_name : string;                                   (* [__name__] *)
  _supports_known_covariates : bool;
  _supports_past_covariates : bool;
  _supports_static_features : bool;
  default_max_time_limit_ratio : Qc;
  _covariate_regressor_fit_time_fraction : Qc;
  _get_default_hyperparameters : Model → pydict;
  can_use_train_data : bool;                           (* [_get_tags()["can_use_train_data"]] *)
  can_use_val_data : bool;
  preprocess : Frame → option Frame → bool → Model → outcome (Frame * option Frame) * Model;
  _fit : FitArgs → Model → outcome () * Model;
  _predict : Frame → option Frame → gmap string pyval → Model → outcome Frame * Model;
}.

(** The class attributes and defaults written in [TimeSeriesModelBase]
    and [AbstractTimeSeriesModel]; the two abstract hooks are supplied. *)
Definition AbstractTimeSeriesModel (cname : string)
    (fit_hook : FitArgs → Model → outcome () * Model)
    (predict_hook : Frame → option Frame → gmap string pyval → Model → outcome Frame * Model)
    : ModelClass :=
  {| cls_name := cname;
     _supports_known_covariates := false;
     _supports_past_covariates := false;
     _supports_static_features := false;
     default_max_time_limit_ratio := Q2Qc 0.9;
     _covariate_regressor_fit_time_fraction := Q2Qc 0.5;
     _get_default_hyperparameters := λ _, [];
     can_use_train_data := true;
     can_use_val_data := false;
     preprocess := λ data known_covariates _ self, (Return (data, known_covariates), self);
     _fit := fit_hook;
     _predict := predict_hook |}.

(** ** The world outside the object *)

Inductive Artifact : Type :=
| PickledModel (m : Model)
| PickledFrames (o : list Frame).

Inductive LogMsg : Type :=
| NoPathSpecified (root : string)
| NonStringKey (k : pykey)
| NoTimeLeft (time_left : Qc)
| TimeLimitAdjusted (original adjusted : Qc).

Inductive Event : Type :=
| Logged (level : Z) (msg : LogMsg)
| RegressorFit (time_limit : option Qc) (verbosity : Z)
| CalledFit (args : FitArgs)
| CalledPredict (data : Frame) (known : option Frame).

Record World : Type := mkWorld {
  clock : list Qc;                     (* the readings [time.monotonic()] will return *)
  files : gmap string Artifact;        (* pickles on disk, by path *)
  write_protected : gset string;       (* paths that cannot be opened for writing *)
  events : list Event;                 (* log records and hook calls, oldest first *)
}.

(** Module-level collaborators that are not under src/: constants of
    [autogluon.core.constants], the metric and transform factories, the
    output-directory helper and the resource manager. *)
Record External : Type := {
  AG_ARGS_FIT : string;
  REFIT_FULL_SUFFIX : string;
  check_get_evaluation_metric : option string → Z → outcome TimeSeriesScorer;
  setup_outputdir : string → string;
  get_target_scaler : pyval → string → outcome (option TargetScaler);
  get_covariate_scaler :
    pyval → CovariateMetadata → bool → bool → bool → outcome (option CovariateScaler);
  get_covariate_regressor :
    pyval → string → CovariateMetadata → outcome (option CovariateRegressor);
  make_future_data_frame : Frame → Z → option string → list (string * Z);
  get_cpu_count : pyval;
  get_gpu_count : pyval;
}.

(** Collaborators of scoring that are not under src/: the method
    [get_model_inputs_for_scoring] of the data frame, which splits a table
    into the past and the known covariates of the forecast horizon, and
    the method [score] of the metric. *)
Record Scoring : Type := {
  get_model_inputs_for_scoring : Frame → Z → list string → outcome (Frame * option Frame);
  metric_score : TimeSeriesScorer → Frame → Frame → string → outcome Qc;
}.

(** ** Computations

    [Py S A] runs on a state [S] and returns or raises; the state at the
    point of a raise is kept, as the mutations made so far are in Python.
    A [Static] computation sees the world only; a [Method] also sees the
    instance it is called on. *)

Definition Py (S A : Type) : Type := S → outcome A * S.

Global Instance py_ret {S} : MRet (Py S) := λ A a s, (Return a, s).
Global Instance py_bind {S} : MBind (Py S) := λ A B f c s,
  match c s with
  | (Return a, s') => f a s'
  | (Raise e, s') => (Raise e, s')
  end.
Global Instance py_throw {S} : MThrow exn (Py S) := λ A e s, (Raise e, s).

Abbreviation Static := (Py World).
Abbreviation Method := (Py (Model * World)).

Definition lift_outcome {S A} (r : outcome A) : Py S A := λ s, (r, s).

Definition lift_static {A} (c : Static A) : Method A := λ s,
  let (r, w) := c s.2 in (r, (s.1, w)).

Definition get_self : Method Model := λ s, (Return s.1, s).
Definition modify_self (f : Model → Model) : Method () := λ s, (Return (), (f s.1, s.2)).

(** Run a hook of the class on the instance. *)
Definition run_hook {A} (h : Model → outcome A * Model) : Method A := λ s,
  let (r, m) := h s.1 in (r, (m, s.2)).

(** Call a method on another object [m]; the object comes back changed. *)
Definition on_object {A} (m : Model) (c : Method A) : Static (A * Model) := λ w,
  match c (m, w) with
  | (Return a, (m', w')) => (Return (a, m'), w')
  | (Raise e, (_, w')) => (Raise e, w')
  end.

(** Read an attribute that may not have been assigned yet. *)
Definition read_attr {A} (attr : string) (f : Model → option A) : Method A :=
  self ← get_self;
  match f self with
  | Some v => mret v
  | None => mthrow (AttributeError attr)
  end.

Definition emit (e : Event) : Static () := λ w,
  (Return (), mkWorld (clock w) (files w) (write_protected w) (events w ++ [e])).

(** [logger.log(level, ...)]; [warning] is level 30 and [debug] level 10. *)
Definition logger_log (level : Z) (msg : LogMsg) : Static () := emit (Logged level msg).

(** [time.monotonic()] *)
Definition time_monotonic : Static Qc := λ w,
  match clock w with
  | t :: rest => (Return t, mkWorld rest (files w) (write_protected w) (events w))
  | [] => (Return 0, w)
  end.

(** [time.time()]: like [time.monotonic()], the next reading of the
    world's clock; no method reads both clocks. *)
Definition time_time : Static Qc := time_monotonic.

(** [save_pkl.save(path=p, object=a)].  The failure that is modelled is a
    path that cannot be opened for writing: it raises and leaves the disk
    as it is. *)
Definition save_pkl (p : string) (a : Artifact) : Static () := λ w,
  if decide (p ∈ write_protected w) then (Raise (OSError p), w)
  else (Return (), mkWorld (clock w) (<[p := a]> (files w)) (write_protected w) (events w)).

(** [load_pkl.load(path=p)] *)
Definition load_pkl (p : string) : Static Artifact := λ w,
  match files w !! p with
  | Some a => (Return a, w)
  | None => (Raise (OSError p), w)
  end.

(** The float [0.5] and the column label ["0.5"], which is [str(0.5)]. *)
Definition half : Qc := Q2Qc 0.5.
Definition median_label : label := str_float half.

(** [sorted(set(l))] *)
Definition sorted_set (l : list Qc) : list Qc := merge_sort Qcle (remove_dups l).

(** [min(a, b)]: the first argument unless the second is smaller. *)
Definition py_min (a b : Qc) : Qc := if decide (b < a) then b else a.

(** [l.remove(x)]: [l] without its first element equal to [x]; a
    [ValueError] when there is none. *)
Fixpoint list_remove (x : Qc) (l : list Qc) : outcome (list Qc) :=
  match l with
  | [] => Raise (ValueError "list.remove(x): x not in list")
  | y :: l' =>
      if decide (y = x) then Return l'
      else match list_remove x l' with
           | Return r => Return (y :: r)
           | Raise e => Raise e
           end
  end.

Definition model_file_name : string := "model.pkl".
Definition model_info_name : string := "info.pkl".
Definition _oof_filename : string := "oof.pkl".

(** ** Doubles

    Python floats are IEEE 754 doubles: a subtraction or a multiplication
    rounds its exact result to the nearest double, while comparisons and
    [min] are exact.  The methods of the two classes below compute with
    exact rationals; the module [Doubles] after them gives the time
    budget of [fit] once more over the two operations of the runtime. *)

Record FloatArith : Type := {
  fl_sub : Qc → Qc → Qc;
  fl_mul : Qc → Qc → Qc;
}.

(** Arithmetic without rounding. *)
Definition exact_arith : FloatArith := {| fl_sub := Qcminus; fl_mul := Qcmult |}.

(** The integer nearest to [x], a tie going to the even one. *)
Definition round_half_even (x : Q) : Z :=
  let f := (Qnum x / Zpos (Qden x))%Z in
  match ((x - inject_Z f) ?= 1 # 2)%Q with
  | Lt => f
  | Gt => (f + 1)%Z
  | Eq => if Z.even f then f else (f + 1)%Z
  end.

(** [2 ^ e] for an integer exponent. *)
Definition pow2 (e : Z) : Q :=
  match e with
  | Zneg p => (1 # (2 ^ p))%Q
  | _ => inject_Z (2 ^ e)
  end.

(** The double nearest to a rational: 53 significant bits, round to
    nearest, ties to even.  The exponent is not bounded, so there are
    neither subnormal numbers nor overflow. *)
Definition nearest_double (q : Qc) : Qc :=
  if decide (q = 0) then 0 else
  let a := (if Qlt_le_dec q 0 then - q else q)%Q in
  let e0 := (Z.log2 (Qnum a) - Z.log2 (Zpos (Qden a)) - 52)%Z in
  let e := if Qlt_le_dec (a / pow2 e0) (inject_Z (2 ^ 52)) then (e0 - 1)%Z else e0 in
  let e := if Qlt_le_dec (a / pow2 e) (inject_Z (2 ^ 52)) then (e - 1)%Z else e in
  let r := (inject_Z (round_half_even (a / pow2 e)) * pow2 e)%Q in
  Q2Qc (if Qlt_le_dec q 0 then - r else r)%Q.

(** The arithmetic of doubles.  An operand that is not a double, such as
    a literal written as a decimal fraction, is read as the nearest
    double. *)
Definition binary64 : FloatArith :=
  {| fl_sub := λ a b, nearest_double (nearest_double a - nearest_double b);
     fl_mul := λ a b, nearest_double (nearest_double a * nearest_double b) |}.

(** ** TimeSeriesModelBase *)

Section TimeSeriesModelBase.
Context (E : External).

(** [_check_and_split_hyperparameters]: the caller's mapping without the
    reserved key, and the mapping stored under it.  [copy.deepcopy] is
    the identity on values. *)
Definition _check_and_split_hyperparameters (hyperparameters : option pyval)
    : Static (pydict * pydict) :=
  let hyperparameters := default (PyDict []) hyperparameters in
  match hyperparameters with
  | PyDict hyperparameters =>
      mapM (λ k, if is_str_key k then mret () else logger_log 30 (NonStringKey k))
           (dict_keys hyperparameters);;
      let '(extra_ag_args, hyperparameters) :=
        dict_pop (KStr (AG_ARGS_FIT E)) (PyDict []) hyperparameters in
      match extra_ag_args with
      | PyDict extra_ag_args => mret (hyperparameters, extra_ag_args)
      | _ => mthrow (ValueError "Invalid hyperparameter type for ag_args_fit. Expected dict")
      end
  | _ => mthrow AssertionError
  end.

(** [__init__] *)
Definition __init__ (cls : ModelClass)
    (path name : option string) (hyperparameters : option pyval)
    (freq : option string) (prediction_length : Z)
    (covariate_metadata : option CovariateMetadata) (target : string)
    (quantile_levels : list Qc) (eval_metric : option string) : Static Model :=
  let name :=
    match name with
    | Some n => if bool_decide (n = "") then strip_Model_suffix (cls_name cls) else n
    | None => strip_Model_suffix (cls_name cls)
    end in
  path_root ←
    match path with
    | Some p => mret p
    | None =>
        let path_cur := setup_outputdir E name in
        path_root ← lift_outcome (rsplit1_head path_cur name);
        logger_log 20 (NoPathSpecified path_root);;
        mret path_root
    end;
  let path := os_path_join path_root name in
  eval_metric ← lift_outcome (check_get_evaluation_metric E eval_metric prediction_length);
  let covariate_metadata := default empty_metadata covariate_metadata in
  if negb (forallb (λ q, bool_decide (0 < q < 1)) quantile_levels) then
    mthrow (ValueError
      "Invalid quantile_levels specified. Quantiles must be between 0 and 1 (exclusive).")
  else
    let '(must_drop_median, quantile_levels) :=
      if decide (half ∈ quantile_levels)
      then (false, quantile_levels)
      else (true, sorted_set (half :: quantile_levels)) in
    '(hyperparameters, extra_ag_args) ← _check_and_split_hyperparameters hyperparameters;
    mret {| name := name; path_root := path_root; path := path;
            eval_metric := eval_metric; target := target;
            covariate_metadata := covariate_metadata;
            freq := freq; prediction_length := prediction_length;
            quantile_levels := quantile_levels; must_drop_median := must_drop_median;
            _oof_predictions := None;
            _hyperparameters := hyperparameters; _extra_ag_args := extra_ag_args;
            fit_time := None; predict_time := None; predict_1_time := None;
            val_score := None;
            target_scaler := None; covariate_scaler := None; covariate_regressor := None;
            fitted_state := PyNone |}.

(** [rename] *)
Definition rename (new_name : string) (self : Model) : Model :=
  let self :=
    if bool_decide (0 < String.length (name self))%nat
    then set_path (os_path_join (os_path_dirname (path self)) new_name) self
    else set_path (os_path_join (path self) new_name) self in
  set_name new_name self.

(** [set_contexts] *)
Definition set_contexts (path_context : string) : Method () :=
  modify_self (set_path path_context);;
  self ← get_self;
  path_root ← lift_outcome (rsplit1_head (path self) (name self));
  modify_self (set_path_root path_root).

(** [save] *)
Definition save (path_arg : option string) : Method string :=
  self ← get_self;
  let path_ := default (path self) path_arg in
  match _oof_predictions self with
  | Some oof =>
      lift_static (save_pkl (os_path_join (os_path_join path_ "utils") _oof_filename)
                            (PickledFrames oof))
  | None => mret ()
  end;;
  let oof_predictions := _oof_predictions self in
  modify_self (set_oof_predictions None);;
  let file_path := os_path_join path_ model_file_name in
  self ← get_self;
  lift_static (save_pkl file_path (PickledModel self));;
  modify_self (set_oof_predictions oof_predictions);;
  mret path_.

(** [load_oof_predictions] *)
Definition load_oof_predictions (path_ : string) : Static (list Frame) :=
  a ← load_pkl (os_path_join (os_path_join path_ "utils") _oof_filename);
  match a with
  | PickledFrames oof => mret oof
  | PickledModel _ => mthrow TypeError
  end.

(** [load]; a pickle that is not a model has none of its attributes. *)
Definition load (path_ : string) (reset_paths load_oof : bool) : Static Model :=
  let file_path := os_path_join path_ model_file_name in
  a ← load_pkl file_path;
  match a with
  | PickledModel model =>
      model ← (if reset_paths
               then r ← on_object model (set_contexts path_); mret r.2
               else mret model);
      if load_oof && bool_decide (_oof_predictions model = None)
      then oof ← load_oof_predictions path_;
           mret (set_oof_predictions (Some oof) model)
      else mret model
  | PickledFrames _ => mthrow (AttributeError "set_contexts")
  end.

(** [get_hyperparameters] *)
Definition get_hyperparameters (cls : ModelClass) (self : Model) : pydict :=
  dict_merge (_get_default_hyperparameters cls self) (_hyperparameters self).

Definition supports_known_covariates (cls : ModelClass) (self : Model) : bool :=
  is_not_None (py_get (KStr "covariate_regressor") (get_hyperparameters cls self))
  || _supports_known_covariates cls.

Definition supports_past_covariates (cls : ModelClass) (self : Model) : bool :=
  _supports_past_covariates cls.

Definition supports_static_features (cls : ModelClass) (self : Model) : bool :=
  is_not_None (py_get (KStr "covariate_regressor") (get_hyperparameters cls self))
  || _supports_static_features cls.

(** [_get_system_resources] *)
Definition _get_system_resources : gmap string pyval :=
  {[ "num_cpus" := get_cpu_count E; "num_gpus" := get_gpu_count E ]}.

(** [convert_to_refit_full_via_copy] *)
Definition convert_to_refit_full_via_copy : Method Model :=
  self ← get_self;
  let previous_name := name self in
  modify_self (rename (name self +:+ REFIT_FULL_SUFFIX E));;
  self ← get_self;
  let refit_model_path := path self in
  save (Some (path self));;
  modify_self (rename previous_name);;
  refit_model ← lift_static (load refit_model_path true false);
  let refit_model := set_val_score None refit_model in
  let refit_model := set_predict_time None refit_model in
  mret refit_model.

(** [get_oof_predictions] *)
Definition get_oof_predictions : Method (list Frame) :=
  self ← get_self;
  match _oof_predictions self with
  | None =>
      oof ← lift_static (load_oof_predictions (path self));
      modify_self (set_oof_predictions (Some oof));;
      mret oof
  | Some oof => mret oof
  end.

(** The keyword arguments of the constructor, as [get_params] returns
    them. *)
Record Params : Type := {
  p_path : string;
  p_name : string;
  p_eval_metric : TimeSeriesScorer;
  p_hyperparameters : pydict;
  p_freq : option string;
  p_prediction_length : Z;
  p_quantile_levels : list Qc;
  p_covariate_metadata : CovariateMetadata;
  p_target : string;
}.

(** [get_params]; a dictionary is true when it is not empty. *)
Definition get_params (self : Model) : Params :=
  let hyperparameters := _hyperparameters self in
  let hyperparameters :=
    match _extra_ag_args self with
    | [] => hyperparameters
    | _ :: _ => dict_set (KStr (AG_ARGS_FIT E)) (PyDict (_extra_ag_args self)) hyperparameters
    end in
  {| p_path := path_root self;
     p_name := name self;
     p_eval_metric := eval_metric self;
     p_hyperparameters := hyperparameters;
     p_freq := freq self;
     p_prediction_length := prediction_length self;
     p_quantile_levels := quantile_levels self;
     p_covariate_metadata := covariate_metadata self;
     p_target := target self |}.

(** [convert_to_refit_full_template].  [get_params] always has the key
    "hyperparameters".  The metric factory is modelled on metric names, so
    the scorer is handed to the constructor by its name. *)
Definition convert_to_refit_full_template (cls : ModelClass) : Method Model :=
  self ← get_self;
  let params := get_params self in
  quantile_levels ←
    (if must_drop_median self
     then lift_outcome (list_remove half (p_quantile_levels params))
     else mret (p_quantile_levels params));
  let hyperparameters :=
    match dict_get (KStr (AG_ARGS_FIT E)) (p_hyperparameters params) with
    | Some _ => p_hyperparameters params
    | None => dict_set (KStr (AG_ARGS_FIT E)) (PyDict []) (p_hyperparameters params)
    end in
  let name := p_name params +:+ REFIT_FULL_SUFFIX E in
  lift_static
    (__init__ cls (Some (p_path params)) (Some name) (Some (PyDict hyperparameters))
              (p_freq params) (p_prediction_length params)
              (Some (p_covariate_metadata params)) (p_target params)
              quantile_levels (Some (metric_name (p_eval_metric params)))).

End TimeSeriesModelBase.

(** ** AbstractTimeSeriesModel *)

Section AbstractTimeSeriesModelMethods.
Context (E : External) (cls : ModelClass).

(** [_initialize_transforms_and_regressor] *)
Definition _initialize_transforms_and_regressor : Method () :=
  self ← get_self;
  ts ← lift_outcome (get_target_scaler E
          (py_get (KStr "target_scaler") (get_hyperparameters cls self)) (target self));
  modify_self (set_target_scaler ts);;
  self ← get_self;
  cs ← lift_outcome (get_covariate_scaler E
          (py_get (KStr "covariate_scaler") (get_hyperparameters cls self))
          (covariate_metadata self)
          (supports_static_features cls self)
          (supports_known_covariates cls self)
          (supports_past_covariates cls self));
  modify_self (set_covariate_scaler cs);;
  self ← get_self;
  cr ← lift_outcome (get_covariate_regressor E
          (py_get (KStr "covariate_regressor") (get_hyperparameters cls self))
          (target self) (covariate_metadata self));
  modify_self (set_covariate_regressor cr).

(** Apply a method of an optional transform held in attribute [attr]. *)
Definition apply_transform {T} (attr : string) (get : Model → option (option T))
    (method : T → ValueMap) (data : Frame) : Method Frame :=
  t ← read_attr attr get;
  mret (from_option (λ t, map_values (method t) data) data t).

(** [_preprocess_time_limit] *)
Definition _preprocess_time_limit (time_limit : Qc) : Method Qc :=
  self ← get_self;
  let original_time_limit := time_limit in
  let max_time_limit_ratio :=
    default (PyNum (default_max_time_limit_ratio cls))
            (dict_get (KStr "max_time_limit_ratio") (_extra_ag_args self)) in
  let max_time_limit := py_get (KStr "max_time_limit") (_extra_ag_args self) in
  time_limit ←
    match as_number max_time_limit_ratio with
    | Some ratio => mret (time_limit * ratio)
    | None => mthrow TypeError
    end;
  time_limit ←
    (if is_not_None max_time_limit then
       match as_number max_time_limit with
       | Some cap => mret (py_min time_limit cap)
       | None => mthrow TypeError
       end
     else mret time_limit);
  (if decide (original_time_limit ≠ time_limit)
   then lift_static (logger_log 10 (TimeLimitAdjusted original_time_limit time_limit))
   else mret ());;
  mret time_limit.

(** Lines 474-504 of [fit]: create the transforms, fit them on the
    training data and push the training and validation data through
    them.  Returns the two tables handed to the training hook. *)
Definition fit_prepare (train_data : Frame) (val_data : option Frame)
    (time_limit : option Qc) (verbosity : Z) : Method (Frame * option Frame) :=
  _initialize_transforms_and_regressor;;
  train_data ← apply_transform "target_scaler" target_scaler ts_fit_transform train_data;
  train_data ← apply_transform "covariate_scaler" covariate_scaler cs_fit_transform train_data;
  cr ← read_attr "covariate_regressor" covariate_regressor;
  (if cr is Some _ then
     let covariate_regressor_time_limit :=
       (λ t, _covariate_regressor_fit_time_fraction cls * t) <$> time_limit in
     lift_static (emit (RegressorFit covariate_regressor_time_limit (verbosity - 1)))
   else mret ());;
  train_data ←
    (if can_use_train_data cls then
       train_data ←
         apply_transform "covariate_regressor" covariate_regressor cr_transform train_data;
       r ← run_hook (preprocess cls train_data None true);
       mret r.1
     else mret train_data);
  val_data ←
    match val_data with
    | Some val_data =>
        if can_use_val_data cls then
          val_data ← apply_transform "target_scaler" target_scaler ts_transform val_data;
          val_data ← apply_transform "covariate_scaler" covariate_scaler cs_transform val_data;
          val_data ←
            apply_transform "covariate_regressor" covariate_regressor cr_transform val_data;
          r ← run_hook (preprocess cls val_data None false);
          mret (Some r.1)
        else mret (Some val_data)
    | None => mret None
    end;
  mret (train_data, val_data).

(** Lines 506-513 of [fit]: what is left of the time limit. *)
Definition fit_time_budget (start_time : Qc) (time_limit : option Qc)
    : Method (option Qc) :=
  match time_limit with
  | Some time_limit =>
      now ← lift_static time_monotonic;
      let time_limit := time_limit - (now - start_time) in
      time_limit ← _preprocess_time_limit time_limit;
      if decide (time_limit ≤ 0) then
        lift_static (logger_log 30 (NoTimeLeft time_limit));;
        mthrow TimeLimitExceeded
      else mret (Some time_limit)
  | None => mret None
  end.

(** Lines 515-523 of [fit]: call the training hook, which is recorded,
    and return [self]. *)
Definition fit_call_hook (args : FitArgs) : Method Model :=
  lift_static (emit (CalledFit args));;
  run_hook (_fit cls args);;
  get_self.

(** [fit] *)
Definition fit (train_data : Frame) (val_data : option Frame)
    (time_limit : option Qc) (verbosity : Z) (kwargs : gmap string pyval)
    : Method Model :=
  start_time ← lift_static time_monotonic;
  '(train_data, val_data) ← fit_prepare train_data val_data time_limit verbosity;
  time_limit ← fit_time_budget start_time time_limit;
  let args := {| fa_train_data := train_data; fa_val_data := val_data;
                 fa_time_limit := time_limit; fa_verbosity := verbosity;
                 fa_kwargs := kwargs ∪ _get_system_resources E |} in
  fit_call_hook args.

(** [_check_fit_params] *)
Definition _check_fit_params : Method () :=
  self ← get_self;
  if existsb is_space (dict_values (get_hyperparameters cls self)) then
    mthrow (ValueError
      ("Hyperparameter spaces provided to `fit`. Please provide concrete values " +:+
       "as hyperparameters when initializing or use `hyperparameter_tune` instead."))
  else mret ().

(** Lines 594-609 of [predict]: transform the inputs and call the
    prediction hook with the covariate regressor detached.  Returns the
    transformed inputs and the hook's table. *)
Definition predict_raw (data : Frame) (known_covariates : option Frame)
    (kwargs : gmap string pyval) : Method (Frame * option Frame * Frame) :=
  data ← apply_transform "target_scaler" target_scaler ts_fit_transform data;
  cs ← read_attr "covariate_scaler" covariate_scaler;
  let '(data, known_covariates) :=
    match cs with
    | Some cs => (map_values (cs_fit_transform cs) data,
                  map_values (cs_transform_known_covariates cs) <$> known_covariates)
    | None => (data, known_covariates)
    end in
  data ← apply_transform "covariate_regressor" covariate_regressor cr_fit_transform data;
  r ← run_hook (preprocess cls data known_covariates false);
  let '(data, known_covariates) := r in
  covariate_regressor_ ← read_attr "covariate_regressor" covariate_regressor;
  modify_self (set_covariate_regressor None);;
  lift_static (emit (CalledPredict data known_covariates));;
  predictions ← run_hook (_predict cls data known_covariates kwargs);
  modify_self (set_covariate_regressor covariate_regressor_);;
  mret (data, known_covariates, predictions).

(** The canonical column order of line 611. *)
Definition column_order (self : Model) : list label :=
  Mean :: (str_float <$> quantile_levels self).

(** Lines 611-636 of [predict]: bring the hook's table to the canonical
    columns, handle the median and undo the transforms. *)
Definition predict_finish (data : Frame) (known_covariates : option Frame)
    (predictions : Frame) : Method Frame :=
  self ← get_self;
  predictions ←
    (if bool_decide (columns predictions = column_order self) then mret predictions
     else lift_outcome (reindex (column_order self) predictions));
  predictions ←
    (if has_column median_label predictions then
       predictions ←
         (if optimized_by_median (eval_metric self)
          then lift_outcome (assign_column Mean median_label predictions)
          else mret predictions);
       mret (if must_drop_median self then drop_column median_label predictions
             else predictions)
     else mret predictions);
  cr ← read_attr "covariate_regressor" covariate_regressor;
  let predictions :=
    match cr with
    | Some cr =>
        let known_covariates :=
          match known_covariates with
          | Some k => k
          | None => {| index := make_future_data_frame E data (prediction_length self)
                                                       (freq self);
                       cols := []; static_features := [] |}
          end in
        map_values (cr_inverse_transform cr known_covariates (static_features data))
                   predictions
    | None => predictions
    end in
  apply_transform "target_scaler" target_scaler ts_inverse_transform predictions.

(** [predict] *)
Definition predict (data : Frame) (known_covariates : option Frame)
    (kwargs : gmap string pyval) : Method Frame :=
  r ← predict_raw data known_covariates kwargs;
  let '(data, known_covariates, predictions) := r in
  predict_finish data known_covariates predictions.

Context (Sc : Scoring).

(** [_score_with_predictions] *)
Definition _score_with_predictions (data predictions : Frame) : Method Qc :=
  self ← get_self;
  lift_outcome (metric_score Sc (eval_metric self) data predictions (target self)).

(** [score] *)
Definition score (data : Frame) : Method Qc :=
  self ← get_self;
  r ← lift_outcome (get_model_inputs_for_scoring Sc data (prediction_length self)
                      (md_known_covariates (covariate_metadata self)));
  let '(past_data, known_covariates) := r in
  predictions ← predict past_data known_covariates ∅;
  _score_with_predictions data predictions.

(** [score_and_cache_oof] *)
Definition score_and_cache_oof (val_data : Frame)
    (store_val_score store_predict_time : bool) (predict_kwargs : gmap string pyval)
    : Method () :=
  self ← get_self;
  r ← lift_outcome (get_model_inputs_for_scoring Sc val_data (prediction_length self)
                      (md_known_covariates (covariate_metadata self)));
  let '(past_data, known_covariates) := r in
  predict_start_time ← lift_static time_time;
  oof_predictions ← predict past_data known_covariates predict_kwargs;
  modify_self (set_oof_predictions (Some [oof_predictions]));;
  (if store_predict_time then
     now ← lift_static time_time;
     modify_self (set_predict_time (Some (now - predict_start_time)))
   else mret ());;
  (if store_val_score then
     val_score ← _score_with_predictions val_data oof_predictions;
     modify_self (set_val_score (Some val_score))
   else mret ()).

End AbstractTimeSeriesModelMethods.

(** ** The time budget over the arithmetic of doubles

    Lines 473-523 and 654-674 once more, over the subtraction and the
    multiplication of the runtime, whatever they are.  With the exact
    operations these are the methods above. *)

Module Doubles.
Section Methods.
Context (F : FloatArith) (E : External) (cls : ModelClass).

(** [_preprocess_time_limit] *)
Definition _preprocess_time_limit (time_limit : Qc) : Method Qc :=
  self ← get_self;
  let original_time_limit := time_limit in
  let max_time_limit_ratio :=
    default (PyNum (default_max_time_limit_ratio cls))
            (dict_get (KStr "max_time_limit_ratio") (_extra_ag_args self)) in
  let max_time_limit := py_get (KStr "max_time_limit") (_extra_ag_args self) in
  time_limit ←
    match as_number max_time_limit_ratio with
    | Some ratio => mret (fl_mul F time_limit ratio)
    | None => mthrow TypeError
    end;
  time_limit ←
    (if is_not_None max_time_limit then
       match as_number max_time_limit with
       | Some cap => mret (py_min time_limit cap)
       | None => mthrow TypeError
       end
     else mret time_limit);
  (if decide (original_time_limit ≠ time_limit)
   then lift_static (logger_log 10 (TimeLimitAdjusted original_time_limit time_limit))
   else mret ());;
  mret time_limit.

(** Lines 474-504 of [fit]. *)
Definition fit_prepare (train_data : Frame) (val_data : option Frame)
    (time_limit : option Qc) (verbosity : Z) : Method (Frame * option Frame) :=
  _initialize_transforms_and_regressor E cls;;
  train_data ← apply_transform "target_scaler" target_scaler ts_fit_transform train_data;
  train_data ← apply_transform "covariate_scaler" covariate_scaler cs_fit_transform train_data;
  cr ← read_attr "covariate_regressor" covariate_regressor;
  (if cr is Some _ then
     let covariate_regressor_time_limit :=
       (λ t, fl_mul F (_covariate_regressor_fit_time_fraction cls) t) <$> time_limit in
     lift_static (emit (RegressorFit covariate_regressor_time_limit (verbosity - 1)))
   else mret ());;
  train_data ←
    (if can_use_train_data cls then
       train_data ←
         apply_transform "covariate_regressor" covariate_regressor cr_transform train_data;
       r ← run_hook (preprocess cls train_data None true);
       mret r.1
     else mret train_data);
  val_data ←
    match val_data with
    | Some val_data =>
        if can_use_val_data cls then
          val_data ← apply_transform "target_scaler" target_scaler ts_transform val_data;
          val_data ← apply_transform "covariate_scaler" covariate_scaler cs_transform val_data;
          val_data ←
            apply_transform "covariate_regressor" covariate_regressor cr_transform val_data;
          r ← run_hook (preprocess cls val_data None false);
          mret (Some r.1)
        else mret (Some val_data)
    | None => mret None
    end;
  mret (train_data, val_data).

(** Lines 506-513 of [fit]. *)
Definition fit_time_budget (start_time : Qc) (time_limit : option Qc)
    : Method (option Qc) :=
  match time_limit with
  | Some time_limit =>
      now ← lift_static time_monotonic;
      let time_limit := fl_sub F time_limit (fl_sub F now start_time) in
      time_limit ← _preprocess_time_limit time_limit;
      if decide (time_limit ≤ 0) then
        lift_static (logger_log 30 (NoTimeLeft time_limit));;
        mthrow TimeLimitExceeded
      else mret (Some time_limit)
  | None => mret None
  end.

(** [fit] *)
Definition fit (train_data : Frame) (val_data : option Frame)
    (time_limit : option Qc) (verbosity : Z) (kwargs : gmap string pyval)
    : Method Model :=
  start_time ← lift_static time_monotonic;
  '(train_data, val_data) ← fit_prepare train_data val_data time_limit verbosity;
  time_limit ← fit_time_budget start_time time_limit;
  let args := {| fa_train_data := train_data; fa_val_data := val_data;
                 fa_time_limit := time_limit; fa_verbosity := verbosity;
                 fa_kwargs := kwargs ∪ _get_system_resources E |} in
  fit_call_hook cls args.

End Methods.
End Doubles.

(** ** A concrete setting

    One instantiation of the collaborators and one concrete subclass, on
    which the general statements below are evaluated. *)

Definition demo_external : External :=
  {| AG_ARGS_FIT := "ag_args_fit";
     REFIT_FULL_SUFFIX := "_FULL";
     check_get_evaluation_metric :=
       λ _ _, Return {| metric_name := "WQL"; optimized_by_median := false |};
     setup_outputdir := λ suffix, "AutogluonModels/" +:+ suffix;
     get_target_scaler := λ _ _, Return None;
     get_covariate_scaler := λ _ _ _ _ _, Return None;
     get_covariate_regressor := λ _ _ _, Return None;
     make_future_data_frame := λ _ _ _, [];
     get_cpu_count := PyNum (Q2Qc 8);
     get_gpu_count := PyNum 0 |}.

Definition column_of (l : label) : label * list cell := (l, [Some 1; Some 1]).

Definition demo_index : list (string * Z) := [("item", 1%Z); ("item", 2%Z)].

(** A table with the given column labels. *)
Definition demo_frame (labels : list label) : Frame :=
  {| index := demo_index; cols := column_of <$> labels; static_features := [] |}.

(** A subclass whose training hook does nothing and whose prediction hook
    returns a table with the columns [emitted]. *)
Definition demo_class (emitted : list label) : ModelClass :=
  AbstractTimeSeriesModel "NaiveModel"
    (λ _ self, (Return (), self))
    (λ _ _ _ self, (Return (demo_frame emitted), self)).

Definition demo_world (readings : list Qc) : World := mkWorld readings ∅ ∅ [].

(** A model as [fit] leaves it, without transforms. *)
Definition demo_model (model_name : string) (levels : list Qc) (drop_median : bool)
    (hyperparameters extra_ag_args : pydict) : Model :=
  {| name := model_name; path_root := "out"; path := os_path_join "out" model_name;
     eval_metric := {| metric_name := "WQL"; optimized_by_median := false |};
     target := "target"; covariate_metadata := empty_metadata;
     freq := Some "D"; prediction_length := 7;
     quantile_levels := levels; must_drop_median := drop_median;
     _oof_predictions := None;
     _hyperparameters := hyperparameters; _extra_ag_args := extra_ag_args;
     fit_time := None; predict_time := None; predict_1_time := None; val_score := None;
     target_scaler := Some None; covariate_scaler := Some None;
     covariate_regressor := Some None;
     fitted_state := PyStr "weights" |}.

Definition demo_train : Frame := demo_frame [Col "target"].

(** A fitted model named "Naive" with the median as its only level. *)
Definition naive_model (hyperparameters extra_ag_args : pydict) : Model :=
  demo_model "Naive" [half] false hyperparameters extra_ag_args.

Definition capped_args : pydict := [(KStr "max_time_limit", PyNum (Q2Qc 50))].

Definition tuned_model : Model :=
  naive_model [(KStr "learning_rate", PySpace "Real(0.0001, 0.1)")] [].

Definition regressor_model : Model :=
  naive_model [(KStr "covariate_regressor", PyStr "LR")] [].

Definition demo_kwargs : gmap string pyval :=
  {[ "num_gpus" := PyNum 1; "batch_size" := PyNum (Q2Qc 32) ]}.

Definition demo_hyperparameters : pydict :=
  [(KInt 3, PyStr "x");
   (KStr "ag_args_fit", PyDict [(KStr "max_time_limit", PyNum (Q2Qc 50))]);
   (KStr "seasonal_period", PyNum (Q2Qc 7))].

Definition demo_oof : list Frame := [demo_frame [Mean; Quantile half]].

Definition cached_model : Model := set_oof_predictions (Some demo_oof) (naive_model [] []).

(** The caller asked for the levels 0.1 and 0.9; the median was added. *)
Definition interval_model : Model :=
  demo_model "Naive" [Q2Qc 0.1; half; Q2Qc 0.9] true [] [].

(** A subclass with default hyperparameters of its own. *)
Definition seasonal_class : ModelClass :=
  {| cls_name := "SeasonalNaiveModel";
     _supports_known_covariates := false;
     _supports_past_covariates := false;
     _supports_static_features := false;
     default_max_time_limit_ratio := Q2Qc 0.9;
     _covariate_regressor_fit_time_fraction := Q2Qc 0.5;
     _get_default_hyperparameters :=
       λ _, [(KStr "seasonal_period", PyNum 1); (KStr "n_jobs", PyNum (Q2Qc 4))];
     can_use_train_data := true;
     can_use_val_data := false;
     preprocess := λ data known_covariates _ self, (Return (data, known_covariates), self);
     _fit := λ _ self, (Return (), self);
     _predict := λ _ _ _ self, (Return (demo_frame []), self) |}.

Definition seasonal_model : Model :=
  naive_model [(KStr "seasonal_period", PyNum (Q2Qc 7));
               (KStr "target_scaler", PyStr "standard")] [].

(** A disk that refuses to write the model file of "out/Naive". *)
Definition protected_world : World :=
  mkWorld [] ∅ {[ "out/Naive/model.pkl" ]} [].

(** A disk that holds out-of-fold predictions of an earlier save. *)
Definition stale_oof : list Frame := [demo_frame [Mean]].

Definition stale_world : World :=
  mkWorld [] {[ "out/Naive/utils/oof.pkl" := PickledFrames stale_oof ]} ∅ [].

(** A model whose name is empty, pickled under "out". *)
Definition unnamed_world : World :=
  mkWorld [] {[ "out/model.pkl" := PickledModel (demo_model "" [half] false [] []) ]} ∅ [].

(** A model after training: built from the levels 0.1 and 0.9 with an
    auxiliary argument, it has transforms, fitted state, a score and
    cached predictions. *)
Definition trained_model : Model :=
  {| name := "Naive"; path_root := "out"; path := "out/Naive";
     eval_metric := {| metric_name := "WQL"; optimized_by_median := false |};
     target := "target"; covariate_metadata := empty_metadata;
     freq := Some "D"; prediction_length := 7;
     quantile_levels := [Q2Qc 0.1; half; Q2Qc 0.9]; must_drop_median := true;
     _oof_predictions := Some demo_oof;
     _hyperparameters := [(KStr "seasonal_period", PyNum (Q2Qc 7))];
     _extra_ag_args := [(KStr "max_time_limit", PyNum (Q2Qc 50))];
     fit_time := Some (Q2Qc 3); predict_time := Some 1; predict_1_time := None;
     val_score := Some (- half);
     target_scaler := Some None; covariate_scaler := Some None;
     covariate_regressor := Some None;
     fitted_state := PyStr "weights" |}.

(** A model whose median flag is set although the median is not stored. *)
Definition inconsistent_model : Model :=
  demo_model "Naive" [Q2Qc 0.1; Q2Qc 0.9] true [] [].

(** A subclass whose prediction hook fails. *)
Definition failing_class : ModelClass :=
  AbstractTimeSeriesModel "BrokenModel"
    (λ _ self, (Return (), self))
    (λ _ _ _ self, (Raise (HookError "out of memory"), self)).

(** A covariate regressor that leaves the values as they are. *)
Definition identity_regressor : CovariateRegressor :=
  {| cr_transform := λ _ _ data, data;
     cr_fit_transform := λ _ _ data, data;
     cr_inverse_transform := λ _ _ _ _ data, data |}.

(** A fitted model that holds a covariate regressor. *)
Definition regressed_model : Model :=
  set_covariate_regressor (Some identity_regressor) (naive_model [] []).

(** A metric that is optimized by the median. *)
Definition median_metric : TimeSeriesScorer :=
  {| metric_name := "MASE"; optimized_by_median := true |}.

(** A fitted model with levels 0.1 and 0.9 scored by such a metric. *)
Definition median_model : Model :=
  {| name := "Naive"; path_root := "out"; path := "out/Naive";
     eval_metric := median_metric;
     target := "target"; covariate_metadata := empty_metadata;
     freq := Some "D"; prediction_length := 7;
     quantile_levels := [Q2Qc 0.1; half; Q2Qc 0.9]; must_drop_median := true;
     _oof_predictions := None;
     _hyperparameters := []; _extra_ag_args := [];
     fit_time := None; predict_time := None; predict_1_time := None; val_score := None;
     target_scaler := Some None; covariate_scaler := Some None;
     covariate_regressor := Some None;
     fitted_state := PyStr "weights" |}.

(** A hook table with a mean of its own: the mean is 3, the median is 2
    and the 0.9 level is 4; the 0.1 level is missing. *)
Definition median_raw : Frame :=
  {| index := demo_index;
     cols := [(Mean, [Some (Q2Qc 3); Some (Q2Qc 3)]);
              (Quantile half, [Some (Q2Qc 2); Some (Q2Qc 2)]);
              (Quantile (Q2Qc 0.9), [Some (Q2Qc 4); Some (Q2Qc 4)])];
     static_features := [] |}.

Definition median_class : ModelClass :=
  AbstractTimeSeriesModel "NaiveModel"
    (λ _ self, (Return (), self))
    (λ _ _ _ self, (Return median_raw, self)).

(** Auxiliary arguments that set the ratio of the time budget to [None]. *)
Definition none_ratio_args : pydict := [(KStr "max_time_limit_ratio", PyNone)].

(** A validation table. *)
Definition demo_val : Frame := demo_frame [Col "target"; Col "promo"].

(** Scoring collaborators: the inputs for scoring are the table itself
    without known covariates, and the metric returns a fixed score ... *)
Definition demo_scoring : Scoring :=
  {| get_model_inputs_for_scoring := λ data _ _, Return (data, None);
     metric_score := λ _ _ _ _, Return (- half) |}.

(** ... or fails. *)
Definition failing_scoring : Scoring :=
  {| get_model_inputs_for_scoring := λ data _ _, Return (data, None);
     metric_score := λ _ _ _ _, Raise (ValueError "predictions do not match the data") |}.

(** Collaborators whose output-directory helper puts the name under a
    fixed directory. *)
Definition models_dir_external : External :=
  {| AG_ARGS_FIT := "ag_args_fit";
     REFIT_FULL_SUFFIX := "_FULL";
     check_get_evaluation_metric :=
       λ _ _, Return {| metric_name := "WQL"; optimized_by_median := false |};
     setup_outputdir := λ suffix, os_path_join "AutogluonModels/ag-2024" suffix;
     get_target_scaler := λ _ _, Return None;
     get_covariate_scaler := λ _ _ _ _ _, Return None;
     get_covariate_regressor := λ _ _ _, Return None;
     make_future_data_frame := λ _ _ _, [];
     get_cpu_count := PyNum (Q2Qc 8);
     get_gpu_count := PyNum 0 |}.

(** Collaborators whose factory returns a covariate regressor. *)
Definition regressor_external : External :=
  {| AG_ARGS_FIT := "ag_args_fit";
     REFIT_FULL_SUFFIX := "_FULL";
     check_get_evaluation_metric :=
       λ _ _, Return {| metric_name := "WQL"; optimized_by_median := false |};
     setup_outputdir := λ suffix, "AutogluonModels/" +:+ suffix;
     get_target_scaler := λ _ _, Return None;
     get_covariate_scaler := λ _ _ _ _ _, Return None;
     get_covariate_regressor := λ _ _ _, Return (Some identity_regressor);
     make_future_data_frame := λ _ _ _, [];
     get_cpu_count := PyNum (Q2Qc 8);
     get_gpu_count := PyNum 0 |}.

(** Hyperparameters whose auxiliary arguments are an empty mapping. *)
Definition empty_aux_hyperparameters : pydict :=
  [(KStr "seasonal_period", PyNum (Q2Qc 7)); (KStr "ag_args_fit", PyDict [])].

(** Assignment to the attribute in which a subclass keeps its state. *)
Definition set_fitted_state (v : pyval) (m : Model) : Model :=
  let 'mkModel a1 a2 a3 a4 a5 a6 a7 a8 a9 a10 a11 a12 a13 a14 a15 a16 a17 a18 a19 a20 _ := m in
  mkModel a1 a2 a3 a4 a5 a6 a7 a8 a9 a10 a11 a12 a13 a14 a15 a16 a17 a18 a19 a20 v.

(** What a training hook was called with, as a dictionary: the time limit
    and the extra keyword arguments. *)
Definition call_record (args : FitArgs) : pydict :=
  (KStr "time_limit", from_option PyNum PyNone (fa_time_limit args))
  :: ((λ kv, (KStr kv.1, kv.2)) <$> map_to_list (fa_kwargs args)).

(** A subclass whose training hook keeps on the instance what it was
    called with. *)
Definition recording_class : ModelClass :=
  AbstractTimeSeriesModel "RecordingModel"
    (λ args self, (Return (), set_fitted_state (PyDict (call_record args)) self))
    (λ _ _ _ self, (Return (demo_frame []), self)).

(** The dictionary that such a hook left on the instance. *)
Definition recorded_call (self : Model) : pydict :=
  match fitted_state self with PyDict d => d | _ => [] end.

(** The ratio 0.1 as Python stores it. *)
Definition tenth_ratio_args : pydict :=
  [(KStr "max_time_limit_ratio", PyNum (nearest_double (Q2Qc 0.1)))].

(** ** Specification-side definitions *)

(** A name that is a single path component. *)
Definition slash_free (s : string) : Prop := sep ∉ chars s.

(** A directory as [dirname] returns it: separators only, or no trailing
    separator. *)
Definition normal_dir (d : list ascii) : Prop :=
  Forall (λ c, c = sep) d ∨ ∃ c r, reverse d = c :: r ∧ c ≠ sep.

(** The same class with another training hook. *)
Definition with_fit_hook (hook : FitArgs → Model → outcome () * Model) (cls : ModelClass)
    : ModelClass :=
  {| cls_name := cls_name cls;
     _supports_known_covariates := _supports_known_covariates cls;
     _supports_past_covariates := _supports_past_covariates cls;
     _supports_static_features := _supports_static_features cls;
     default_max_time_limit_ratio := default_max_time_limit_ratio cls;
     _covariate_regressor_fit_time_fraction := _covariate_regressor_fit_time_fraction cls;
     _get_default_hyperparameters := _get_default_hyperparameters cls;
     can_use_train_data := can_use_train_data cls;
     can_use_val_data := can_use_val_data cls;
     preprocess := preprocess cls;
     _fit := hook;
     _predict := _predict cls |}.

(** The reserved key under which auxiliary arguments are passed. *)
Definition reserved_key (E : External) : pykey := KStr (AG_ARGS_FIT E).

(** Where [save] puts the out-of-fold predictions and the model. *)
Definition oof_artifact_path (dir : string) : string :=
  os_path_join (os_path_join dir "utils") _oof_filename.

Definition model_artifact_path (dir : string) : string :=
  os_path_join dir model_file_name.

(** The columns of the table [predict] returns: "mean", then the stored
    levels in stored order, without the median when it must be dropped. *)
Definition canonical_columns (self : Model) : list label :=
  Mean :: (str_float <$>
             (if must_drop_median self
              then filter (λ q, q ≠ half) (quantile_levels self)
              else quantile_levels self)).

(** Two models with the same configuration and the same fitted state. *)
Definition same_fitted_model (a b : Model) : Prop :=
  eval_metric a = eval_metric b ∧ target a = target b ∧
  covariate_metadata a = covariate_metadata b ∧ freq a = freq b ∧
  prediction_length a = prediction_length b ∧
  quantile_levels a = quantile_levels b ∧ must_drop_median a = must_drop_median b ∧
  _hyperparameters a = _hyperparameters b ∧ _extra_ag_args a = _extra_ag_args b ∧
  fit_time a = fit_time b ∧ predict_1_time a = predict_1_time b ∧
  target_scaler a = target_scaler b ∧ covariate_scaler a = covariate_scaler b ∧
  covariate_regressor a = covariate_regressor b ∧
  fitted_state a = fitted_state b.

(** The time budget as the specification words it:
    [min((time_limit - elapsed) * ratio, cap)], uncapped when there is no cap. *)
Definition adjusted_budget (time_limit elapsed ratio : Qc) (cap : option Qc) : Qc :=
  let scaled := (time_limit - elapsed) * ratio in
  match cap with
  | Some c => if decide (scaled ≤ c) then scaled else c
  | None => scaled
  end.

(** A stored list of quantile levels is a sorted set when it is strictly
    increasing. *)
Definition sorted_levels (l : list Qc) : Prop := StronglySorted Qclt l.

(** The warnings logged for the keys of a mapping, in key order. *)
Definition key_warnings (keys : list pykey) : list Event :=
  (λ k, Logged 30 (NonStringKey k)) <$> filter (λ k, is_str_key k = false) keys.

(** The world after more events were recorded. *)
Definition with_events (w : World) (new : list Event) : World :=
  mkWorld (clock w) (files w) (write_protected w) (events w ++ new).

(** Reading the clock once. *)
Definition tick (w : World) : World :=
  mkWorld (tail (clock w)) (files w) (write_protected w) (events w).

(** The ratio and the cap of the time budget: the auxiliary arguments
    [max_time_limit_ratio], defaulting to the class attribute, and
    [max_time_limit], [None] when unset. *)
Definition budget_ratio (cls : ModelClass) (self : Model) : pyval :=
  default (PyNum (default_max_time_limit_ratio cls))
          (dict_get (KStr "max_time_limit_ratio") (_extra_ag_args self)).

Definition budget_cap (self : Model) : pyval :=
  py_get (KStr "max_time_limit") (_extra_ag_args self).

(** A cap value read as "no cap" or as a number. *)
Definition cap_of (v : pyval) : option (option Qc) :=
  if is_not_None v then Some <$> as_number v else Some None.

(** A method keeps a relation between the world it starts in and the
    world it ends in, whether it returns or raises. *)
Definition preserves {A} (R : relation World) (c : Method A) : Prop :=
  ∀ s r s', c s = (r, s') → R s.2 s'.2.

(** Only events were recorded, none of them a call of the training hook;
    clock and disk are as before. *)
Definition quiet_step : relation World := λ w w',
  ∃ l, w' = with_events w l ∧ ∀ args, CalledFit args ∉ l.

(** Events were recorded, none of them a call of the training hook. *)
Definition no_call_step : relation World := λ w w',
  ∃ l, events w' = events w ++ l ∧ ∀ args, CalledFit args ∉ l.

(** The prefix that [join] puts before a relative name: the directory,
    with a separator added unless it is empty or ends in one. *)
Definition join_prefix (d : list ascii) : list ascii :=
  if bool_decide (d = []) || ends_with [sep] d then d else d ++ [sep].

Definition path_prefix (d : string) : string := text (join_prefix (chars d)).

(** What the constructor establishes about the stored levels: they lie
    in (0, 1), the median is among them, and when the median was added
    they are strictly increasing. *)
Definition levels_invariant (self : Model) : Prop :=
  Forall (λ q, 0 < q < 1) (quantile_levels self) ∧
  half ∈ quantile_levels self ∧
  (must_drop_median self = true → sorted_levels (quantile_levels self)).

(** The metric factory gives the scorer of a model back when handed its
    name. *)
Definition metric_round_trips (E : External) (self : Model) : Prop :=
  check_get_evaluation_metric E (Some (metric_name (eval_metric self)))
                              (prediction_length self)
  = Return (eval_metric self).

(** The inputs of the prediction hook before [preprocess]: the data and
    the known covariates after the transforms of lines 594-600. *)
Definition transformed_inputs (ts : option TargetScaler) (cs : option CovariateScaler)
    (cr : option CovariateRegressor) (data : Frame) (known : option Frame)
    : Frame * option Frame :=
  let data := from_option (λ t, map_values (ts_fit_transform t) data) data ts in
  let data' := from_option (λ t, map_values (cs_fit_transform t) data) data cs in
  let known' :=
    from_option (λ t, map_values (cs_transform_known_covariates t) <$> known) known cs in
  (from_option (λ t, map_values (cr_fit_transform t) data') data' cr, known').

(** The data of the column labelled [l] in the hook's table; a column of
    NaN when the hook emitted no such column. *)
Definition hook_column (raw : Frame) (l : label) : list cell :=
  default (nan_column raw) (head (select l raw)).

(** Where the values of a returned column come from: "mean" is taken from
    the hook's "0.5" when the metric is optimized by the median and the
    median is among the levels, every other column from the hook's column
    of the same label. *)
Definition source_label (self : Model) (l : label) : label :=
  if decide (l = Mean) then
    if optimized_by_median (eval_metric self) && bool_decide (half ∈ quantile_levels self)
    then median_label else Mean
  else l.

(** The formula of the time budget over the operations of the runtime:
    [min((time_limit - (t1 - t0)) * ratio, cap)] for the clock readings
    [t0] at the start of [fit] and [t1] after the preparation. *)
Definition float_budget (F : FloatArith) (time_limit t0 t1 ratio : Qc) (cap : option Qc)
    : Qc :=
  let scaled := fl_mul F (fl_sub F time_limit (fl_sub F t1 t0)) ratio in
  match cap with
  | Some c => if decide (scaled ≤ c) then scaled else c
  | None => scaled
  end.

(** What [fit] makes of a call of the training hook: it returns the
    instance as the hook left it, or raises what the hook raised; [w] is
    the world after the call. *)
Definition fit_outcome (hooked : outcome () * Model) (w : World)
    : outcome Model * (Model * World) :=
  (match hooked.1 with Return _ => Return hooked.2 | Raise e => Raise e end,
   (hooked.2, w)).

(** A method that neither reads nor changes the world, run by a hook. *)
Definition in_hook {A} (c : Method A) : Model → outcome A * Model := λ self,
  let '(r, (self, _)) := c (self, mkWorld [] ∅ ∅ []) in (r, self).

(** A training hook that starts with [self._check_fit_params()] and then
    trains. *)
Definition checked_fit (cls : ModelClass) (train : FitArgs → Model → outcome () * Model)
    : FitArgs → Model → outcome () * Model := λ args self,
  match in_hook (_check_fit_params cls) self with
  | (Return _, self) => train args self
  | (Raise e, self) => (Raise e, self)
  end.

(** The subclass above with a training hook that starts with the check. *)
Definition checked_class : ModelClass :=
  with_fit_hook (checked_fit (demo_class []) (_fit (demo_class []))) (demo_class []).

(** ** Proofs *)

(** *** The monad *)

Section MonadFacts.
Context {S : Type}.

Lemma bind_return {A B} (c : Py S A) (k : A → Py S B) s a s' :
  c s = (Return a, s') → (c ≫= k) s = k a s'.
Proof. intros H. unfold mbind, py_bind. by rewrite H. Qed.

Lemma bind_raise {A B} (c : Py S A) (k : A → Py S B) s e s' :
  c s = (Raise e, s') → (c ≫= k) s = (Raise e, s').
Proof. intros H. unfold mbind, py_bind. by rewrite H. Qed.

Lemma bind_return_inv {A B} (c : Py S A) (k : A → Py S B) s b s'' :
  (c ≫= k) s = (Return b, s'') →
  ∃ a s', c s = (Return a, s') ∧ k a s' = (Return b, s'').
Proof.
  unfold mbind, py_bind. destruct (c s) as [[a|e] s'] eqn:Hc; [eauto | done].
Qed.

Lemma ret_run {A} (a : A) (s : S) : mret (M := Py S) a s = (Return a, s).
Proof. reflexivity. Qed.

Lemma throw_run {A} (e : exn) (s : S) : mthrow (M := Py S) (A := A) e s = (Raise e, s).
Proof. reflexivity. Qed.
End MonadFacts.

(** *** Quantile levels *)

Section QuantileLevels.

Lemma strict_of_sorted_NoDup (l : list Qc) :
  StronglySorted Qcle l → NoDup l → StronglySorted Qclt l.
Proof.
  induction 1 as [|x l Hs IH Hx]; intros Hnd; [constructor |].
  apply NoDup_cons in Hnd as [Hnotin Hnd].
  constructor; [by apply IH |].
  rewrite Forall_forall in Hx |- *. intros y Hy.
  destruct (Qcle_lt_or_eq _ _ (Hx y Hy)) as [Hlt | ->]; [done | by destruct Hnotin].
Qed.

Lemma sorted_set_elem (q : Qc) (l : list Qc) : q ∈ sorted_set l ↔ q ∈ l.
Proof.
  unfold sorted_set. rewrite merge_sort_Permutation. apply elem_of_remove_dups.
Qed.

Lemma sorted_set_sorted (l : list Qc) : sorted_levels (sorted_set l).
Proof.
  apply strict_of_sorted_NoDup.
  - apply (StronglySorted_merge_sort _).
  - unfold sorted_set. rewrite merge_sort_Permutation. apply NoDup_remove_dups.
Qed.

Lemma sorted_levels_NoDup (l : list Qc) : sorted_levels l → NoDup l.
Proof.
  induction 1 as [|x l Hs IH Hx]; constructor; [| done].
  intros Hin. rewrite Forall_forall in Hx. by destruct (Qclt_not_eq _ _ (Hx x Hin)).
Qed.

Lemma half_valid : 0 < half < 1.
Proof. split; reflexivity. Qed.
End QuantileLevels.

Section Init.
Context (E : External) (cls : ModelClass).

(** What a successful construction has checked and stored. *)
Lemma init_inv path_ name_ hp fr pl md tg levels em w m w' :
  __init__ E cls path_ name_ hp fr pl md tg levels em w = (Return m, w') →
  Forall (λ q, 0 < q < 1) levels ∧
  quantile_levels m =
    (if decide (half ∈ levels) then levels else sorted_set (half :: levels)) ∧
  must_drop_median m = (if decide (half ∈ levels) then false else true) ∧
  ∃ w1, _check_and_split_hyperparameters E hp w1
        = (Return (_hyperparameters m, _extra_ag_args m), w').
Proof.
  unfold __init__. intros H.
  apply bind_return_inv in H as (root & w1 & Hroot & H).
  apply bind_return_inv in H as (metric & w2 & Hmetric & H).
  destruct (forallb _ levels) eqn:Hvalid; simpl in H; [| done].
  split.
  { apply Forall_forall. intros q Hq.
    rewrite forallb_forall in Hvalid.
    apply list_elem_of_In, Hvalid, bool_decide_eq_true in Hq. done. }
  destruct (decide (half ∈ levels));
    apply bind_return_inv in H as ([hp' extra] & w3 & Hsplit & H);
    rewrite ret_run in H; injection H as <- <-; simpl; eauto.
Qed.

(** A level outside (0, 1) makes construction fail. *)
Lemma init_rejects path_ name_ hp fr pl md tg levels em w q :
  q ∈ levels → ¬ (0 < q < 1) →
  ∃ e w', __init__ E cls path_ name_ hp fr pl md tg levels em w = (Raise e, w').
Proof.
  intros Hq Hbad.
  destruct (__init__ E cls path_ name_ hp fr pl md tg levels em w) as [[m|e] w'] eqn:H;
    [| eauto].
  apply init_inv in H as [Hall _].
  rewrite Forall_forall in Hall. by destruct Hbad; apply Hall.
Qed.

(** What construction guarantees about the stored levels. *)
Lemma init_quantile_levels path_ name_ hp fr pl md tg levels em w m w' :
  __init__ E cls path_ name_ hp fr pl md tg levels em w = (Return m, w') →
  Forall (λ q, 0 < q < 1) (quantile_levels m) ∧
  half ∈ quantile_levels m ∧
  (must_drop_median m = true ↔ half ∉ levels) ∧
  (half ∉ levels →
     quantile_levels m = sorted_set (half :: levels) ∧
     sorted_levels (quantile_levels m) ∧
     ∀ q, q ∈ quantile_levels m ↔ q = half ∨ q ∈ levels) ∧
  (half ∈ levels → quantile_levels m = levels).
Proof.
  intros H. apply init_inv in H as (Hvalid & Hlevels & Hdrop & _).
  rewrite Hlevels, Hdrop. destruct (decide (half ∈ levels)) as [Hin | Hnotin].
  - split; [done |]. split; [done |]. split; [| split]; [split | |]; done.
  - split; [| split; [| split; [| split]]].
    + apply Forall_forall. intros q Hq. apply (proj1 (sorted_set_elem _ _)) in Hq.
      apply elem_of_cons in Hq as [-> | Hq]; [apply half_valid |].
      rewrite Forall_forall in Hvalid. by apply Hvalid.
    + apply sorted_set_elem. left.
    + done.
    + intros _. split; [done |]. split; [apply sorted_set_sorted |].
      intros q. rewrite sorted_set_elem. apply elem_of_cons.
    + done.
Qed.

(** C1, on the levels (0.9, 0.5, 0.1): the median is among them, so the
    constructor takes the branch that stores the caller's sequence as it
    is; the stored levels are then not sorted, whereas the claim states
    that the stored levels are always a sorted set. *)
Theorem init_keeps_unsorted_levels path_ name_ hp fr pl md tg em w m w' :
  __init__ E cls path_ name_ hp fr pl md tg [Q2Qc 0.9; half; Q2Qc 0.1] em w
    = (Return m, w') →
  quantile_levels m = [Q2Qc 0.9; half; Q2Qc 0.1] ∧
  must_drop_median m = false ∧
  ¬ sorted_levels (quantile_levels m).
Proof.
  intros H. apply init_inv in H as (_ & Hlevels & Hdrop & _).
  destruct (decide (half ∈ [Q2Qc 0.9; half; Q2Qc 0.1])) as [_ | Hn];
    [| destruct Hn; right; left].
  rewrite Hlevels. repeat split; [done |].
  intros Hs. apply StronglySorted_inv in Hs as [_ Hhd].
  apply Forall_inv in Hhd. by vm_compute in Hhd.
Qed.
End Init.

Lemma init_keeps_unsorted_levels_witness :
  ∃ m w',
    __init__ demo_external (demo_class []) (Some "out") None None (Some "D") 7 None
             "target" [Q2Qc 0.9; half; Q2Qc 0.1] None (demo_world []) = (Return m, w') ∧
    quantile_levels m = [Q2Qc 0.9; half; Q2Qc 0.1] ∧
    must_drop_median m = false ∧
    ¬ sorted_levels (quantile_levels m).
Proof.
  eexists _, _. split; [vm_compute; reflexivity |].
  apply (init_keeps_unsorted_levels demo_external (demo_class [])
           (Some "out") None None (Some "D") 7 None "target" None (demo_world []) _
           (demo_world [])).
  vm_compute; reflexivity.
Defined.

(** Levels without the median get it added, in order. *)
Example init_adds_median :
  ∃ m, __init__ demo_external (demo_class []) (Some "out") None None (Some "D") 7 None
         "target" [Q2Qc 0.9; Q2Qc 0.1] None (demo_world []) = (Return m, demo_world []) ∧
       quantile_levels m = [Q2Qc 0.1; half; Q2Qc 0.9] ∧ must_drop_median m = true.
Proof. eexists. split; [vm_compute; reflexivity |]. split; reflexivity. Qed.

(** A level on the boundary is refused. *)
Example init_refuses_one :
  ∃ msg, __init__ demo_external (demo_class []) (Some "out") None None (Some "D") 7 None
           "target" [half; 1] None (demo_world [])
         = (Raise (ValueError msg), demo_world []).
Proof. eexists. vm_compute. reflexivity. Qed.

(** *** Dictionaries *)

Section DictFacts.
Implicit Types (d : pydict) (k : pykey) (v : pyval).

Lemma dict_get_remove_eq k d : dict_get k (dict_remove k d) = None.
Proof.
  induction d as [|[k' v'] d IH]; simpl; [done |].
  destruct (decide (k' = k)); simpl; [done |]. by rewrite decide_False.
Qed.

Lemma dict_get_remove_ne k k' d : k' ≠ k → dict_get k' (dict_remove k d) = dict_get k' d.
Proof.
  intros Hne. induction d as [|[k0 v0] d IH]; simpl; [done |].
  destruct (decide (k0 = k)) as [-> | Hk]; simpl.
  - by rewrite decide_False.
  - by rewrite IH.
Qed.

Lemma dict_keys_remove k k' d :
  k' ∈ dict_keys (dict_remove k d) ↔ k' ∈ dict_keys d ∧ k' ≠ k.
Proof.
  unfold dict_keys. induction d as [|[k0 v0] d IH]; simpl.
  - rewrite elem_of_nil. tauto.
  - destruct (decide (k0 = k)) as [-> | Hk]; simpl; rewrite ?elem_of_cons, IH.
    + split; [tauto |]. intros [[-> | ?] ?]; tauto.
    + split; [| tauto]. intros [-> | []]; tauto.
Qed.

Lemma dict_get_values k v d : dict_get k d = Some v → v ∈ dict_values d.
Proof.
  unfold dict_values. induction d as [|[k0 v0] d IH]; simpl; [done |].
  destruct (decide (k0 = k)); intros H.
  - injection H as ->. left.
  - right. by apply IH.
Qed.

Lemma dict_get_set k k' v d :
  dict_get k' (dict_set k v d) = if decide (k = k') then Some v else dict_get k' d.
Proof.
  induction d as [|[k0 v0] d IH]; simpl.
  - done.
  - destruct (decide (k0 = k)) as [-> | Hk]; simpl.
    + by destruct (decide (k = k')).
    + destruct (decide (k0 = k')) as [-> | Hk'].
      * by rewrite decide_False.
      * done.
Qed.

(** In [{**a, **b}] the entries of [b] win. *)
Lemma dict_get_merge k a b :
  dict_wf b →
  dict_get k (dict_merge a b) = from_option Some (dict_get k a) (dict_get k b).
Proof.
  unfold dict_merge, dict_wf, dict_keys. revert a.
  induction b as [|[k0 v0] b IH]; intros a Hwf; simpl; [done |].
  apply NoDup_cons in Hwf as [Hnotin Hwf].
  rewrite IH by done. destruct (decide (k0 = k)) as [-> | Hk].
  - assert (dict_get k b = None) as ->; [| simpl; by rewrite dict_get_set, decide_True].
    clear -Hnotin. induction b as [|[k1 v1] b IH]; simpl; [done |].
    simpl in Hnotin. rewrite not_elem_of_cons in Hnotin. destruct Hnotin as [Hne Hnotin].
    rewrite decide_False by done. by apply IH.
  - destruct (dict_get k b); simpl; [done |]. by rewrite dict_get_set, decide_False.
Qed.
End DictFacts.

(** *** The hyperparameter split *)

Section HyperparameterSplit.
Context (E : External).

Lemma with_events_nil w : with_events w [] = w.
Proof. destruct w. unfold with_events. simpl. by rewrite app_nil_r. Qed.

Lemma with_events_app w l1 l2 :
  with_events (with_events w l1) l2 = with_events w (l1 ++ l2).
Proof. unfold with_events. simpl. by rewrite app_assoc. Qed.

Lemma warning_loop (keys : list pykey) (w : World) :
  ∃ us,
    mapM (M := Static)
         (λ k, if is_str_key k then mret () else logger_log 30 (NonStringKey k)) keys w
    = (Return us, with_events w (key_warnings keys)).
Proof.
  revert w. induction keys as [|k keys IH]; intros w; simpl.
  - exists []. by rewrite ret_run, with_events_nil.
  - unfold key_warnings. destruct (is_str_key k) eqn:Hk.
    + rewrite filter_cons_False by (by rewrite Hk).
      destruct (IH w) as [us Hus]. exists (() :: us).
      erewrite bind_return by apply ret_run.
      erewrite bind_return by apply Hus. done.
    + rewrite filter_cons_True by done.
      destruct (IH (with_events w [Logged 30 (NonStringKey k)])) as [us Hus].
      exists (() :: us).
      erewrite bind_return by reflexivity.
      erewrite bind_return by apply Hus.
      by rewrite ret_run, with_events_app.
Qed.

(** The split in closed form. *)
Lemma split_run (d : pydict) (w : World) :
  _check_and_split_hyperparameters E (Some (PyDict d)) w
  = (match default (PyDict []) (dict_get (KStr (AG_ARGS_FIT E)) d) with
     | PyDict extra => Return (dict_remove (KStr (AG_ARGS_FIT E)) d, extra)
     | _ => Raise (ValueError "Invalid hyperparameter type for ag_args_fit. Expected dict")
     end,
     with_events w (key_warnings (dict_keys d))).
Proof.
  unfold _check_and_split_hyperparameters. simpl.
  destruct (warning_loop (dict_keys d) w) as [us Hus].
  erewrite bind_return by apply Hus.
  unfold dict_pop. by destruct (default _ _).
Qed.

(** C7: the constructor takes the reserved key out of the hyperparameters
    and stores its value separately; a value under that key that is not
    a mapping makes construction fail; keys that are not strings are
    kept with their values and only logged as warnings, and the split
    fails in no other case than the non-mapping value. *)
Theorem init_splits_hyperparameters cls path_ name_ d fr pl md tg levels em w r w' :
  __init__ E cls path_ name_ (Some (PyDict d)) fr pl md tg levels em w = (r, w') →
  (∀ v, dict_get (reserved_key E) d = Some v → is_dict v = false → ∃ e, r = Raise e) ∧
  (∀ m, r = Return m →
     _hyperparameters m = dict_remove (reserved_key E) d ∧
     dict_get (reserved_key E) (_hyperparameters m) = None ∧
     PyDict (_extra_ag_args m) = default (PyDict []) (dict_get (reserved_key E) d) ∧
     ∀ k, k ∈ dict_keys d → is_str_key k = false →
       k ∈ dict_keys (_hyperparameters m) ∧
       dict_get k (_hyperparameters m) = dict_get k d ∧
       Logged 30 (NonStringKey k) ∈ events w') ∧
  is_error (_check_and_split_hyperparameters E (Some (PyDict d)) w).1
    = negb (is_dict (default (PyDict []) (dict_get (reserved_key E) d))).
Proof.
  intros H.
  assert (Hret : ∀ m, r = Return m →
            ∃ w1, default (PyDict []) (dict_get (reserved_key E) d)
                  = PyDict (_extra_ag_args m) ∧
                  _hyperparameters m = dict_remove (reserved_key E) d ∧
                  w' = with_events w1 (key_warnings (dict_keys d))).
  { intros m ->. apply init_inv in H as (_ & _ & _ & w1 & Hsplit).
    rewrite split_run in Hsplit. fold (reserved_key E) in Hsplit. exists w1.
    destruct (default _ _); try done. by simplify_eq. }
  split; [| split].
  - intros v Hv Hnd. destruct r as [m | e]; [| eauto].
    destruct (Hret m eq_refl) as (w1 & Hextra & _). rewrite Hv in Hextra. simpl in Hextra.
    by rewrite Hextra in Hnd.
  - intros m Hm. destruct (Hret m Hm) as (w1 & Hextra & Hhp & ->).
    rewrite Hhp. split; [done |]. split; [apply dict_get_remove_eq |].
    split; [done |]. intros k Hk Hstr.
    assert (k ≠ reserved_key E) by (intros ->; done).
    split; [by apply dict_keys_remove |]. split; [by apply dict_get_remove_ne |].
    simpl. apply elem_of_app. right. unfold key_warnings.
    apply list_elem_of_fmap. exists k. split; [done |]. by apply list_elem_of_filter.
  - rewrite split_run. simpl. fold (reserved_key E). by destruct (default _ _).
Qed.
End HyperparameterSplit.

Lemma init_splits_hyperparameters_witness :
  ∃ m w',
    __init__ demo_external (demo_class []) (Some "out") None
             (Some (PyDict demo_hyperparameters)) (Some "D") 7
             None "target" [Q2Qc 0.1; half] None (demo_world []) = (Return m, w') ∧
    _hyperparameters m = [(KInt 3, PyStr "x"); (KStr "seasonal_period", PyNum (Q2Qc 7))] ∧
    _extra_ag_args m = [(KStr "max_time_limit", PyNum (Q2Qc 50))] ∧
    Logged 30 (NonStringKey (KInt 3)) ∈ events w'.
Proof.
  eexists _, _.
  assert (H : __init__ demo_external (demo_class []) (Some "out") None
                (Some (PyDict demo_hyperparameters))
                (Some "D") 7 None "target" [Q2Qc 0.1; half] None (demo_world [])
              = (Return _, _)) by (vm_compute; reflexivity).
  split; [exact H |].
  destruct (init_splits_hyperparameters demo_external _ _ _ _ _ _ _ _ _ _ _ _ _ H)
    as (_ & Hkept & _).
  destruct (Hkept _ eq_refl) as (Hhp & _ & Hextra & Hkeys).
  split; [exact Hhp |].
  split; [exact (f_equal (λ v, if v is PyDict e then e else []) Hextra) |].
  apply (Hkeys (KInt 3)); [left | done].
Defined.

(** *** Computations that never call the training hook *)

Section Preserves.

Global Instance quiet_step_preorder : PreOrder quiet_step.
Proof.
  split.
  - intros w. exists []. rewrite with_events_nil.
    split; [done | intros args; apply not_elem_of_nil].
  - intros w1 w2 w3 (l1 & -> & H1) (l2 & -> & H2). exists (l1 ++ l2).
    rewrite with_events_app. split; [done |].
    intros args [? | ?]%elem_of_app; naive_solver.
Qed.

Global Instance no_call_step_preorder : PreOrder no_call_step.
Proof.
  split.
  - intros w. exists []. rewrite app_nil_r.
    split; [done | intros args; apply not_elem_of_nil].
  - intros w1 w2 w3 (l1 & E1 & H1) (l2 & E2 & H2). exists (l1 ++ l2).
    rewrite E2, E1, app_assoc. split; [done |].
    intros args [? | ?]%elem_of_app; naive_solver.
Qed.

Lemma quiet_no_call w w' : quiet_step w w' → no_call_step w w'.
Proof. intros (l & -> & Hl). by exists l. Qed.

Context (R : relation World) `{!PreOrder R}.

Lemma preserves_pure {A} (c : Method A) : (∀ s, (c s).2.2 = s.2) → preserves R c.
Proof. intros Hc s r s' H. specialize (Hc s). rewrite H in Hc. simpl in Hc. by rewrite Hc. Qed.

Lemma preserves_bind {A B} (c : Method A) (k : A → Method B) :
  preserves R c → (∀ a, preserves R (k a)) → preserves R (c ≫= k).
Proof.
  intros Hc Hk s r s' H. unfold mbind, py_bind in H.
  destruct (c s) as [[a | e] s1] eqn:Hcs.
  - etrans; [by eapply Hc | by eapply Hk].
  - injection H as <- <-. by eapply Hc.
Qed.

Lemma preserves_ret {A} (a : A) : preserves R (mret (M := Method) a).
Proof. by apply preserves_pure. Qed.

Lemma preserves_throw {A} (e : exn) : preserves R (mthrow (M := Method) (A := A) e).
Proof. by apply preserves_pure. Qed.

Lemma preserves_lift_outcome {A} (r : outcome A) : preserves R (lift_outcome r).
Proof. by apply preserves_pure. Qed.

Lemma preserves_get_self : preserves R get_self.
Proof. by apply preserves_pure. Qed.

Lemma preserves_modify_self f : preserves R (modify_self f).
Proof. by apply preserves_pure. Qed.

Lemma preserves_run_hook {A} (h : Model → outcome A * Model) : preserves R (run_hook h).
Proof. apply preserves_pure. intros s. unfold run_hook. by destruct (h s.1). Qed.

Lemma preserves_read_attr {A} attr (f : Model → option A) : preserves R (read_attr attr f).
Proof.
  apply preserves_pure. intros s. unfold read_attr, mbind, py_bind. simpl.
  by destruct (f s.1).
Qed.

Lemma preserves_apply_transform {T} attr get (method : T → ValueMap) data :
  preserves R (apply_transform attr get method data).
Proof.
  apply preserves_bind; [apply preserves_read_attr | intros; apply preserves_ret].
Qed.
End Preserves.

Lemma quiet_emit e : (∀ args, e ≠ CalledFit args) → preserves quiet_step (lift_static (emit e)).
Proof.
  intros He s r s' H. unfold lift_static, emit in H. simpl in H. injection H as <- <-.
  exists [e]. split; [done |]. intros args Hin%list_elem_of_singleton. by eapply He.
Qed.

Lemma no_call_emit e :
  (∀ args, e ≠ CalledFit args) → preserves no_call_step (lift_static (emit e)).
Proof. intros He s r s' H. by eapply quiet_no_call, quiet_emit. Qed.

Lemma time_monotonic_run w : time_monotonic w = (Return (hd 0 (clock w)), tick w).
Proof. by destruct w as [[|t c] f p e]. Qed.

Lemma no_call_time_monotonic : preserves no_call_step (lift_static time_monotonic).
Proof.
  intros s r s' H. unfold lift_static in H. rewrite time_monotonic_run in H.
  injection H as <- <-. exists []. simpl. rewrite app_nil_r.
  split; [done | intros args; apply not_elem_of_nil].
Qed.

Create HintDb preserves.

Global Hint Resolve preserves_ret preserves_throw preserves_lift_outcome
  preserves_get_self preserves_modify_self preserves_run_hook
  preserves_read_attr preserves_apply_transform no_call_time_monotonic : preserves.

Ltac preserves_steps :=
  repeat first
    [ progress eauto with preserves typeclass_instances
    | apply preserves_bind; [apply _ | | intros ?]
    | apply quiet_emit; discriminate
    | apply no_call_emit; discriminate
    | match goal with
      | |- preserves _ (match ?x with _ => _ end) => destruct x
      | |- preserves _ (if ?x then _ else _) => destruct x
      | |- preserves _ (let '(_, _) := ?x in _) => destruct x
      end ].

Section FitPhases.
Context (E : External) (cls : ModelClass).

Lemma fit_prepare_quiet train val tl verbosity :
  preserves quiet_step (fit_prepare E cls train val tl verbosity).
Proof.
  unfold fit_prepare, _initialize_transforms_and_regressor. preserves_steps.
Qed.

Lemma fit_time_budget_no_call start tl :
  preserves no_call_step (fit_time_budget cls start tl).
Proof.
  unfold fit_time_budget, _preprocess_time_limit. preserves_steps.
Qed.

(** [min] as Python computes it is the smaller of the two. *)
Lemma py_min_spec (a b : Qc) : py_min a b = if decide (a ≤ b) then a else b.
Proof.
  unfold py_min. destruct (decide (b < a)) as [Hlt | Hge], (decide (a ≤ b)) as [Hle | Hgt];
    try done.
  - by destruct (Qclt_not_le _ _ Hlt).
  - by destruct Hgt; apply Qcnot_lt_le.
Qed.

(** The budget phase in closed form. *)
Lemma fit_time_budget_run start t m w r cap :
  as_number (budget_ratio cls m) = Some r →
  cap_of (budget_cap m) = Some cap →
  let b := adjusted_budget t (hd 0 (clock w) - start) r cap in
  ∃ l, (∀ args, CalledFit args ∉ l) ∧
    fit_time_budget cls start (Some t) (m, w)
    = if decide (b ≤ 0)
      then (Raise TimeLimitExceeded,
            (m, with_events (tick w) (l ++ [Logged 30 (NoTimeLeft b)])))
      else (Return (Some b), (m, with_events (tick w) l)).
Proof.
  intros Hr Hcap b.
  assert (Hadj : ∃ l, (∀ args, CalledFit args ∉ l) ∧
            _preprocess_time_limit cls (t - (hd 0 (clock w) - start)) (m, tick w)
            = (Return b, (m, with_events (tick w) l))).
  { unfold _preprocess_time_limit. erewrite bind_return by reflexivity. simpl.
    fold (budget_ratio cls m) (budget_cap m). rewrite Hr.
    erewrite bind_return by reflexivity.
    unfold cap_of in Hcap. unfold b, adjusted_budget.
    set (scaled := (t - (hd 0 (clock w) - start)) * r) in *.
    assert (Hcapped : ∃ c, (if is_not_None (budget_cap m)
               then match as_number (budget_cap m) with
                    | Some cap => mret (M := Method) (py_min scaled cap)
                    | None => mthrow TypeError
                    end
               else mret scaled) = mret c ∧
               c = match cap with
                   | Some c => if decide (scaled ≤ c) then scaled else c
                   | None => scaled
                   end).
    { destruct (is_not_None (budget_cap m)).
      - destruct (as_number (budget_cap m)) as [c |]; [| done]. injection Hcap as <-.
        eexists. split; [done |]. apply py_min_spec.
      - injection Hcap as <-. eauto. }
    destruct Hcapped as (c & -> & <-).
    erewrite bind_return by reflexivity.
    destruct (decide (_ ≠ c)).
    - eexists [_]. split; [| reflexivity].
      intros args Hin%list_elem_of_singleton. discriminate.
    - exists []. rewrite with_events_nil.
      split; [intros args; apply not_elem_of_nil | reflexivity]. }
  destruct Hadj as (l & Hl & Hadj). exists l. split; [done |].
  unfold fit_time_budget.
  erewrite bind_return by (unfold lift_static; simpl; by rewrite time_monotonic_run).
  erewrite bind_return by apply Hadj.
  destruct (decide (b ≤ 0)); [| done].
  erewrite bind_return by reflexivity. rewrite throw_run.
  unfold with_events. simpl. by rewrite app_assoc.
Qed.

(** The start of [fit]: the first clock reading, then the preparation. *)
Lemma fit_after_prepare train val tl verbosity kwargs m w tr va s1 :
  fit_prepare E cls train val tl verbosity (m, tick w) = (Return (tr, va), s1) →
  fit E cls train val tl verbosity kwargs (m, w)
  = (time_limit ← fit_time_budget cls (hd 0 (clock w)) tl;
     let args := {| fa_train_data := tr; fa_val_data := va;
                    fa_time_limit := time_limit; fa_verbosity := verbosity;
                    fa_kwargs := kwargs ∪ _get_system_resources E |} in
     fit_call_hook cls args) s1.
Proof.
  intros Hprep. unfold fit.
  erewrite bind_return by (unfold lift_static; simpl; by rewrite time_monotonic_run).
  by erewrite bind_return by apply Hprep.
Qed.

(** The ratio written in the base class. *)
Example base_class_ratio cname fit_hook predict_hook :
  default_max_time_limit_ratio (AbstractTimeSeriesModel cname fit_hook predict_hook)
  = Q2Qc 0.9.
Proof. reflexivity. Qed.
End FitPhases.

(** C4: under the same readings, an adjusted budget that is not positive
    makes [fit] raise [TimeLimitExceeded], a signal of its own; among the
    events recorded during the call there is no call of the training
    hook, and the outcome is the same whatever the training hook is. *)
Theorem fit_without_time_left E cls train val t verbosity kwargs m w t0 t1 rest tr va m1 w1 r cap :
  clock w = t0 :: t1 :: rest →
  fit_prepare E cls train val (Some t) verbosity (m, tick w) = (Return (tr, va), (m1, w1)) →
  as_number (budget_ratio cls m1) = Some r →
  cap_of (budget_cap m1) = Some cap →
  adjusted_budget t (t1 - t0) r cap ≤ 0 →
  ∃ w2 new,
    fit E cls train val (Some t) verbosity kwargs (m, w) = (Raise TimeLimitExceeded, (m1, w2)) ∧
    events w2 = events w ++ new ∧
    (∀ args, CalledFit args ∉ new) ∧
    ∀ hook, fit E (with_fit_hook hook cls) train val (Some t) verbosity kwargs (m, w)
            = (Raise TimeLimitExceeded, (m1, w2)).
Proof.
  intros Hclock Hprep Hr Hcap Hle.
  destruct (fit_prepare_quiet _ _ _ _ _ _ _ _ _ Hprep) as (l0 & Hw1 & Hl0). simpl in Hw1.
  destruct (fit_time_budget_run cls t0 t m1 w1 r cap Hr Hcap) as (l & Hl & Hbudget).
  assert (hd 0 (clock w1) = t1) as Ht1 by (by rewrite Hw1; simpl; rewrite Hclock).
  rewrite Ht1, decide_True in Hbudget by done.
  rewrite (fit_after_prepare E cls _ _ _ _ _ _ _ _ _ _ Hprep), Hclock. simpl.
  erewrite bind_raise by apply Hbudget.
  eexists _, (l0 ++ l ++ [_]). split; [done |]. split; [| split].
  - rewrite Hw1. simpl. rewrite <- app_assoc. reflexivity.
  - intros args. rewrite !elem_of_app, list_elem_of_singleton.
    intros [? | [? | ?]]; [by eapply Hl0 | by eapply Hl | done].
  - intros hook.
    rewrite (fit_after_prepare E (with_fit_hook hook cls) _ _ _ _ _ _ _ _ _ _ Hprep), Hclock.
    simpl. by erewrite bind_raise by apply Hbudget.
Qed.

(** *** The call of the training hook *)

Section HookCall.
Context (E : External) (cls : ModelClass).

(** The last step of [fit]: the call is recorded, the hook runs on the
    instance, and [fit] returns the instance. *)
Lemma fit_call_hook_run args m w :
  fit_call_hook cls args (m, w)
  = fit_outcome (_fit cls args m) (with_events w [CalledFit args]).
Proof.
  unfold fit_call_hook, fit_outcome.
  erewrite bind_return by reflexivity. cbn [fst snd].
  destruct (_fit cls args m) as [[[] | e] m'] eqn:Hfit.
  - erewrite bind_return; last first.
    { unfold run_hook. cbn [fst snd]. by rewrite Hfit. }
    reflexivity.
  - erewrite bind_raise; last first.
    { unfold run_hook. cbn [fst snd]. by rewrite Hfit. }
    reflexivity.
Qed.

(** The keyword arguments of the call, key by key. *)
Lemma hook_kwargs_lookup (kwargs : gmap string pyval) k :
  (kwargs ∪ _get_system_resources E) !! k =
  match kwargs !! k with
  | Some v => Some v
  | None => if decide (k = "num_cpus") then Some (get_cpu_count E)
            else if decide (k = "num_gpus") then Some (get_gpu_count E)
            else None
  end.
Proof.
  unfold _get_system_resources.
  destruct (kwargs !! k) as [v |] eqn:Hk.
  - by apply lookup_union_Some_l.
  - rewrite lookup_union_r by done. rewrite lookup_insert.
    destruct (decide ("num_cpus" = k)) as [<- | Hne].
    + by rewrite decide_True.
    + rewrite decide_False by done. rewrite lookup_singleton.
      destruct (decide ("num_gpus" = k)) as [<- | Hne'].
      * by rewrite decide_True.
      * by rewrite decide_False.
Qed.

(** C6: when [fit] gets as far as the training hook, it calls [_fit] on
    the instance, once, and its outcome is what that call makes of the
    instance.  The extra keyword arguments of the call are the discovered
    resources [num_cpus] and [num_gpus] overlaid with the caller's
    keyword arguments: a key the caller supplied keeps the caller's
    value. *)
Theorem fit_hook_kwargs train val tl verbosity kwargs m w tr va s1 budget m2 w2 :
  fit_prepare E cls train val tl verbosity (m, tick w) = (Return (tr, va), s1) →
  fit_time_budget cls (hd 0 (clock w)) tl s1 = (Return budget, (m2, w2)) →
  ∃ args,
    fit E cls train val tl verbosity kwargs (m, w)
    = fit_outcome (_fit cls args m2) (with_events w2 [CalledFit args]) ∧
    fa_train_data args = tr ∧ fa_val_data args = va ∧
    fa_time_limit args = budget ∧ fa_verbosity args = verbosity ∧
    ∀ k, fa_kwargs args !! k =
         match kwargs !! k with
         | Some v => Some v
         | None => if decide (k = "num_cpus") then Some (get_cpu_count E)
                   else if decide (k = "num_gpus") then Some (get_gpu_count E)
                   else None
         end.
Proof.
  intros Hprep Hbudget. eexists. split.
  - rewrite (fit_after_prepare _ _ _ _ _ _ _ _ _ _ _ _ Hprep).
    erewrite bind_return by apply Hbudget. apply fit_call_hook_run.
  - repeat split. intros k. apply hook_kwargs_lookup.
Qed.
End HookCall.

(** *** The time budget in the arithmetic of the runtime *)

(** Rounding to the nearest double on some values: 0.1 and 0.9 are not
    doubles, 0.5 and 90 are; of the integers around 2^53, the odd ones
    are ties and go to the even significand. *)
Example nearest_double_values :
  nearest_double (Q2Qc 0.1) = Q2Qc (3602879701896397 # 36028797018963968) ∧
  nearest_double (Q2Qc 0.9) = Q2Qc (8106479329266893 # 9007199254740992) ∧
  nearest_double (Q2Qc 0.5) = Q2Qc 0.5 ∧
  nearest_double (Q2Qc 90) = Q2Qc 90 ∧
  nearest_double (- Q2Qc 0.1) = - nearest_double (Q2Qc 0.1) ∧
  nearest_double (Q2Qc (9007199254740993 # 1)) = Q2Qc (9007199254740992 # 1) ∧
  nearest_double (Q2Qc (9007199254740995 # 1)) = Q2Qc (9007199254740996 # 1) ∧
  fl_mul binary64 (Q2Qc 100) (Q2Qc 0.9) = Q2Qc 90 ∧
  fl_sub binary64 (Q2Qc 0.3) (Q2Qc 0.1) = Q2Qc (7205759403792793 # 36028797018963968) ∧
  fl_sub binary64 (Q2Qc 0.3) (Q2Qc 0.1) ≠ nearest_double (Q2Qc 0.2).
Proof.
  do 9 (split; [apply Qc_is_canon; vm_compute; reflexivity |]).
  intros Heq. apply (f_equal this) in Heq. vm_compute in Heq. discriminate Heq.
Qed.

Section DoublesBudget.
Context (F : FloatArith) (E : External) (cls : ModelClass).

Lemma doubles_fit_prepare_quiet train val tl verbosity :
  preserves quiet_step (Doubles.fit_prepare F E cls train val tl verbosity).
Proof.
  unfold Doubles.fit_prepare, _initialize_transforms_and_regressor. preserves_steps.
Qed.

(** The budget phase in closed form. *)
Lemma doubles_fit_time_budget_run start t m w r cap :
  as_number (budget_ratio cls m) = Some r →
  cap_of (budget_cap m) = Some cap →
  let b := float_budget F t start (hd 0 (clock w)) r cap in
  ∃ l, (∀ args, CalledFit args ∉ l) ∧
    Doubles.fit_time_budget F cls start (Some t) (m, w)
    = if decide (b ≤ 0)
      then (Raise TimeLimitExceeded,
            (m, with_events (tick w) (l ++ [Logged 30 (NoTimeLeft b)])))
      else (Return (Some b), (m, with_events (tick w) l)).
Proof.
  intros Hr Hcap b.
  assert (Hadj : ∃ l, (∀ args, CalledFit args ∉ l) ∧
            Doubles._preprocess_time_limit F cls
              (fl_sub F t (fl_sub F (hd 0 (clock w)) start)) (m, tick w)
            = (Return b, (m, with_events (tick w) l))).
  { unfold Doubles._preprocess_time_limit. erewrite bind_return by reflexivity. simpl.
    fold (budget_ratio cls m) (budget_cap m). rewrite Hr.
    erewrite bind_return by reflexivity.
    unfold cap_of in Hcap. unfold b, float_budget.
    set (scaled := fl_mul F (fl_sub F t (fl_sub F (hd 0 (clock w)) start)) r) in *.
    assert (Hcapped : ∃ c, (if is_not_None (budget_cap m)
               then match as_number (budget_cap m) with
                    | Some cap => mret (M := Method) (py_min scaled cap)
                    | None => mthrow TypeError
                    end
               else mret scaled) = mret c ∧
               c = match cap with
                   | Some c => if decide (scaled ≤ c) then scaled else c
                   | None => scaled
                   end).
    { destruct (is_not_None (budget_cap m)).
      - destruct (as_number (budget_cap m)) as [c |]; [| done]. injection Hcap as <-.
        eexists. split; [done |]. apply py_min_spec.
      - injection Hcap as <-. eauto. }
    destruct Hcapped as (c & -> & <-).
    erewrite bind_return by reflexivity.
    destruct (decide (_ ≠ c)).
    - eexists [_]. split; [| reflexivity].
      intros args Hin%list_elem_of_singleton. discriminate.
    - exists []. rewrite with_events_nil.
      split; [intros args; apply not_elem_of_nil | reflexivity]. }
  destruct Hadj as (l & Hl & Hadj). exists l. split; [done |].
  unfold Doubles.fit_time_budget.
  erewrite bind_return by (unfold lift_static; simpl; by rewrite time_monotonic_run).
  erewrite bind_return by apply Hadj.
  destruct (decide (b ≤ 0)); [| done].
  erewrite bind_return by reflexivity. rewrite throw_run.
  unfold with_events. simpl. by rewrite app_assoc.
Qed.

(** The start of [fit]: the first clock reading, then the preparation. *)
Lemma doubles_fit_after_prepare train val tl verbosity kwargs m w tr va s1 :
  Doubles.fit_prepare F E cls train val tl verbosity (m, tick w) = (Return (tr, va), s1) →
  Doubles.fit F E cls train val tl verbosity kwargs (m, w)
  = (time_limit ← Doubles.fit_time_budget F cls (hd 0 (clock w)) tl;
     let args := {| fa_train_data := tr; fa_val_data := va;
                    fa_time_limit := time_limit; fa_verbosity := verbosity;
                    fa_kwargs := kwargs ∪ _get_system_resources E |} in
     fit_call_hook cls args) s1.
Proof.
  intros Hprep. unfold Doubles.fit.
  erewrite bind_return by (unfold lift_static; simpl; by rewrite time_monotonic_run).
  by erewrite bind_return by apply Hprep.
Qed.

(** C3: with a time limit [t], clock readings [t0] at the start and [t1]
    after the preparation, [fit] calls the training hook [_fit], once and
    after the preparation, with the budget min((t - (t1 - t0)) * ratio,
    cap) and the prepared data, and its outcome is what that call makes
    of the instance.  The ratio is the auxiliary argument
    max_time_limit_ratio or else the class default (0.9 in the base
    class) and cap the auxiliary argument max_time_limit; without a cap
    the budget is (t - (t1 - t0)) * ratio.  The subtractions and the
    multiplication are those of the runtime, whatever they are; [min]
    and the comparison with zero are exact. *)
Theorem fit_budget_formula train val t verbosity kwargs m w t0 t1 rest tr va m1 w1 r cap :
  clock w = t0 :: t1 :: rest →
  Doubles.fit_prepare F E cls train val (Some t) verbosity (m, tick w)
  = (Return (tr, va), (m1, w1)) →
  as_number (budget_ratio cls m1) = Some r →
  cap_of (budget_cap m1) = Some cap →
  0 < float_budget F t t0 t1 r cap →
  ∃ args logged,
    Doubles.fit F E cls train val (Some t) verbosity kwargs (m, w)
    = fit_outcome (_fit cls args m1)
        (with_events (tick w1) (logged ++ [CalledFit args])) ∧
    (∀ a, CalledFit a ∉ logged) ∧
    fa_time_limit args = Some (float_budget F t t0 t1 r cap) ∧
    fa_train_data args = tr ∧ fa_val_data args = va ∧
    fa_verbosity args = verbosity ∧
    fa_kwargs args = kwargs ∪ _get_system_resources E.
Proof.
  intros Hclock Hprep Hr Hcap Hpos.
  destruct (doubles_fit_prepare_quiet _ _ _ _ _ _ _ Hprep) as (l0 & Hw1 & _). simpl in Hw1.
  destruct (doubles_fit_time_budget_run t0 t m1 w1 r cap Hr Hcap) as (l & Hl & Hbudget).
  assert (hd 0 (clock w1) = t1) as Ht1 by (by rewrite Hw1; simpl; rewrite Hclock).
  rewrite Ht1 in Hbudget. simpl in Hbudget.
  rewrite decide_False in Hbudget by (by apply Qclt_not_le).
  rewrite (doubles_fit_after_prepare _ _ _ _ _ _ _ _ _ _ Hprep), Hclock. simpl.
  erewrite bind_return by apply Hbudget.
  rewrite fit_call_hook_run, with_events_app.
  eexists _, l. split; [reflexivity | done].
Qed.
End DoublesBudget.

(** Without rounding, the budget is the formula over the rationals. *)
Lemma float_budget_exact t t0 t1 r cap :
  float_budget exact_arith t t0 t1 r cap = adjusted_budget t (t1 - t0) r cap.
Proof. reflexivity. Qed.

(** With the exact operations, the methods are those of the class. *)
Lemma doubles_fit_exact E cls :
  Doubles._preprocess_time_limit exact_arith cls = _preprocess_time_limit cls ∧
  Doubles.fit_prepare exact_arith E cls = fit_prepare E cls ∧
  Doubles.fit_time_budget exact_arith cls = fit_time_budget cls ∧
  Doubles.fit exact_arith E cls = fit E cls.
Proof. repeat split; reflexivity. Qed.

Lemma fit_budget_formula_witness :
  (∃ m' w',
     fit demo_external recording_class demo_train None (Some (Q2Qc 100)) 2 ∅
         (naive_model [] [], demo_world [0; 0]) = (Return m', (m', w')) ∧
     dict_get (KStr "time_limit") (recorded_call m') = Some (PyNum (Q2Qc 90))) ∧
  (∃ m' w',
     fit demo_external recording_class demo_train None (Some (Q2Qc 100)) 2 ∅
         (naive_model [] capped_args, demo_world [0; 0]) = (Return m', (m', w')) ∧
     dict_get (KStr "time_limit") (recorded_call m') = Some (PyNum (Q2Qc 50))) ∧
  (∃ m' w',
     Doubles.fit binary64 demo_external recording_class demo_train None (Some (Q2Qc 100)) 2 ∅
         (naive_model [] [], demo_world [0; Q2Qc 10]) = (Return m', (m', w')) ∧
     dict_get (KStr "time_limit") (recorded_call m') = Some (PyNum (Q2Qc 81))) ∧
  (∃ m' w',
     Doubles.fit binary64 demo_external recording_class demo_train None (Some (Q2Qc 3)) 2 ∅
         (naive_model [] tenth_ratio_args, demo_world [0; 0]) = (Return m', (m', w')) ∧
     dict_get (KStr "time_limit") (recorded_call m')
     = Some (PyNum (Q2Qc (1351079888211149 # 4503599627370496))) ∧
     Q2Qc (1351079888211149 # 4503599627370496) ≠ Q2Qc 0.3).
Proof.
  split; [| split; [| split]].
  - edestruct (fit_budget_formula exact_arith demo_external recording_class demo_train None
                 (Q2Qc 100) 2 ∅ (naive_model [] []) (demo_world [0; 0]) 0 0 [])
      as (args & logged & Hfit & _ & Hlimit & _);
      [first [reflexivity | vm_compute; reflexivity] .. |].
    eexists _, _. split; [exact Hfit |].
    cbn [fit_outcome _fit recording_class AbstractTimeSeriesModel fst snd].
    change (dict_get (KStr "time_limit") (call_record args)
            = Some (PyNum (Q2Qc 90))).
    unfold call_record. cbn [dict_get]. rewrite Hlimit.
    unfold from_option. first [reflexivity | do 2 f_equal; by apply Qc_is_canon].
  - edestruct (fit_budget_formula exact_arith demo_external recording_class demo_train None
                 (Q2Qc 100) 2 ∅ (naive_model [] capped_args) (demo_world [0; 0]) 0 0 [])
      as (args & logged & Hfit & _ & Hlimit & _);
      [first [reflexivity | vm_compute; reflexivity] .. |].
    eexists _, _. split; [exact Hfit |].
    cbn [fit_outcome _fit recording_class AbstractTimeSeriesModel fst snd].
    change (dict_get (KStr "time_limit") (call_record args)
            = Some (PyNum (Q2Qc 50))).
    unfold call_record. cbn [dict_get]. rewrite Hlimit.
    unfold from_option. first [reflexivity | do 2 f_equal; by apply Qc_is_canon].
  - edestruct (fit_budget_formula binary64 demo_external recording_class demo_train None
                 (Q2Qc 100) 2 ∅ (naive_model [] []) (demo_world [0; Q2Qc 10]) 0 (Q2Qc 10) [])
      as (args & logged & Hfit & _ & Hlimit & _);
      [first [reflexivity | vm_compute; reflexivity] .. |].
    eexists _, _. split; [exact Hfit |].
    cbn [fit_outcome _fit recording_class AbstractTimeSeriesModel fst snd].
    change (dict_get (KStr "time_limit") (call_record args)
            = Some (PyNum (Q2Qc 81))).
    unfold call_record. cbn [dict_get]. rewrite Hlimit.
    unfold from_option. first [reflexivity | do 2 f_equal; by apply Qc_is_canon].
  - edestruct (fit_budget_formula binary64 demo_external recording_class demo_train None
                 (Q2Qc 3) 2 ∅ (naive_model [] tenth_ratio_args) (demo_world [0; 0]) 0 0 [])
      as (args & logged & Hfit & _ & Hlimit & _);
      [first [reflexivity | vm_compute; reflexivity] .. |].
    eexists _, _. split; [| split]; [exact Hfit | |].
    + cbn [fit_outcome _fit recording_class AbstractTimeSeriesModel fst snd].
      change (dict_get (KStr "time_limit") (call_record args)
              = Some (PyNum (Q2Qc (1351079888211149 # 4503599627370496)))).
      unfold call_record. cbn [dict_get]. rewrite Hlimit.
      unfold from_option. first [reflexivity | do 2 f_equal; by apply Qc_is_canon].
    + intros Heq. by apply (f_equal this) in Heq.
Defined.

Lemma fit_without_time_left_witness :
  ∃ m1 w2,
    fit demo_external (demo_class []) demo_train None (Some (Q2Qc 5)) 2 ∅
        (naive_model [] [], demo_world [0; Q2Qc 10])
    = (Raise TimeLimitExceeded, (m1, w2)) ∧
    ∀ args, CalledFit args ∉ events w2.
Proof.
  edestruct (fit_without_time_left demo_external (demo_class []) demo_train
               None (Q2Qc 5) 2 ∅ (naive_model [] [])
               (demo_world [0; Q2Qc 10]) 0 (Q2Qc 10) [])
    as (w2 & new & Hfit & Hevents & Hcalls & _);
    [first [reflexivity | vm_compute; reflexivity | by vm_compute] .. |].
  eexists _, w2. split; [exact Hfit |].
  rewrite Hevents. exact Hcalls.
Defined.

Lemma fit_hook_kwargs_witness :
  ∃ args m' w',
    fit demo_external recording_class demo_train None None 2 demo_kwargs
        (naive_model [] [], demo_world [0]) = (Return m', (m', w')) ∧
    fitted_state m' = PyDict (call_record args) ∧
    events w' = [CalledFit args] ∧
    fa_kwargs args !! "num_gpus" = Some (PyNum 1) ∧
    fa_kwargs args !! "num_cpus" = Some (PyNum (Q2Qc 8)) ∧
    fa_kwargs args !! "batch_size" = Some (PyNum (Q2Qc 32)) ∧
    fa_kwargs args !! "verbosity" = None.
Proof.
  edestruct (fit_hook_kwargs demo_external recording_class demo_train
               None None 2 demo_kwargs (naive_model [] []) (demo_world [0]))
    as (args & Hfit & _ & _ & _ & _ & Hkw); [vm_compute; reflexivity .. |].
  eexists args, _, _. split; [exact Hfit |].
  rewrite !Hkw. repeat split; reflexivity.
Defined.

(** *** Capabilities and hyperparameters *)

Section Hyperparameters.
Context (cls : ModelClass).

(** A value the caller set wins over the class default. *)
Lemma get_hyperparameters_user m k v :
  dict_wf (_hyperparameters m) →
  dict_get k (_hyperparameters m) = Some v →
  dict_get k (get_hyperparameters cls m) = Some v.
Proof.
  intros Hwf Hk. unfold get_hyperparameters. by rewrite dict_get_merge, Hk.
Qed.

(** C10: with a covariate regressor among the hyperparameters, known
    covariates and static features are supported whatever the class
    flags say; support for past covariates is the class flag alone. *)
Theorem covariate_regressor_capabilities m v :
  dict_get (KStr "covariate_regressor") (get_hyperparameters cls m) = Some v →
  v ≠ PyNone →
  supports_known_covariates cls m = true ∧
  supports_static_features cls m = true ∧
  ∀ m', supports_past_covariates cls m' = _supports_past_covariates cls.
Proof.
  intros Hv Hnone. unfold supports_known_covariates, supports_static_features, py_get.
  rewrite Hv. simpl. by destruct v.
Qed.

(** The check of the hyperparameters raises the error that points to
    [hyperparameter_tune] as soon as one value is a search space, and
    leaves the model and the world as they were. *)
Lemma check_fit_params_raises m w k descr :
  dict_get k (get_hyperparameters cls m) = Some (PySpace descr) →
  _check_fit_params cls (m, w)
  = (Raise (ValueError
       ("Hyperparameter spaces provided to `fit`. Please provide concrete values " +:+
        "as hyperparameters when initializing or use `hyperparameter_tune` instead.")),
     (m, w)).
Proof.
  intros Hk. unfold _check_fit_params.
  erewrite bind_return by reflexivity. cbn [fst].
  assert (existsb is_space (dict_values (get_hyperparameters cls m)) = true) as ->; [| done].
  apply existsb_exists. exists (PySpace descr).
  split; [| done]. by eapply list_elem_of_In, dict_get_values.
Qed.

(** Without a search space the check passes. *)
Lemma check_fit_params_accepts m w :
  Forall (λ v, is_space v = false) (dict_values (get_hyperparameters cls m)) →
  _check_fit_params cls (m, w) = (Return (), (m, w)).
Proof.
  intros Hall. unfold _check_fit_params. erewrite bind_return by reflexivity. cbn [fst].
  assert (existsb is_space (dict_values (get_hyperparameters cls m)) = false) as ->; [| done].
  apply not_true_is_false. intros (v & Hin & Hv)%existsb_exists.
  rewrite Forall_forall in Hall. apply list_elem_of_In, Hall in Hin. congruence.
Qed.
End Hyperparameters.

Lemma covariate_regressor_capabilities_witness :
  _supports_known_covariates (demo_class []) = false ∧
  _supports_static_features (demo_class []) = false ∧
  supports_known_covariates (demo_class []) regressor_model = true ∧
  supports_static_features (demo_class []) regressor_model = true ∧
  supports_past_covariates (demo_class []) regressor_model = false.
Proof.
  destruct (covariate_regressor_capabilities (demo_class []) regressor_model (PyStr "LR"))
    as (Hk & Hs & Hp); [reflexivity | discriminate |].
  rewrite Hk, Hs, Hp. repeat split; reflexivity.
Defined.

(** *** A training hook that checks the hyperparameters *)

Section CheckedFit.
Context (E : External) (cls : ModelClass).

(** C5 as amended: the instance holds a search space among its
    hyperparameters when [fit] reaches the training hook.  [fit] itself
    does not look at the hyperparameters: whatever the hook is, [fit]
    calls it, and its outcome is what the hook makes of the call.  With
    a hook that starts with [_check_fit_params], whatever it does next,
    [fit] raises the error that points to [hyperparameter_tune], and the
    instance is as it was when the hook was called: nothing was
    trained. *)
Theorem fit_rejects_search_spaces train val tl verbosity kwargs m w tr va s1 budget m2 w2 k descr :
  fit_prepare E cls train val tl verbosity (m, tick w) = (Return (tr, va), s1) →
  fit_time_budget cls (hd 0 (clock w)) tl s1 = (Return budget, (m2, w2)) →
  dict_get k (get_hyperparameters cls m2) = Some (PySpace descr) →
  ∃ args,
    (∀ hook,
       fit E (with_fit_hook hook cls) train val tl verbosity kwargs (m, w)
       = fit_outcome (hook args m2) (with_events w2 [CalledFit args])) ∧
    (∀ train_hook,
       fit E (with_fit_hook (checked_fit cls train_hook) cls) train val tl verbosity kwargs
           (m, w)
       = (Raise (ValueError
            ("Hyperparameter spaces provided to `fit`. Please provide concrete values " +:+
             "as hyperparameters when initializing or use `hyperparameter_tune` instead.")),
          (m2, with_events w2 [CalledFit args]))).
Proof.
  intros Hprep Hbudget Hk.
  assert (Hfit : ∀ hook,
            fit E (with_fit_hook hook cls) train val tl verbosity kwargs (m, w)
            = fit_outcome
                (hook {| fa_train_data := tr; fa_val_data := va; fa_time_limit := budget;
                         fa_verbosity := verbosity;
                         fa_kwargs := kwargs ∪ _get_system_resources E |} m2)
                (with_events w2
                   [CalledFit {| fa_train_data := tr; fa_val_data := va;
                                 fa_time_limit := budget; fa_verbosity := verbosity;
                                 fa_kwargs := kwargs ∪ _get_system_resources E |}])).
  { intros hook.
    rewrite (fit_after_prepare E (with_fit_hook hook cls) _ _ _ _ _ _ _ _ _ _ Hprep).
    erewrite bind_return by apply Hbudget. apply fit_call_hook_run. }
  eexists. split; [exact Hfit |].
  intros train_hook. rewrite Hfit. unfold checked_fit, in_hook.
  by rewrite (check_fit_params_raises cls m2 _ k descr Hk).
Qed.
End CheckedFit.

Lemma fit_rejects_search_spaces_witness :
  (∃ msg w',
     fit demo_external checked_class demo_train None None 2 ∅ (tuned_model, demo_world [0])
     = (Raise (ValueError msg), (tuned_model, w'))) ∧
  (∃ m' w',
     fit demo_external (demo_class []) demo_train None None 2 ∅ (tuned_model, demo_world [0])
     = (Return m', (m', w'))).
Proof.
  destruct (fit_rejects_search_spaces demo_external (demo_class []) demo_train None None 2 ∅
              tuned_model (demo_world [0]) demo_train None (tuned_model, demo_world [])
              None tuned_model (demo_world []) (KStr "learning_rate") "Real(0.0001, 0.1)")
    as (args & Hany & Hchecked); [vm_compute; reflexivity .. |].
  split.
  - eexists _, _. exact (Hchecked (_fit (demo_class []))).
  - eexists _, _. etrans; [exact (Hany (_fit (demo_class []))) |]. reflexivity.
Defined.

(** C5 as stated fails: [fit] never runs the check.  A model whose
    hyperparameters hold a search space is fitted without a time limit;
    the training hook is called and [fit] returns the model. *)
Lemma fit_ignores_search_spaces :
  existsb is_space (dict_values (get_hyperparameters (demo_class []) tuned_model)) = true ∧
  ∃ m' w' args,
    fit demo_external (demo_class []) demo_train None None 2 ∅
        (tuned_model, demo_world [0]) = (Return m', (m', w')) ∧
    CalledFit args ∈ events w'.
Proof.
  split; [reflexivity |]. eexists _, _, _. split; [vm_compute; reflexivity |].
  simpl. apply list_elem_of_singleton. reflexivity.
Qed.

(** *** Paths *)

Section Paths.

Lemma chars_text l : chars (text l) = l.
Proof. apply list_ascii_of_string_of_list_ascii. Qed.

Lemma text_chars s : text (chars s) = s.
Proof. apply string_of_list_ascii_of_string. Qed.

(** Joining a relative name appends it. *)
Lemma join_chars_suffix a b : starts_with [sep] b = false → ∃ x, join_chars a b = x ++ b.
Proof.
  intros Hb. unfold join_chars. rewrite Hb.
  destruct (_ || _); [by exists a |]. exists (a ++ [sep]). by rewrite <- app_assoc.
Qed.

(** The out-of-fold artifact and the model artifact never share a path. *)
Lemma oof_path_separate dir :
  os_path_join (os_path_join dir "utils") _oof_filename ≠ os_path_join dir model_file_name.
Proof.
  unfold os_path_join. intros H. apply (f_equal chars) in H. rewrite !chars_text in H.
  destruct (join_chars_suffix (join_chars (chars dir) (chars "utils")) (chars _oof_filename))
    as [x Hx]; [done |].
  destruct (join_chars_suffix (chars dir) (chars model_file_name)) as [y Hy]; [done |].
  rewrite Hx, Hy in H. apply (f_equal reverse) in H. rewrite !reverse_app in H.
  vm_compute (reverse (chars _)) in H. discriminate H.
Qed.
End Paths.

(** *** Saving *)

Section Save.

Lemma set_oof_predictions_restore m oof :
  _oof_predictions m = oof → set_oof_predictions oof (set_oof_predictions None m) = m.
Proof. intros <-. by destruct m. Qed.

(** [save] when the disk accepts the writes. *)
Lemma save_run path_arg m w :
  (is_Some (_oof_predictions m) →
   oof_artifact_path (default (path m) path_arg) ∉ write_protected w) →
  model_artifact_path (default (path m) path_arg) ∉ write_protected w →
  ∃ w',
    save path_arg (m, w) = (Return (default (path m) path_arg), (m, w')) ∧
    files w' !! model_artifact_path (default (path m) path_arg)
      = Some (PickledModel (set_oof_predictions None m)) ∧
    files w' !! oof_artifact_path (default (path m) path_arg)
      = match _oof_predictions m with
        | Some oof => Some (PickledFrames oof)
        | None => files w !! oof_artifact_path (default (path m) path_arg)
        end ∧
    ∀ p, p ≠ oof_artifact_path (default (path m) path_arg) →
         p ≠ model_artifact_path (default (path m) path_arg) →
         files w' !! p = files w !! p.
Proof.
  set (dir := default (path m) path_arg).
  pose proof (oof_path_separate dir) as Hsep.
  fold (oof_artifact_path dir) (model_artifact_path dir) in Hsep.
  intros Hoof Hmodel.
  unfold save. erewrite bind_return by reflexivity. cbn [fst].
  fold dir (oof_artifact_path dir) (model_artifact_path dir).
  destruct (_oof_predictions m) as [oof |] eqn:Hm.
  - erewrite bind_return; last first.
    { unfold lift_static, save_pkl. simpl. rewrite decide_False by eauto. reflexivity. }
    erewrite bind_return by reflexivity.
    erewrite bind_return by reflexivity.
    erewrite bind_return; last first.
    { unfold lift_static, save_pkl. simpl. rewrite decide_False by done. reflexivity. }
    erewrite bind_return by reflexivity. rewrite ret_run. simpl.
    rewrite (set_oof_predictions_restore m _ Hm). eexists. split; [reflexivity |]. simpl.
    split; [by rewrite lookup_insert_eq |].
    split; [by rewrite lookup_insert_ne, lookup_insert_eq |].
    intros p Hp1 Hp2. by rewrite !lookup_insert_ne.
  - erewrite bind_return by reflexivity.
    erewrite bind_return by reflexivity.
    erewrite bind_return by reflexivity.
    erewrite bind_return; last first.
    { unfold lift_static, save_pkl. simpl. rewrite decide_False by done. reflexivity. }
    erewrite bind_return by reflexivity. rewrite ret_run. simpl.
    rewrite (set_oof_predictions_restore m _ Hm). eexists. split; [reflexivity |]. simpl.
    split; [by rewrite lookup_insert_eq |].
    split; [by rewrite lookup_insert_ne |].
    intros p Hp1 Hp2. by rewrite !lookup_insert_ne.
Qed.

(** C8: when the disk accepts the writes, [save] returns the directory;
    the out-of-fold predictions, if there are any, are pickled under
    [utils/oof.pkl], a path other than that of [model.pkl]; the model is
    pickled with its out-of-fold field cleared; and the model in memory,
    out-of-fold predictions included, is what it was before the call. *)
Theorem save_separates_oof path_arg m w :
  (is_Some (_oof_predictions m) →
   oof_artifact_path (default (path m) path_arg) ∉ write_protected w) →
  model_artifact_path (default (path m) path_arg) ∉ write_protected w →
  ∃ w' pickled,
    save path_arg (m, w) = (Return (default (path m) path_arg), (m, w')) ∧
    oof_artifact_path (default (path m) path_arg)
      ≠ model_artifact_path (default (path m) path_arg) ∧
    files w' !! model_artifact_path (default (path m) path_arg)
      = Some (PickledModel pickled) ∧
    pickled = set_oof_predictions None m ∧
    _oof_predictions pickled = None ∧
    ∀ oof, _oof_predictions m = Some oof →
      files w' !! oof_artifact_path (default (path m) path_arg)
      = Some (PickledFrames oof).
Proof.
  intros Hoof Hmodel.
  destruct (save_run path_arg m w Hoof Hmodel) as (w' & Hsave & Hfile & Hoof' & _).
  exists w', (set_oof_predictions None m).
  split; [done |]. split; [apply oof_path_separate |]. split; [done |].
  split; [done |]. split; [by destruct m |].
  intros oof Hm. by rewrite Hoof', Hm.
Qed.
End Save.

Lemma save_separates_oof_witness :
  ∃ w',
    save None (cached_model, demo_world []) = (Return "out/Naive", (cached_model, w')) ∧
    files w' !! "out/Naive/utils/oof.pkl" = Some (PickledFrames demo_oof) ∧
    files w' !! "out/Naive/model.pkl"
      = Some (PickledModel (set_oof_predictions None cached_model)).
Proof.
  destruct (save_separates_oof None cached_model (demo_world []))
    as (w' & pickled & Hsave & _ & Hmodel & -> & _ & Hoof);
    [intros _; apply not_elem_of_empty | apply not_elem_of_empty |].
  exists w'. split; [exact Hsave |]. split; [exact (Hoof _ eq_refl) | exact Hmodel].
Defined.

(** *** Tables *)

Section Tables.
Implicit Types (fr : Frame) (l : label).

Lemma columns_map_values f fr : columns (map_values f fr) = columns fr.
Proof. unfold columns, map_values. simpl. by rewrite <- list_fmap_compose. Qed.

Lemma columns_drop_column l fr :
  columns (drop_column l fr) = filter (λ l', l' ≠ l) (columns fr).
Proof.
  unfold columns, drop_column. simpl.
  induction (cols fr) as [|[l' d] cs IH]; [done |].
  rewrite fmap_cons. simpl.
  destruct (decide (l' ≠ l)).
  - rewrite !filter_cons_True by done. by rewrite fmap_cons, IH.
  - rewrite !filter_cons_False by done. done.
Qed.

Lemma reindex_run target fr :
  NoDup (columns fr) →
  ∃ fr', reindex target fr = Return fr' ∧ columns fr' = target.
Proof.
  intros Hnd. unfold reindex. rewrite decide_True by done.
  eexists. split; [done |]. unfold columns. simpl.
  rewrite <- list_fmap_compose. apply list_fmap_id.
Qed.

Lemma select_absent l (cs : list (label * list cell)) :
  l ∉ cs.*1 → filter (λ c, c.1 = l) cs = [].
Proof.
  induction cs as [|[l' d] cs IH]; intros Hnotin; [done |].
  rewrite fmap_cons, not_elem_of_cons in Hnotin. destruct Hnotin as [Hne Hnotin].
  rewrite filter_cons_False by (simpl; by intros ->). by apply IH.
Qed.

(** With distinct labels a label that is present selects one column. *)
Lemma select_unique l fr :
  NoDup (columns fr) → l ∈ columns fr → ∃ data, select l fr = [data].
Proof.
  unfold columns, select. induction (cols fr) as [|[l' d] cs IH]; intros Hnd Hin.
  - by apply elem_of_nil in Hin.
  - rewrite fmap_cons in Hnd, Hin. apply NoDup_cons in Hnd as [Hnotin Hnd]. simpl in *.
    destruct (decide (l' = l)) as [-> | Hne].
    + rewrite filter_cons_True by done. exists d.
      by rewrite (select_absent _ _ Hnotin).
    + rewrite filter_cons_False by done.
      apply elem_of_cons in Hin as [-> | Hin]; [done | by apply IH].
Qed.

(** Copying a uniquely labelled column over an existing one keeps the
    column labels. *)
Lemma assign_column_run dst src fr :
  NoDup (columns fr) → src ∈ columns fr → dst ∈ columns fr →
  ∃ fr', assign_column dst src fr = Return fr' ∧ columns fr' = columns fr.
Proof.
  intros Hnd Hsrc Hdst. unfold assign_column.
  destruct (select_unique _ _ Hnd Hsrc) as [data ->].
  eexists. split; [done |]. unfold has_column. rewrite bool_decide_eq_true_2 by done.
  unfold columns. simpl. rewrite <- list_fmap_compose. apply list_fmap_ext.
  intros i [l' d] _. simpl. by destruct (decide (l' = dst)) as [-> |].
Qed.

Global Instance str_float_inj : Inj (=) (=) str_float.
Proof. intros q1 q2 H. by injection H. Qed.

(** Labels of quantile columns: [str] is injective and never "mean". *)
Lemma column_order_NoDup (levels : list Qc) :
  NoDup levels → NoDup (Mean :: (str_float <$> levels)).
Proof.
  intros Hnd. apply NoDup_cons. split.
  - intros (q & Hq & _)%list_elem_of_fmap. discriminate.
  - apply (NoDup_fmap_2 _). done.
Qed.

Lemma filter_absent l (ls : list label) : l ∉ ls → filter (λ l', l' ≠ l) ls = ls.
Proof.
  induction ls as [|l' ls IH]; intros Hnotin; [done |].
  apply not_elem_of_cons in Hnotin as [Hne Hnotin].
  rewrite filter_cons_True by done. by rewrite IH.
Qed.

Lemma filter_median_label (levels : list Qc) :
  filter (λ l, l ≠ median_label) (Mean :: (str_float <$> levels))
  = Mean :: (str_float <$> filter (λ q, q ≠ half) levels).
Proof.
  rewrite filter_cons_True by done. f_equal.
  induction levels as [|q levels IH]; [done |].
  rewrite fmap_cons. destruct (decide (q = half)) as [-> | Hne].
  - rewrite !filter_cons_False by (intros H; by apply H). done.
  - rewrite !filter_cons_True; [by rewrite fmap_cons, IH | done |].
    unfold median_label, str_float. congruence.
Qed.
End Tables.

(** *** Prediction *)

Section Predict.
Context (E : External) (cls : ModelClass).

Lemma read_attr_run {A} attr (f : Model → option A) m w v :
  f m = Some v → read_attr attr f (m, w) = (Return v, (m, w)).
Proof.
  intros Hf. unfold read_attr. erewrite bind_return by reflexivity. cbn [fst]. by rewrite Hf.
Qed.

Lemma apply_transform_run {T} attr get (method : T → ValueMap) data m w :
  is_Some (get m) →
  ∃ out, apply_transform attr get method data (m, w) = (Return out, (m, w)) ∧
         columns out = columns data.
Proof.
  intros [t Ht]. unfold apply_transform. erewrite bind_return by by apply read_attr_run.
  rewrite ret_run. eexists. split; [done |].
  destruct t; simpl; [apply columns_map_values | done].
Qed.

(** The second half of [predict] on a table with distinct labels. *)
Lemma predict_finish_run data known raw m w :
  is_Some (target_scaler m) → is_Some (covariate_regressor m) →
  NoDup (columns raw) → NoDup (quantile_levels m) →
  ∃ out, predict_finish E data known raw (m, w) = (Return out, (m, w)) ∧
         columns out = canonical_columns m.
Proof.
  intros Hts [cr Hcr] Hraw Hlevels. unfold predict_finish.
  erewrite bind_return by reflexivity. cbn [fst].
  pose proof (column_order_NoDup _ Hlevels) as Horder. fold (column_order m) in Horder.
  (* line 611-613: the canonical columns *)
  assert (∃ fr1, (if bool_decide (columns raw = column_order m)
                  then mret (M := Method) raw
                  else lift_outcome (reindex (column_order m) raw)) (m, w)
                 = (Return fr1, (m, w)) ∧ columns fr1 = column_order m)
    as (fr1 & Hstep1 & Hfr1).
  { case_bool_decide as Heq; [by exists raw |].
    destruct (reindex_run (column_order m) raw Hraw) as (fr1 & Hre & Hcols).
    exists fr1. unfold lift_outcome. by rewrite Hre. }
  erewrite bind_return by apply Hstep1. clear Hstep1.
  (* lines 616-620: the median *)
  assert (∃ fr2, (if has_column median_label fr1
                  then predictions ←
                         (if optimized_by_median (eval_metric m)
                          then lift_outcome (assign_column Mean median_label fr1)
                          else mret fr1);
                       mret (M := Method)
                            (if must_drop_median m then drop_column median_label predictions
                             else predictions)
                  else mret fr1) (m, w)
                 = (Return fr2, (m, w)) ∧ columns fr2 = canonical_columns m)
    as (fr2 & Hstep2 & Hfr2).
  { unfold has_column, canonical_columns. case_bool_decide as Hmedian.
    - assert (∃ fr, (if optimized_by_median (eval_metric m)
                     then lift_outcome (assign_column Mean median_label fr1)
                     else mret (M := Method) fr1) (m, w) = (Return fr, (m, w)) ∧
                    columns fr = column_order m) as (fr & Hassign & Hfr).
      { destruct (optimized_by_median _); [| by exists fr1].
        destruct (assign_column_run Mean median_label fr1) as (fr & Hfr & Hcols);
          [by rewrite Hfr1 | done | rewrite Hfr1; left |].
        exists fr. unfold lift_outcome. rewrite Hfr. split; [done | congruence]. }
      erewrite bind_return by apply Hassign. rewrite ret_run. eexists. split; [done |].
      destruct (must_drop_median m); [| done].
      by rewrite columns_drop_column, Hfr, <- filter_median_label.
    - exists fr1. split; [done |]. rewrite Hfr1.
      destruct (must_drop_median m); [| done].
      rewrite <- filter_median_label. fold (column_order m). rewrite <- Hfr1.
      symmetry. by apply filter_absent. }
  erewrite bind_return by apply Hstep2. clear Hstep2.
  (* lines 622-636: the inverse transforms *)
  erewrite bind_return by by apply read_attr_run.
  match goal with
  | |- ∃ out, apply_transform _ _ _ ?fr3 _ = _ ∧ _ =>
      destruct (apply_transform_run "target_scaler" target_scaler ts_inverse_transform
                  fr3 m w Hts) as (out & Hout & Hcols);
      assert (columns fr3 = columns fr2) as Hfr3
  end.
  { destruct cr; [apply columns_map_values | done]. }
  exists out. split; [done | congruence].
Qed.

(** After the hook, the covariate regressor is attached again. *)
Lemma predict_raw_restores data known kwargs s r m1 w1 :
  predict_raw cls data known kwargs s = (Return r, (m1, w1)) →
  is_Some (covariate_regressor m1).
Proof.
  unfold predict_raw. intros H.
  apply bind_return_inv in H as (d1 & s1 & _ & H).
  apply bind_return_inv in H as (cs & s2 & _ & H).
  destruct (match cs with Some _ => _ | None => _ end) as [d2 k2].
  apply bind_return_inv in H as (d3 & s3 & _ & H).
  apply bind_return_inv in H as ([d4 k4] & s4 & _ & H).
  apply bind_return_inv in H as (cr & s5 & _ & H).
  apply bind_return_inv in H as (? & s6 & _ & H).
  apply bind_return_inv in H as (? & s7 & _ & H).
  apply bind_return_inv in H as (raw & s8 & _ & H).
  apply bind_return_inv in H as (? & s9 & Hset & H).
  rewrite ret_run in H. unfold modify_self in Hset. simplify_eq.
  by destruct s8 as [[] ?].
Qed.

End Predict.

(** *** Renaming and renaming back *)

Section RenameBack.

Lemma drop_while_app_all {A} (p : A → bool) (l1 l2 : list A) :
  Forall (λ x, p x = true) l1 → drop_while p (l1 ++ l2) = drop_while p l2.
Proof. induction 1 as [|x l1 Hx _ IH]; simpl; [done |]. by rewrite Hx. Qed.

Lemma drop_while_stop {A} (p : A → bool) (l : list A) :
  match drop_while p l with [] => True | x :: _ => p x = false end.
Proof.
  induction l as [|x l IH]; simpl; [done |]. destruct (p x) eqn:Hx; [done |]. by simpl.
Qed.

Lemma forallb_is_sep l : forallb is_sep l = true ↔ Forall (λ c, c = sep) l.
Proof.
  rewrite forallb_forall, Forall_forall. unfold is_sep.
  split; intros H c Hc.
  - apply list_elem_of_In, H in Hc. by apply bool_decide_eq_true in Hc.
  - apply bool_decide_eq_true, H, list_elem_of_In, Hc.
Qed.

Lemma dirname_chars_normal p : normal_dir (dirname_chars p).
Proof.
  unfold dirname_chars, normal_dir.
  set (h := drop_while (λ c, negb (is_sep c)) (reverse p)).
  destruct (forallb is_sep h) eqn:Hall.
  - left. apply forallb_is_sep in Hall. by apply Forall_reverse.
  - right. rewrite reverse_involutive.
    pose proof (drop_while_stop is_sep h) as Hstop.
    destruct (drop_while is_sep h) as [|c r] eqn:Hd.
    + exfalso. apply not_true_iff_false in Hall. apply Hall, forallb_is_sep.
      clear -Hd. induction h as [|x h IH]; [done |]. simpl in Hd.
      destruct (is_sep x) eqn:Hx; [| done].
      constructor; [by apply bool_decide_eq_true in Hx | by apply IH].
    + exists c, r. split; [done |]. unfold is_sep in Hstop.
      by apply bool_decide_eq_false in Hstop.
Qed.

Lemma drop_while_seps l :
  Forall (λ c, c = sep) l → drop_while (λ c, negb (is_sep c)) l = l.
Proof. by intros [|c l' -> _]. Qed.

Lemma not_sep_drop (n : list ascii) :
  sep ∉ n → Forall (λ c, negb (is_sep c) = true) (reverse n).
Proof.
  intros Hn. apply Forall_forall. intros c Hc. rewrite elem_of_reverse in Hc.
  apply negb_true_iff, bool_decide_eq_false. intros Heq. apply Hn. by rewrite <- Heq.
Qed.

(** The directory of a name joined onto a directory is that directory. *)
Lemma dirname_join_chars d n :
  normal_dir d → n ≠ [] → sep ∉ n → dirname_chars (join_chars d n) = d.
Proof.
  intros Hd Hne Hn.
  assert (starts_with [sep] n = false) as Hrel.
  { destruct n as [|c n']; [done |]. apply bool_decide_eq_false. simpl.
    intros [= ->]. apply Hn. left. }
  unfold join_chars. rewrite Hrel. destruct Hd as [Hall | (c & r & Hrev & Hc)].
  - assert (bool_decide (d = []) || ends_with [sep] d = true) as ->.
    { destruct Hall as [|c d' -> Hall]; [done |]. apply orb_true_iff. right.
      unfold ends_with. rewrite reverse_singleton. apply bool_decide_eq_true. simpl.
      rewrite reverse_cons. apply Forall_reverse in Hall.
      destruct (reverse d') as [|c' r]; [done |]. simpl. by inversion Hall; subst. }
    unfold dirname_chars. rewrite reverse_app.
    rewrite drop_while_app_all by by apply not_sep_drop.
    rewrite drop_while_seps by by apply Forall_reverse.
    assert (forallb is_sep (reverse d) = true) as ->
      by by apply forallb_is_sep, Forall_reverse.
    apply reverse_involutive.
  - assert (bool_decide (d = []) || ends_with [sep] d = false) as ->.
    { apply orb_false_iff. split.
      - apply bool_decide_eq_false. intros ->. done.
      - unfold ends_with. rewrite reverse_singleton, Hrev. apply bool_decide_eq_false.
        simpl. by intros [= ->]. }
    unfold dirname_chars. rewrite reverse_app, reverse_cons, <- app_assoc.
    rewrite drop_while_app_all by by apply not_sep_drop.
    rewrite Hrev. simpl.
    assert (is_sep c = false) as Hcs by by apply bool_decide_eq_false.
    rewrite !Hcs. simpl. rewrite <- Hrev. apply reverse_involutive.
Qed.

Lemma dirname_join p n :
  n ≠ "" → slash_free n →
  os_path_dirname (os_path_join (os_path_dirname p) n) = os_path_dirname p.
Proof.
  intros Hne Hn. unfold os_path_dirname, os_path_join. rewrite !chars_text. f_equal.
  apply dirname_join_chars; [apply dirname_chars_normal | | done].
  intros Hnil. apply Hne. by rewrite <- (text_chars n), Hnil.
Qed.

(** Renaming to a name without separator and back leaves the model at
    its directory joined with its name. *)
Lemma rename_back_path m n1 :
  name m ≠ "" → n1 ≠ "" → slash_free n1 →
  path (rename (name m) (rename n1 m))
  = os_path_join (os_path_dirname (path m)) (name m).
Proof.
  intros Hname Hn1 Hfree.
  assert (Hlen : ∀ s, s ≠ "" → bool_decide (0 < String.length s)%nat = true).
  { intros [|c s] Hs; [done |]. apply bool_decide_eq_true. simpl. lia. }
  unfold rename. destruct m as [nm pr pa ? ? ? ? ? ? ? ? ? ? ? ? ? ? ? ? ? ?]. simpl in *.
  rewrite (Hlen nm Hname). simpl. rewrite (Hlen n1 Hn1). simpl.
  by rewrite dirname_join.
Qed.
(** For a model that sits at its directory joined with its name, the two
    renamings cancel. *)
Lemma rename_back_restores m n1 :
  name m ≠ "" → n1 ≠ "" → slash_free n1 →
  path m = os_path_join (os_path_dirname (path m)) (name m) →
  path (rename (name m) (rename n1 m)) = path m.
Proof. intros Hname Hn1 Hfree Hpath. by rewrite rename_back_path. Qed.
End RenameBack.

(** *** The refit-full copy *)

Section RefitCopy.
Context (E : External).

Lemma set_oof_predictions_name v m : name (set_oof_predictions v m) = name m.
Proof. by destruct m. Qed.

Lemma rename_name n m : name (rename n m) = n.
Proof. unfold rename. destruct m. simpl. by case_bool_decide. Qed.

Lemma rename_oof_predictions n m : _oof_predictions (rename n m) = _oof_predictions m.
Proof. unfold rename. destruct m. simpl. by case_bool_decide. Qed.

Lemma rename_same_fitted_model n m : same_fitted_model (rename n m) m.
Proof. unfold rename, same_fitted_model. destruct m. simpl. by case_bool_decide. Qed.

Lemma same_fitted_model_trans a b c :
  same_fitted_model a b → same_fitted_model b c → same_fitted_model a c.
Proof. unfold same_fitted_model. intros Hab Hbc. destruct_and!. repeat split; congruence. Qed.

(** The copy as it comes back from disk, with score and time reset. *)
Lemma reloaded_fields root dir x r :
  r = set_predict_time None (set_val_score None
        (set_path_root root (set_path dir (set_oof_predictions None x)))) →
  name r = name x ∧ path r = dir ∧ val_score r = None ∧ predict_time r = None ∧
  same_fitted_model r x.
Proof. intros ->. unfold same_fitted_model. by destruct x. Qed.

(** Loading a pickled model with [reset_paths] and without the
    out-of-fold predictions. *)
Lemma load_run dir model w root :
  files w !! os_path_join dir model_file_name = Some (PickledModel model) →
  rsplit1_head dir (name model) = Return root →
  load dir true false w = (Return (set_path_root root (set_path dir model)), w).
Proof.
  intros Hfile Hroot.
  assert (Hctx : on_object model (set_contexts dir) w
                 = (Return ((), set_path_root root (set_path dir model)), w)).
  { unfold on_object, set_contexts.
    erewrite bind_return by reflexivity.
    erewrite bind_return by reflexivity. cbn [fst].
    replace (rsplit1_head _ _) with (Return (A := string) root)
      by (rewrite <- Hroot; by destruct model).
    by erewrite bind_return by reflexivity. }
  unfold load.
  erewrite bind_return by (unfold load_pkl; by rewrite Hfile).
  cbn beta iota.
  erewrite bind_return; [reflexivity |].
  by erewrite bind_return by apply Hctx.
Qed.

Lemma rsplit1_head_total s by_ : by_ ≠ "" → ∃ r, rsplit1_head s by_ = Return r.
Proof.
  intros Hne. unfold rsplit1_head. rewrite bool_decide_eq_false_2 by done.
  destruct (find_after _ _); eauto.
Qed.

(** What the copy does when the disk accepts the writes: the copy has
    the suffixed name, no score and no prediction time, and otherwise
    the configuration and fitted state of the original; the original
    has its name back, and the path that two renamings give it. *)
Lemma convert_to_refit_full_via_copy_run m w renamed :
  renamed = rename (name m +:+ REFIT_FULL_SUFFIX E) m →
  name m +:+ REFIT_FULL_SUFFIX E ≠ "" →
  (is_Some (_oof_predictions m) →
   oof_artifact_path (path renamed) ∉ write_protected w) →
  model_artifact_path (path renamed) ∉ write_protected w →
  ∃ refit w',
    convert_to_refit_full_via_copy E (m, w) = (Return refit, (rename (name m) renamed, w')) ∧
    name refit = name m +:+ REFIT_FULL_SUFFIX E ∧
    path refit = path renamed ∧
    val_score refit = None ∧ predict_time refit = None ∧
    same_fitted_model refit m ∧
    name (rename (name m) renamed) = name m.
Proof.
  intros Hrenamed Hname Hoof Hmodel. unfold convert_to_refit_full_via_copy.
  erewrite bind_return by reflexivity. cbn [fst].
  erewrite bind_return by reflexivity.
  erewrite bind_return by reflexivity. cbn [fst]. rewrite <- Hrenamed.
  destruct (save_run (Some (path renamed)) renamed w) as (w' & Hsave & Hfile & _).
  { simpl. intros Hs. apply Hoof. by rewrite Hrenamed, rename_oof_predictions in Hs. }
  { done. }
  simpl in Hsave, Hfile.
  erewrite bind_return by apply Hsave.
  erewrite bind_return by reflexivity.
  destruct (rsplit1_head_total (path renamed) (name m +:+ REFIT_FULL_SUFFIX E) Hname)
    as [root Hroot].
  erewrite bind_return; last first.
  { unfold lift_static. cbn [fst snd].
    erewrite (load_run (path renamed) _ w' root Hfile); [reflexivity |].
    rewrite set_oof_predictions_name. rewrite Hrenamed at 2. by rewrite rename_name. }
  rewrite ret_run. eexists _, _. split; [reflexivity |].
  destruct (reloaded_fields root (path renamed) renamed _ eq_refl)
    as (Hn & Hp & Hv & Ht & Hsame).
  rewrite Hn, Hp, Hv, Ht. rewrite Hrenamed at 1 6. rewrite !rename_name.
  do 4 (split; [done |]). split; [| done].
  eapply same_fitted_model_trans; [exact Hsame |].
  rewrite Hrenamed. apply rename_same_fitted_model.
Qed.
End RefitCopy.

(** C9, on a model named "DeepAR/T1" under "out": the copy is made, its
    name carries the suffix and its score and prediction time are reset,
    the original keeps its name, but renaming back does not undo the first
    renaming: the original's path is not what it was, whereas the claim
    states that name and path of the original are left unchanged. *)
Theorem refit_copy_moves_original_path :
  ∃ m refit m' w',
    __init__ demo_external (demo_class []) (Some "out") (Some "DeepAR/T1") None (Some "D") 7
             None "target" [half] None (demo_world []) = (Return m, demo_world []) ∧
    convert_to_refit_full_via_copy demo_external (m, demo_world [])
    = (Return refit, (m', w')) ∧
    name refit = "DeepAR/T1_FULL" ∧ val_score refit = None ∧ predict_time refit = None ∧
    name m' = name m ∧
    path m = "out/DeepAR/T1" ∧
    path m' = "out/DeepAR/DeepAR/DeepAR/T1".
Proof.
  eexists _, _, _, _.
  split; [vm_compute; reflexivity |].
  split; [vm_compute; reflexivity |].
  repeat split; reflexivity.
Qed.

(** With a name that is a single path component the two renamings cancel. *)
Example refit_copy_restores_simple_path :
  ∃ refit w',
    convert_to_refit_full_via_copy demo_external (naive_model [] [], demo_world [])
    = (Return refit, (naive_model [] [], w')) ∧
    name refit = "Naive_FULL" ∧ path refit = "out/Naive_FULL".
Proof. eexists _, _. split; [vm_compute; reflexivity |]. split; reflexivity. Qed.

(** *** More on dictionaries *)

Section MoreDictFacts.
Implicit Types (d : pydict) (k : pykey) (v : pyval).

Lemma dict_get_None k d : dict_get k d = None ↔ k ∉ dict_keys d.
Proof.
  unfold dict_keys. induction d as [|[k0 v0] d IH]; simpl.
  - split; [intros _; apply not_elem_of_nil | done].
  - rewrite not_elem_of_cons. destruct (decide (k0 = k)) as [-> | Hne].
    + split; [done | by intros [? _]].
    + rewrite IH. split; [by split | by intros [_ ?]].
Qed.

Lemma dict_set_fresh k v d : dict_get k d = None → dict_set k v d = d ++ [(k, v)].
Proof.
  induction d as [|[k0 v0] d IH]; simpl; [done |].
  destruct (decide (k0 = k)); [done |]. intros H. by rewrite IH.
Qed.

Lemma dict_remove_fresh k d : dict_get k d = None → dict_remove k d = d.
Proof.
  induction d as [|[k0 v0] d IH]; simpl; [done |].
  destruct (decide (k0 = k)); [done |]. intros H. by rewrite IH.
Qed.

(** Setting a new key and deleting it again gives the dictionary back. *)
Lemma dict_remove_set k v d : dict_get k d = None → dict_remove k (dict_set k v d) = d.
Proof.
  intros H. rewrite dict_set_fresh by done. induction d as [|[k0 v0] d IH]; simpl in *.
  - by rewrite decide_True.
  - destruct (decide (k0 = k)); [done |]. by rewrite IH.
Qed.

Lemma dict_keys_app d1 d2 : dict_keys (d1 ++ d2) = dict_keys d1 ++ dict_keys d2.
Proof. unfold dict_keys. apply fmap_app. Qed.

(** Merging into a dictionary that shares no key appends. *)
Lemma dict_merge_disjoint a b :
  dict_wf b → (∀ k, k ∈ dict_keys b → k ∉ dict_keys a) → dict_merge a b = a ++ b.
Proof.
  unfold dict_merge, dict_wf. revert a.
  induction b as [|[k v] b IH]; intros a Hwf Hdisj; simpl; [by rewrite app_nil_r |].
  unfold dict_keys in Hwf. rewrite fmap_cons in Hwf. apply NoDup_cons in Hwf as [Hk Hwf].
  rewrite dict_set_fresh by (apply dict_get_None, Hdisj; left).
  rewrite IH; [by rewrite <- app_assoc | done |].
  intros k' Hk'. rewrite dict_keys_app, not_elem_of_app. split.
  - apply Hdisj. by right.
  - simpl. rewrite list_elem_of_singleton. by intros ->.
Qed.
End MoreDictFacts.

(** X1: a hyperparameter reads as the value the caller gave it, and as
    the default of the class when the caller gave none; in the base class,
    which has no defaults, the hyperparameters are the caller's. *)
Theorem get_hyperparameters_precedence cls m :
  dict_wf (_hyperparameters m) →
  (∀ k, dict_get k (get_hyperparameters cls m)
        = match dict_get k (_hyperparameters m) with
          | Some v => Some v
          | None => dict_get k (_get_default_hyperparameters cls m)
          end) ∧
  ∀ cname fit_hook predict_hook,
    get_hyperparameters (AbstractTimeSeriesModel cname fit_hook predict_hook) m
    = _hyperparameters m.
Proof.
  intros Hwf. split.
  - intros k. unfold get_hyperparameters. rewrite dict_get_merge by done.
    by destruct (dict_get k (_hyperparameters m)).
  - intros cname fit_hook predict_hook. unfold get_hyperparameters. simpl.
    rewrite dict_merge_disjoint; [done | done |].
    intros k _. apply not_elem_of_nil.
Qed.

Lemma get_hyperparameters_precedence_witness :
  dict_get (KStr "seasonal_period") (get_hyperparameters seasonal_class seasonal_model)
    = Some (PyNum (Q2Qc 7)) ∧
  dict_get (KStr "n_jobs") (get_hyperparameters seasonal_class seasonal_model)
    = Some (PyNum (Q2Qc 4)) ∧
  dict_get (KStr "target_scaler") (get_hyperparameters seasonal_class seasonal_model)
    = Some (PyStr "standard") ∧
  get_hyperparameters (demo_class []) seasonal_model = _hyperparameters seasonal_model.
Proof.
  destruct (get_hyperparameters_precedence seasonal_class seasonal_model) as [Hget Hbase].
  { unfold dict_wf. compute_done. }
  rewrite !Hget. split; [reflexivity |]. split; [reflexivity |]. split; [reflexivity |].
  apply Hbase.
Defined.

(** *** Roots of paths *)

Section PathRoots.

Lemma text_app a b : text (a ++ b) = text a +:+ text b.
Proof. induction a as [|c a IH]; simpl; [done |]. by rewrite IH. Qed.

Lemma find_after_prefix pat rest : find_after pat (pat ++ rest) = Some rest.
Proof.
  assert (Hstart : starts_with pat (pat ++ rest) = true).
  { apply bool_decide_eq_true. by rewrite take_app_length. }
  destruct (pat ++ rest) as [|c s] eqn:Heq; simpl; rewrite Hstart.
  - destruct pat; [by destruct rest | done].
  - by rewrite <- Heq, drop_app_length.
Qed.

(** Splitting off a name that ends the path gives what stands before it. *)
Lemma rsplit1_head_suffix pre n :
  n ≠ "" → rsplit1_head (text (pre ++ chars n)) n = Return (text pre).
Proof.
  intros Hn. unfold rsplit1_head. rewrite bool_decide_eq_false_2 by done.
  by rewrite chars_text, reverse_app, find_after_prefix, reverse_involutive.
Qed.

Lemma ends_with_snoc a : ends_with [sep] (a ++ [sep]) = true.
Proof.
  unfold ends_with. rewrite reverse_app. by apply bool_decide_eq_true.
Qed.

Lemma join_chars_prefix d n :
  starts_with [sep] n = false →
  join_chars d n = join_prefix d ++ n ∧ join_chars (join_prefix d) n = join_prefix d ++ n.
Proof.
  intros Hrel. unfold join_chars, join_prefix. rewrite Hrel.
  destruct (bool_decide (d = []) || ends_with [sep] d) eqn:Hd.
  - by rewrite Hd.
  - rewrite <- app_assoc. split; [done |].
    by rewrite ends_with_snoc, orb_true_r.
Qed.

Lemma set_contexts_run p m w root :
  rsplit1_head p (name m) = Return root →
  set_contexts p (m, w) = (Return (), (set_path_root root (set_path p m), w)).
Proof.
  intros Hroot. unfold set_contexts.
  erewrite bind_return by reflexivity.
  erewrite bind_return by reflexivity. cbn [fst].
  replace (rsplit1_head _ _) with (Return (A := string) root)
    by (rewrite <- Hroot; by destruct m).
  by erewrite bind_return by reflexivity.
Qed.

(** X2: [set_contexts] on a path made of a directory and the model's
    name stores the path and, as root, the directory with its separator:
    joining the stored root and the name gives the stored path again. *)
Theorem set_contexts_rederives_root m w d :
  name m ≠ "" → starts_with [sep] (chars (name m)) = false →
  set_contexts (os_path_join d (name m)) (m, w)
  = (Return (), (set_path_root (path_prefix d) (set_path (os_path_join d (name m)) m), w)) ∧
  os_path_join (path_prefix d) (name m) = os_path_join d (name m).
Proof.
  intros Hname Hrel.
  destruct (join_chars_prefix (chars d) (chars (name m)) Hrel) as [Hjoin Hprefix].
  split.
  - apply set_contexts_run. unfold os_path_join. rewrite Hjoin.
    by apply rsplit1_head_suffix.
  - unfold os_path_join, path_prefix. by rewrite chars_text, Hprefix, Hjoin.
Qed.
End PathRoots.

Lemma set_contexts_rederives_root_witness :
  set_contexts "out/Naive" (naive_model [] [], demo_world [])
  = (Return (), (set_path_root "out/" (naive_model [] []), demo_world [])) ∧
  os_path_join "out/" "Naive" = "out/Naive".
Proof.
  apply (set_contexts_rederives_root (naive_model [] []) (demo_world []) "out");
    [discriminate | reflexivity].
Defined.

(** *** Saving, loading and the out-of-fold predictions *)

Section SaveLoad.

Lemma load_oof_predictions_run dir w :
  load_oof_predictions dir w
  = match files w !! oof_artifact_path dir with
    | Some (PickledFrames oof) => (Return oof, w)
    | Some (PickledModel _) => (Raise TypeError, w)
    | None => (Raise (OSError (oof_artifact_path dir)), w)
    end.
Proof.
  unfold load_oof_predictions, mbind, py_bind, load_pkl. fold (oof_artifact_path dir).
  by destruct (files w !! oof_artifact_path dir) as [[] |].
Qed.

(** [load] with [reset_paths], up to the out-of-fold predictions. *)
Lemma load_reset_run dir model w root load_oof :
  files w !! model_artifact_path dir = Some (PickledModel model) →
  rsplit1_head dir (name model) = Return root →
  load dir true load_oof w
  = (if load_oof && bool_decide (_oof_predictions model = None)
     then oof ← load_oof_predictions dir;
          mret (set_oof_predictions (Some oof) (set_path_root root (set_path dir model)))
     else mret (set_path_root root (set_path dir model))) w.
Proof.
  intros Hfile Hroot. unfold load. fold (model_artifact_path dir).
  erewrite bind_return by (unfold load_pkl; by rewrite Hfile).
  cbn beta iota.
  erewrite bind_return; last first.
  { erewrite bind_return; [reflexivity |].
    unfold on_object. by rewrite (set_contexts_run dir model w root Hroot). }
  cbn [snd].
  assert (_oof_predictions (set_path_root root (set_path dir model)) = _oof_predictions model)
    as -> by by destruct model.
  done.
Qed.

Lemma load_plain_run dir model w :
  files w !! model_artifact_path dir = Some (PickledModel model) →
  load dir false false w = (Return model, w).
Proof.
  intros Hfile. unfold load. fold (model_artifact_path dir).
  erewrite bind_return by (unfold load_pkl; by rewrite Hfile).
  cbn beta iota. by erewrite bind_return by reflexivity.
Qed.

Lemma set_oof_predictions_relocated root dir m oof :
  _oof_predictions m = oof →
  set_oof_predictions oof (set_path_root root (set_path dir (set_oof_predictions None m)))
  = set_path_root root (set_path dir m).
Proof. intros <-. by destruct m. Qed.

(** X3: a model that was saved comes back from [load] with its
    out-of-fold predictions cleared, its path set to the directory it is
    loaded from and its root derived from that directory; with [load_oof]
    the predictions that were saved come back too; without [reset_paths]
    the paths are those the model had when it was saved. *)
Theorem save_load_round_trip path_arg dir m w :
  default (path m) path_arg = dir →
  name m ≠ "" →
  (is_Some (_oof_predictions m) → oof_artifact_path dir ∉ write_protected w) →
  model_artifact_path dir ∉ write_protected w →
  ∃ w' root,
    save path_arg (m, w) = (Return dir, (m, w')) ∧
    rsplit1_head dir (name m) = Return root ∧
    load dir true false w'
    = (Return (set_path_root root (set_path dir (set_oof_predictions None m))), w') ∧
    (is_Some (_oof_predictions m) →
     load dir true true w' = (Return (set_path_root root (set_path dir m)), w')) ∧
    load dir false false w' = (Return (set_oof_predictions None m), w').
Proof.
  intros <- Hname Hoof Hmodel.
  destruct (save_run path_arg m w Hoof Hmodel) as (w' & Hsave & Hfile & Hoof' & _).
  destruct (rsplit1_head_total (default (path m) path_arg) (name m) Hname) as [root Hroot].
  assert (Hroot' : rsplit1_head (default (path m) path_arg)
                     (name (set_oof_predictions None m)) = Return root)
    by by rewrite set_oof_predictions_name.
  exists w', root. split; [done |]. split; [done |]. split; [| split].
  - rewrite (load_reset_run _ _ _ _ _ Hfile Hroot'). done.
  - intros [oof Hm]. rewrite (load_reset_run _ _ _ _ _ Hfile Hroot').
    assert (_oof_predictions (set_oof_predictions None m) = None) as -> by by destruct m.
    rewrite bool_decide_eq_true_2 by done. cbn [andb].
    erewrite bind_return; last first.
    { rewrite load_oof_predictions_run, Hoof', Hm. reflexivity. }
    by rewrite ret_run, (set_oof_predictions_relocated _ _ _ _ Hm).
  - by apply load_plain_run.
Qed.

(** X4: a model saved without out-of-fold predictions leaves the file
    of an earlier save where it is.  Loading with [load_oof] then raises
    when there is no such file, and otherwise returns the model with the
    predictions of the earlier save. *)
Theorem load_oof_of_model_saved_without dir m w :
  path m = dir →
  name m ≠ "" →
  _oof_predictions m = None →
  model_artifact_path dir ∉ write_protected w →
  ∃ w' root,
    save None (m, w) = (Return dir, (m, w')) ∧
    rsplit1_head dir (name m) = Return root ∧
    (files w !! oof_artifact_path dir = None →
     load dir true true w' = (Raise (OSError (oof_artifact_path dir)), w')) ∧
    (∀ old, files w !! oof_artifact_path dir = Some (PickledFrames old) →
     load dir true true w'
     = (Return (set_oof_predictions (Some old) (set_path_root root m)), w')).
Proof.
  intros <- Hname Hnone Hmodel.
  destruct (save_run None m w) as (w' & Hsave & Hfile & Hoof' & _);
    [rewrite Hnone; by intros [] | done |].
  simpl in *. rewrite Hnone in Hoof'.
  destruct (rsplit1_head_total (path m) (name m) Hname) as [root Hroot].
  assert (Hroot' : rsplit1_head (path m) (name (set_oof_predictions None m)) = Return root)
    by by rewrite set_oof_predictions_name.
  assert (Hsame : set_path (path m) (set_oof_predictions None m) = m)
    by (clear -Hnone; destruct m; simpl in *; by subst).
  exists w', root. split; [done |]. split; [done |].
  pose proof (load_reset_run _ _ _ _ true Hfile Hroot') as Hload.
  assert (_oof_predictions (set_oof_predictions None m) = None) as Hcleared by by destruct m.
  rewrite Hcleared, bool_decide_eq_true_2 in Hload by done. cbn [andb] in Hload.
  rewrite Hsame in Hload. split.
  - intros Hmissing. rewrite Hload.
    erewrite bind_raise; [reflexivity |].
    by rewrite load_oof_predictions_run, Hoof', Hmissing.
  - intros old Hold. rewrite Hload.
    erewrite bind_return; [reflexivity |].
    by rewrite load_oof_predictions_run, Hoof', Hold.
Qed.

(** X5: [save] restores the out-of-fold predictions only after the
    model file is written.  When the model file cannot be opened for
    writing, the error leaves the caller with a model whose predictions
    are cleared; on disk the predictions are written and the model file
    is what it was. *)
Theorem save_interrupted_clears_oof path_arg dir m w oof :
  default (path m) path_arg = dir →
  _oof_predictions m = Some oof →
  oof_artifact_path dir ∉ write_protected w →
  model_artifact_path dir ∈ write_protected w →
  ∃ w',
    save path_arg (m, w)
    = (Raise (OSError (model_artifact_path dir)), (set_oof_predictions None m, w')) ∧
    files w' !! oof_artifact_path dir = Some (PickledFrames oof) ∧
    files w' !! model_artifact_path dir = files w !! model_artifact_path dir.
Proof.
  intros <- Hm Hoof Hmodel. unfold save.
  erewrite bind_return by reflexivity. cbn [fst].
  fold (oof_artifact_path (default (path m) path_arg))
       (model_artifact_path (default (path m) path_arg)).
  rewrite Hm.
  erewrite bind_return; last first.
  { unfold lift_static, save_pkl. simpl. rewrite decide_False by done. reflexivity. }
  erewrite bind_return by reflexivity.
  erewrite bind_return by reflexivity.
  erewrite bind_raise; last first.
  { unfold lift_static, save_pkl. simpl. rewrite decide_True by done. reflexivity. }
  eexists. split; [reflexivity |]. simpl. split; [by rewrite lookup_insert_eq |].
  rewrite lookup_insert_ne; [done |]. apply oof_path_separate.
Qed.

(** X6: [get_oof_predictions] reads the disk at most once.  Without
    cached predictions it loads them from the model's directory and keeps
    them on the instance; from then on it returns them whatever is on
    disk. *)
Theorem get_oof_predictions_caches m w oof :
  _oof_predictions m = None →
  files w !! oof_artifact_path (path m) = Some (PickledFrames oof) →
  get_oof_predictions (m, w) = (Return oof, (set_oof_predictions (Some oof) m, w)) ∧
  ∀ w2, get_oof_predictions (set_oof_predictions (Some oof) m, w2)
        = (Return oof, (set_oof_predictions (Some oof) m, w2)).
Proof.
  intros Hm Hfile. split.
  - unfold get_oof_predictions. erewrite bind_return by reflexivity. cbn [fst].
    rewrite Hm.
    erewrite bind_return; last first.
    { unfold lift_static. cbn [snd]. by rewrite load_oof_predictions_run, Hfile. }
    by erewrite bind_return by reflexivity.
  - intros w2. unfold get_oof_predictions. erewrite bind_return by reflexivity. cbn [fst].
    by assert (_oof_predictions (set_oof_predictions (Some oof) m) = Some oof) as ->
      by by destruct m.
Qed.

(** X7: the out-of-fold predictions of a saved model are recovered
    lazily: the model as [load] returns it has none, and its
    [get_oof_predictions] returns those of the model that was saved. *)
Theorem saved_oof_recovered_lazily m w oof :
  name m ≠ "" →
  _oof_predictions m = Some oof →
  oof_artifact_path (path m) ∉ write_protected w →
  model_artifact_path (path m) ∉ write_protected w →
  ∃ w' loaded,
    save None (m, w) = (Return (path m), (m, w')) ∧
    load (path m) true false w' = (Return loaded, w') ∧
    _oof_predictions loaded = None ∧
    get_oof_predictions (loaded, w')
    = (Return oof, (set_oof_predictions (Some oof) loaded, w')).
Proof.
  intros Hname Hm Hoof Hmodel.
  destruct (save_run None m w) as (w' & Hsave & Hfile & Hoof' & _); [done .. |].
  simpl in *. rewrite Hm in Hoof'.
  destruct (rsplit1_head_total (path m) (name m) Hname) as [root Hroot].
  assert (Hroot' : rsplit1_head (path m) (name (set_oof_predictions None m)) = Return root)
    by by rewrite set_oof_predictions_name.
  eexists w', _. split; [done |]. split.
  { rewrite (load_reset_run _ _ _ _ false Hfile Hroot'). reflexivity. }
  split; [by destruct m |].
  unfold get_oof_predictions. erewrite bind_return by reflexivity. cbn [fst].
  assert (_oof_predictions
            (set_path_root root (set_path (path m) (set_oof_predictions None m))) = None)
    as -> by by destruct m.
  assert (path (set_path_root root (set_path (path m) (set_oof_predictions None m)))
          = path m) as -> by by destruct m.
  erewrite bind_return; last first.
  { unfold lift_static. cbn [snd]. by rewrite load_oof_predictions_run, Hoof'. }
  by erewrite bind_return by reflexivity.
Qed.

(** X8: a pickled model whose name is empty cannot be loaded with
    [reset_paths]: splitting the path at the empty name raises.  Without
    [reset_paths] it loads. *)
Theorem load_unnamed_model dir model w load_oof :
  files w !! model_artifact_path dir = Some (PickledModel model) →
  name model = "" →
  load dir true load_oof w = (Raise (ValueError "empty separator"), w) ∧
  load dir false false w = (Return model, w).
Proof.
  intros Hfile Hname. split; [| by apply load_plain_run].
  unfold load. fold (model_artifact_path dir).
  erewrite bind_return by (unfold load_pkl; by rewrite Hfile).
  cbn beta iota.
  erewrite bind_raise; [reflexivity |].
  erewrite bind_raise; [reflexivity |].
  unfold on_object, set_contexts.
  erewrite bind_return by reflexivity.
  erewrite bind_return by reflexivity. cbn [fst].
  assert (name (set_path dir model) = "") as -> by by destruct model.
  unfold rsplit1_head. by rewrite bool_decide_eq_true_2.
Qed.
End SaveLoad.

Lemma save_load_round_trip_witness :
  ∃ w',
    save None (cached_model, demo_world []) = (Return "out/Naive", (cached_model, w')) ∧
    load "out/Naive" true false w'
    = (Return (set_path_root "out/" (naive_model [] [])), w') ∧
    load "out/Naive" true true w' = (Return (set_path_root "out/" cached_model), w').
Proof.
  destruct (save_load_round_trip None "out/Naive" cached_model (demo_world []))
    as (w' & root & Hsave & Hroot & Hplain & Hoof & _);
    [reflexivity | discriminate | intros _; apply not_elem_of_empty
    | apply not_elem_of_empty |].
  injection Hroot as <-.
  exists w'. split; [exact Hsave |]. split; [exact Hplain |].
  apply Hoof. by eexists.
Defined.

Lemma load_oof_of_model_saved_without_witness :
  (∃ w', save None (naive_model [] [], demo_world [])
         = (Return "out/Naive", (naive_model [] [], w')) ∧
         load "out/Naive" true true w' = (Raise (OSError "out/Naive/utils/oof.pkl"), w')) ∧
  (∃ w', save None (naive_model [] [], stale_world)
         = (Return "out/Naive", (naive_model [] [], w')) ∧
         load "out/Naive" true true w'
         = (Return (set_oof_predictions (Some stale_oof)
                      (set_path_root "out/" (naive_model [] []))), w')).
Proof.
  split.
  - destruct (load_oof_of_model_saved_without "out/Naive" (naive_model [] []) (demo_world []))
      as (w' & root & Hsave & Hroot & Hmissing & _);
      [reflexivity | discriminate | reflexivity | apply not_elem_of_empty |].
    exists w'. split; [exact Hsave |]. apply Hmissing. reflexivity.
  - destruct (load_oof_of_model_saved_without "out/Naive" (naive_model [] []) stale_world)
      as (w' & root & Hsave & Hroot & _ & Hstale);
      [reflexivity | discriminate | reflexivity | apply not_elem_of_empty |].
    injection Hroot as <-.
    exists w'. split; [exact Hsave |]. apply Hstale. reflexivity.
Defined.

Lemma save_interrupted_clears_oof_witness :
  ∃ w',
    save None (cached_model, protected_world)
    = (Raise (OSError "out/Naive/model.pkl"), (naive_model [] [], w')) ∧
    files w' !! "out/Naive/utils/oof.pkl" = Some (PickledFrames demo_oof).
Proof.
  destruct (save_interrupted_clears_oof None "out/Naive" cached_model protected_world demo_oof)
    as (w' & Hsave & Hoof & _);
    [reflexivity | reflexivity | compute_done | compute_done |].
  exists w'. split; [exact Hsave | exact Hoof].
Defined.

Lemma get_oof_predictions_caches_witness :
  get_oof_predictions (naive_model [] [], stale_world)
  = (Return stale_oof, (set_oof_predictions (Some stale_oof) (naive_model [] []), stale_world)) ∧
  get_oof_predictions (set_oof_predictions (Some stale_oof) (naive_model [] []), demo_world [])
  = (Return stale_oof,
     (set_oof_predictions (Some stale_oof) (naive_model [] []), demo_world [])).
Proof.
  destruct (get_oof_predictions_caches (naive_model [] []) stale_world stale_oof)
    as [Hfirst Hlater]; [reflexivity | reflexivity |].
  split; [exact Hfirst | exact (Hlater (demo_world []))].
Defined.

Lemma saved_oof_recovered_lazily_witness :
  ∃ w' loaded,
    save None (cached_model, demo_world []) = (Return "out/Naive", (cached_model, w')) ∧
    load "out/Naive" true false w' = (Return loaded, w') ∧
    _oof_predictions loaded = None ∧
    get_oof_predictions (loaded, w')
    = (Return demo_oof, (set_oof_predictions (Some demo_oof) loaded, w')).
Proof.
  apply (saved_oof_recovered_lazily cached_model (demo_world []) demo_oof);
    [discriminate | reflexivity | apply not_elem_of_empty | apply not_elem_of_empty].
Defined.

Lemma load_unnamed_model_witness :
  load "out" true false unnamed_world = (Raise (ValueError "empty separator"), unnamed_world) ∧
  load "out" false false unnamed_world
  = (Return (demo_model "" [half] false [] []), unnamed_world).
Proof.
  apply (load_unnamed_model "out" (demo_model "" [half] false [] []) unnamed_world false);
    reflexivity.
Defined.

(** *** Renaming back, and the refit-full copy of a well-named model *)

Section RenameRoundTrip.

Lemma rename_as_assignments n m :
  rename n m = set_name n (set_path (path (rename n m)) m).
Proof. unfold rename. destruct m. simpl. by case_bool_decide. Qed.

(** For a model that sits at its directory joined with its name, renaming
    to a name without separator and back gives the model back. *)
Lemma rename_back_model m n1 :
  name m ≠ "" → n1 ≠ "" → slash_free n1 →
  path m = os_path_join (os_path_dirname (path m)) (name m) →
  rename (name m) (rename n1 m) = m.
Proof.
  intros Hname Hn1 Hfree Hpath.
  rewrite (rename_as_assignments (name m)), rename_back_path by done.
  rewrite <- Hpath, (rename_as_assignments n1). by destruct m.
Qed.

(** X9: renaming a named model moves it to a sibling of its path and
    changes nothing but name and path; for a model that sits at its
    directory joined with its name, renaming to a name without separator
    and back gives the model back, in every attribute. *)
Theorem rename_round_trip m n1 :
  name m ≠ "" → n1 ≠ "" → slash_free n1 →
  path m = os_path_join (os_path_dirname (path m)) (name m) →
  path (rename n1 m) = os_path_join (os_path_dirname (path m)) n1 ∧
  set_name (name m) (set_path (path m) (rename n1 m)) = m ∧
  rename (name m) (rename n1 m) = m.
Proof.
  intros Hname Hn1 Hfree Hpath. split; [| split].
  - unfold rename. rewrite bool_decide_eq_true_2; [by destruct m |].
    destruct (name m); [done | simpl; lia].
  - rewrite (rename_as_assignments n1). by destruct m.
  - by apply rename_back_model.
Qed.

Context (E : External).

(** The copy in closed form, when the disk accepts the writes. *)
Lemma convert_to_refit_full_via_copy_result m w renamed root :
  renamed = rename (name m +:+ REFIT_FULL_SUFFIX E) m →
  rsplit1_head (path renamed) (name m +:+ REFIT_FULL_SUFFIX E) = Return root →
  (is_Some (_oof_predictions m) →
   oof_artifact_path (path renamed) ∉ write_protected w) →
  model_artifact_path (path renamed) ∉ write_protected w →
  ∃ w',
    convert_to_refit_full_via_copy E (m, w)
    = (Return (set_predict_time None (set_val_score None
                 (set_path_root root (set_path (path renamed)
                    (set_oof_predictions None renamed))))),
       (rename (name m) renamed, w')) ∧
    files w' !! oof_artifact_path (path renamed)
    = match _oof_predictions m with
      | Some oof => Some (PickledFrames oof)
      | None => files w !! oof_artifact_path (path renamed)
      end.
Proof.
  intros Hrenamed Hroot Hoof Hmodel. unfold convert_to_refit_full_via_copy.
  erewrite bind_return by reflexivity. cbn [fst].
  erewrite bind_return by reflexivity.
  erewrite bind_return by reflexivity. cbn [fst]. rewrite <- Hrenamed.
  destruct (save_run (Some (path renamed)) renamed w) as (w' & Hsave & Hfile & Hoof' & _).
  { simpl. intros Hs. apply Hoof. by rewrite Hrenamed, rename_oof_predictions in Hs. }
  { done. }
  simpl in Hsave, Hfile, Hoof'.
  erewrite bind_return by apply Hsave.
  erewrite bind_return by reflexivity.
  erewrite bind_return; last first.
  { unfold lift_static. cbn [fst snd].
    erewrite (load_run (path renamed) _ w' root Hfile); [reflexivity |].
    rewrite set_oof_predictions_name. rewrite Hrenamed at 2. by rewrite rename_name. }
  rewrite ret_run. exists w'. split; [reflexivity |].
  rewrite Hoof'. rewrite Hrenamed at 1. by rewrite rename_oof_predictions.
Qed.
End RenameRoundTrip.

(** X10: for a model that sits at its directory joined with its name,
    a single path component also with the suffix, the refit-full copy
    leaves the model in memory as it was.  The copy has the suffixed name,
    sits beside the original, has no score, no prediction time and no
    out-of-fold predictions, and is otherwise the model that was copied;
    the out-of-fold predictions of the original are written under the
    copy's directory. *)
Theorem refit_copy_keeps_original E m w dir :
  name m ≠ "" →
  slash_free (name m +:+ REFIT_FULL_SUFFIX E) →
  path m = os_path_join (os_path_dirname (path m)) (name m) →
  dir = os_path_join (os_path_dirname (path m)) (name m +:+ REFIT_FULL_SUFFIX E) →
  (is_Some (_oof_predictions m) → oof_artifact_path dir ∉ write_protected w) →
  model_artifact_path dir ∉ write_protected w →
  ∃ refit w',
    convert_to_refit_full_via_copy E (m, w) = (Return refit, (m, w')) ∧
    name refit = name m +:+ REFIT_FULL_SUFFIX E ∧
    path refit = dir ∧
    _oof_predictions refit = None ∧ val_score refit = None ∧ predict_time refit = None ∧
    same_fitted_model refit m ∧
    ∀ oof, _oof_predictions m = Some oof →
      files w' !! oof_artifact_path dir = Some (PickledFrames oof).
Proof.
  intros Hname Hfree Hpath Hdir Hoof Hmodel.
  assert (Hsuffixed : name m +:+ REFIT_FULL_SUFFIX E ≠ "").
  { destruct (name m); [done | discriminate]. }
  set (renamed := rename (name m +:+ REFIT_FULL_SUFFIX E) m).
  assert (Hrpath : path renamed = dir).
  { subst renamed dir. unfold rename.
    rewrite bool_decide_eq_true_2; [by destruct m |].
    destruct (name m); [done | simpl; lia]. }
  destruct (rsplit1_head_total (path renamed) _ Hsuffixed) as [root Hroot].
  destruct (convert_to_refit_full_via_copy_result E m w renamed root eq_refl Hroot)
    as (w' & Hrun & Hfiles); [by rewrite Hrpath .. |].
  rewrite Hrpath in Hrun, Hfiles.
  exists (set_predict_time None (set_val_score None
            (set_path_root root (set_path dir (set_oof_predictions None renamed))))), w'.
  split.
  { rewrite Hrun. subst renamed. by rewrite rename_back_model. }
  destruct (reloaded_fields root dir renamed _ eq_refl) as (Hn & Hp & Hv & Ht & Hsame).
  split; [by rewrite Hn; apply rename_name |]. split; [done |].
  split; [by destruct renamed |]. split; [done |]. split; [done |].
  split.
  - eapply same_fitted_model_trans; [exact Hsame | apply rename_same_fitted_model].
  - intros oof Hm. by rewrite Hfiles, Hm.
Qed.

Lemma rename_round_trip_witness :
  path (rename "Naive_FULL" (naive_model [] [])) = "out/Naive_FULL" ∧
  rename "Naive" (rename "Naive_FULL" (naive_model [] [])) = naive_model [] [].
Proof.
  destruct (rename_round_trip (naive_model [] []) "Naive_FULL") as (Hpath & _ & Hback);
    [discriminate | discriminate | compute_done | reflexivity |].
  split; [exact Hpath | exact Hback].
Defined.

Lemma refit_copy_keeps_original_witness :
  ∃ refit w',
    convert_to_refit_full_via_copy demo_external (cached_model, demo_world [])
    = (Return refit, (cached_model, w')) ∧
    name refit = "Naive_FULL" ∧ path refit = "out/Naive_FULL" ∧
    _oof_predictions refit = None ∧
    files w' !! "out/Naive_FULL/utils/oof.pkl" = Some (PickledFrames demo_oof).
Proof.
  destruct (refit_copy_keeps_original demo_external cached_model (demo_world [])
              "out/Naive_FULL")
    as (refit & w' & Hrun & Hname & Hpath & Hoof & _ & _ & _ & Hfile);
    [discriminate | compute_done | reflexivity | reflexivity
    | intros _; apply not_elem_of_empty | apply not_elem_of_empty |].
  exists refit, w'. split; [exact Hrun |]. split; [exact Hname |]. split; [exact Hpath |].
  split; [exact Hoof |]. exact (Hfile demo_oof eq_refl).
Defined.

(** *** The refit-full template *)

Section Template.
Context (E : External) (cls : ModelClass).

Lemma list_remove_elem (x : Qc) (l : list Qc) :
  x ∈ l → ∃ l', list_remove x l = Return l' ∧ l ≡ₚ x :: l'.
Proof.
  induction l as [|y l IH]; intros Hin; [by apply elem_of_nil in Hin |].
  simpl. destruct (decide (y = x)) as [-> | Hne]; [by eexists |].
  apply elem_of_cons in Hin as [-> | Hin]; [done |].
  destruct (IH Hin) as (l' & -> & Hperm). exists (y :: l'). split; [done |].
  rewrite Hperm. apply Permutation_swap.
Qed.

Lemma list_remove_absent (x : Qc) (l : list Qc) :
  x ∉ l → list_remove x l = Raise (ValueError "list.remove(x): x not in list").
Proof.
  induction l as [|y l IH]; intros Hnotin; [done |].
  apply not_elem_of_cons in Hnotin as [Hne Hnotin].
  simpl. rewrite decide_False by done. by rewrite IH.
Qed.

Lemma sorted_levels_le (l : list Qc) : sorted_levels l → StronglySorted Qcle l.
Proof.
  induction 1 as [|x l Hs IH Hx]; constructor; [done |].
  eapply Forall_impl; [exact Hx |]. intros y. apply Qclt_le_weak.
Qed.

(** A strictly increasing list is the sorted set of any list with the
    same elements. *)
Lemma sorted_set_unique (l k : list Qc) :
  sorted_levels l → (∀ q, q ∈ k ↔ q ∈ l) → sorted_set k = l.
Proof.
  intros Hl Helem.
  apply (StronglySorted_unique Qcle).
  - apply sorted_levels_le, sorted_set_sorted.
  - by apply sorted_levels_le.
  - apply NoDup_Permutation.
    + apply sorted_levels_NoDup, sorted_set_sorted.
    + by apply sorted_levels_NoDup.
    + intros q. by rewrite sorted_set_elem.
Qed.

(** Taking the median out of sorted levels and putting it back, as the
    constructor does, gives the same levels. *)
Lemma remove_median_round_trip (l : list Qc) :
  sorted_levels l → half ∈ l →
  ∃ l', list_remove half l = Return l' ∧ (half ∉ l') ∧ (∀ q, q ∈ l' → q ∈ l) ∧
        sorted_set (half :: l') = l.
Proof.
  intros Hsorted Hin. destruct (list_remove_elem half l Hin) as (l' & Hrem & Hperm).
  exists l'. split; [done |].
  pose proof (sorted_levels_NoDup l Hsorted) as Hnd. rewrite Hperm in Hnd.
  apply NoDup_cons in Hnd as [Hnotin _].
  split; [done |]. split.
  - intros q Hq. rewrite Hperm. by right.
  - apply sorted_set_unique; [done |]. intros q. by rewrite Hperm.
Qed.

Lemma key_warnings_app k1 k2 : key_warnings (k1 ++ k2) = key_warnings k1 ++ key_warnings k2.
Proof. unfold key_warnings. by rewrite filter_app, fmap_app. Qed.

(** The hyperparameters that the template hands to the constructor, and
    what the constructor makes of them. *)
Lemma template_hyperparameters m w :
  dict_get (reserved_key E) (_hyperparameters m) = None →
  ∃ hp,
    match dict_get (KStr (AG_ARGS_FIT E)) (p_hyperparameters (get_params E m)) with
    | Some _ => p_hyperparameters (get_params E m)
    | None => dict_set (KStr (AG_ARGS_FIT E)) (PyDict []) (p_hyperparameters (get_params E m))
    end = hp ∧
    _check_and_split_hyperparameters E (Some (PyDict hp)) w
    = (Return (_hyperparameters m, _extra_ag_args m),
       with_events w (key_warnings (dict_keys (_hyperparameters m)))).
Proof.
  unfold reserved_key. intros Hfree.
  exists (dict_set (KStr (AG_ARGS_FIT E)) (PyDict (_extra_ag_args m)) (_hyperparameters m)).
  split.
  - unfold get_params. simpl. destruct (_extra_ag_args m) as [|kv extra].
    + by rewrite Hfree.
    + by rewrite dict_get_set, decide_True.
  - rewrite split_run, dict_get_set, decide_True by done. simpl.
    rewrite dict_remove_set by done. do 2 f_equal.
    rewrite dict_set_fresh by done. rewrite dict_keys_app, key_warnings_app. simpl.
    apply app_nil_r.
Qed.

(** The levels that the template hands to the constructor, and what the
    constructor makes of them. *)
Lemma template_levels m :
  levels_invariant m →
  ∃ levels,
    (if must_drop_median m then list_remove half (quantile_levels m)
     else Return (quantile_levels m)) = Return levels ∧
    forallb (λ q, bool_decide (0 < q < 1)) levels = true ∧
    (if decide (half ∈ levels) then (false, levels)
     else (true, sorted_set (half :: levels)))
    = (must_drop_median m, quantile_levels m).
Proof.
  intros (Hvalid & Hhalf & Hsorted).
  assert (Hsub : ∀ l, (∀ q, q ∈ l → q ∈ quantile_levels m) →
                      forallb (λ q, bool_decide (0 < q < 1)) l = true).
  { intros l Hl. apply forallb_forall. intros q Hq%list_elem_of_In.
    apply bool_decide_eq_true. rewrite Forall_forall in Hvalid. by apply Hvalid, Hl. }
  destruct (must_drop_median m).
  - destruct (remove_median_round_trip _ (Hsorted eq_refl) Hhalf)
      as (l' & Hrem & Hnotin & Hl' & Hback).
    exists l'. split; [done |]. split; [by apply Hsub |].
    rewrite decide_False by done. by rewrite Hback.
  - exists (quantile_levels m). split; [done |]. split; [by apply Hsub |].
    by rewrite decide_True.
Qed.

(** X11: the refit-full template of a model with the constructor's
    invariants is a model as the constructor makes it: it has the suffixed
    name under the same root, the stored levels and the median flag of
    the original (the median is taken out and put back), its
    hyperparameters and auxiliary arguments, its metric, target, metadata,
    frequency and horizon, and nothing of what training left on the
    original.  The original is not changed. *)
Theorem refit_template_of_model m w :
  levels_invariant m →
  dict_get (reserved_key E) (_hyperparameters m) = None →
  metric_round_trips E m →
  name m +:+ REFIT_FULL_SUFFIX E ≠ "" →
  convert_to_refit_full_template E cls (m, w)
  = (Return {| name := name m +:+ REFIT_FULL_SUFFIX E;
               path_root := path_root m;
               path := os_path_join (path_root m) (name m +:+ REFIT_FULL_SUFFIX E);
               eval_metric := eval_metric m; target := target m;
               covariate_metadata := covariate_metadata m;
               freq := freq m; prediction_length := prediction_length m;
               quantile_levels := quantile_levels m;
               must_drop_median := must_drop_median m;
               _oof_predictions := None;
               _hyperparameters := _hyperparameters m;
               _extra_ag_args := _extra_ag_args m;
               fit_time := None; predict_time := None; predict_1_time := None;
               val_score := None;
               target_scaler := None; covariate_scaler := None;
               covariate_regressor := None;
               fitted_state := PyNone |},
     (m, with_events w (key_warnings (dict_keys (_hyperparameters m))))).
Proof.
  intros Hlevels Hfree Hmetric Hname.
  destruct (template_levels m Hlevels) as (levels & Hrem & Hvalid & Hbranch).
  destruct (template_hyperparameters m w Hfree) as (hp & Hhp & Hsplit).
  unfold convert_to_refit_full_template.
  erewrite bind_return by reflexivity. cbn [fst].
  erewrite bind_return; last first.
  { instantiate (1 := (m, w)). instantiate (1 := levels).
    change (p_quantile_levels (get_params E m)) with (quantile_levels m).
    destruct (must_drop_median m); [| by injection Hrem as ->].
    unfold lift_outcome. by rewrite Hrem. }
  rewrite Hhp. unfold lift_static. cbn [fst snd].
  assert (Hinit :
    __init__ E cls (Some (p_path (get_params E m)))
      (Some (p_name (get_params E m) +:+ REFIT_FULL_SUFFIX E)) (Some (PyDict hp))
      (p_freq (get_params E m)) (p_prediction_length (get_params E m))
      (Some (p_covariate_metadata (get_params E m))) (p_target (get_params E m))
      levels (Some (metric_name (p_eval_metric (get_params E m)))) w
    = (Return {| name := name m +:+ REFIT_FULL_SUFFIX E;
               path_root := path_root m;
               path := os_path_join (path_root m) (name m +:+ REFIT_FULL_SUFFIX E);
               eval_metric := eval_metric m; target := target m;
               covariate_metadata := covariate_metadata m;
               freq := freq m; prediction_length := prediction_length m;
               quantile_levels := quantile_levels m;
               must_drop_median := must_drop_median m;
               _oof_predictions := None;
               _hyperparameters := _hyperparameters m;
               _extra_ag_args := _extra_ag_args m;
               fit_time := None; predict_time := None; predict_1_time := None;
               val_score := None;
               target_scaler := None; covariate_scaler := None;
               covariate_regressor := None;
               fitted_state := PyNone |},
       with_events w (key_warnings (dict_keys (_hyperparameters m))))).
  { unfold __init__. cbn [get_params p_path p_name p_freq p_prediction_length
                          p_covariate_metadata p_target p_eval_metric].
    rewrite bool_decide_eq_false_2 by done.
    erewrite bind_return by reflexivity.
    erewrite bind_return by (unfold lift_outcome; by rewrite Hmetric).
    rewrite Hvalid. cbn [negb]. rewrite Hbranch.
    erewrite bind_return by apply Hsplit. done. }
  by rewrite Hinit.
Qed.

(** X12: building the template raises when the median flag of the
    model is set and the median is not among its levels: the median
    cannot be taken out.  Nothing is constructed or logged. *)
Theorem refit_template_without_median m w :
  must_drop_median m = true → half ∉ quantile_levels m →
  convert_to_refit_full_template E cls (m, w)
  = (Raise (ValueError "list.remove(x): x not in list"), (m, w)).
Proof.
  intros Hdrop Hnotin. unfold convert_to_refit_full_template.
  erewrite bind_return by reflexivity. cbn [fst]. rewrite Hdrop.
  erewrite bind_raise; [reflexivity |].
  change (p_quantile_levels (get_params E m)) with (quantile_levels m).
  unfold lift_outcome. by rewrite (list_remove_absent _ _ Hnotin).
Qed.
End Template.

Lemma refit_template_of_model_witness :
  ∃ template,
    convert_to_refit_full_template demo_external (demo_class []) (trained_model, demo_world [])
    = (Return template, (trained_model, demo_world [])) ∧
    name template = "Naive_FULL" ∧ path template = "out/Naive_FULL" ∧
    quantile_levels template = [Q2Qc 0.1; half; Q2Qc 0.9] ∧
    must_drop_median template = true ∧
    _hyperparameters template = [(KStr "seasonal_period", PyNum (Q2Qc 7))] ∧
    _extra_ag_args template = [(KStr "max_time_limit", PyNum (Q2Qc 50))] ∧
    _oof_predictions template = None ∧ val_score template = None ∧
    target_scaler template = None ∧ fitted_state template = PyNone.
Proof.
  eexists. split.
  - apply (refit_template_of_model demo_external (demo_class []) trained_model
             (demo_world [])).
    + split; [compute_done |]. split; [compute_done |]. intros _. compute_done.
    + reflexivity.
    + reflexivity.
    + discriminate.
  - repeat split; reflexivity.
Defined.

Lemma refit_template_without_median_witness :
  ∃ msg,
    convert_to_refit_full_template demo_external (demo_class [])
      (inconsistent_model, demo_world [])
    = (Raise (ValueError msg), (inconsistent_model, demo_world [])).
Proof.
  eexists.
  apply (refit_template_without_median demo_external (demo_class []) inconsistent_model
           (demo_world [])); [reflexivity | compute_done].
Defined.

(** *** More on prediction *)

Section MorePredict.
Context (E : External) (cls : ModelClass).

(** What the constructor leaves unset, and where it puts the model. *)
Lemma init_unfitted path_ name_ hp fr pl md tg levels em w m w' :
  __init__ E cls path_ name_ hp fr pl md tg levels em w = (Return m, w') →
  target_scaler m = None ∧ covariate_scaler m = None ∧ covariate_regressor m = None ∧
  _oof_predictions m = None ∧ fit_time m = None ∧ predict_time m = None ∧
  val_score m = None ∧ path m = os_path_join (path_root m) (name m).
Proof.
  unfold __init__. intros H.
  apply bind_return_inv in H as (root & w1 & Hroot & H).
  apply bind_return_inv in H as (metric & w2 & Hmetric & H).
  destruct (forallb _ levels); simpl in H; [| done].
  destruct (decide (half ∈ levels));
    apply bind_return_inv in H as ([hp' extra] & w3 & Hsplit & H);
    rewrite ret_run in H; injection H as <- <-; simpl; done.
Qed.

Lemma apply_transform_exact {T} attr get (method : T → ValueMap) data m w t :
  get m = Some t →
  apply_transform attr get method data (m, w)
  = (Return (from_option (λ t, map_values (method t) data) data t), (m, w)).
Proof.
  intros Ht. unfold apply_transform. erewrite bind_return by by apply read_attr_run. done.
Qed.

(** The first half of [predict] in closed form. *)
Lemma predict_raw_run data known kwargs m w ts cs cr d k m1 cr1 :
  target_scaler m = Some ts → covariate_scaler m = Some cs → covariate_regressor m = Some cr →
  preprocess cls (transformed_inputs ts cs cr data known).1
                 (transformed_inputs ts cs cr data known).2 false m = (Return (d, k), m1) →
  covariate_regressor m1 = Some cr1 →
  predict_raw cls data known kwargs (m, w)
  = match _predict cls d k kwargs (set_covariate_regressor None m1) with
    | (Return raw, m2) =>
        (Return (d, k, raw),
         (set_covariate_regressor cr1 m2, with_events w [CalledPredict d k]))
    | (Raise e, m2) => (Raise e, (m2, with_events w [CalledPredict d k]))
    end.
Proof.
  intros Hts Hcs Hcr Hpre Hcr1. unfold predict_raw.
  erewrite bind_return by by apply apply_transform_exact.
  erewrite bind_return by by apply read_attr_run.
  assert (Hinputs :
    ∀ (K : Frame * option Frame → Method (Frame * option Frame * Frame)),
      (let '(data0, known0) :=
         match cs with
         | Some cs0 =>
             (map_values (cs_fit_transform cs0)
                (from_option (λ t, map_values (ts_fit_transform t) data) data ts),
              map_values (cs_transform_known_covariates cs0) <$> known)
         | None => (from_option (λ t, map_values (ts_fit_transform t) data) data ts, known)
         end in K (data0, known0))
      = K (from_option (λ t, map_values (cs_fit_transform t)
                          (from_option (λ t, map_values (ts_fit_transform t) data) data ts))
                       (from_option (λ t, map_values (ts_fit_transform t) data) data ts) cs,
           from_option (λ t, map_values (cs_transform_known_covariates t) <$> known) known cs)).
  { intros K. by destruct cs. }
  rewrite (Hinputs (λ p,
    data2 ← apply_transform "covariate_regressor" covariate_regressor cr_fit_transform p.1;
    r ← run_hook (preprocess cls data2 p.2 false);
    let '(data3, known3) := r in
    covariate_regressor_ ← read_attr "covariate_regressor" covariate_regressor;
    modify_self (set_covariate_regressor None);;
    lift_static (emit (CalledPredict data3 known3));;
    predictions ← run_hook (_predict cls data3 known3 kwargs);
    modify_self (set_covariate_regressor covariate_regressor_);;
    mret (data3, known3, predictions))).
  cbn [fst snd].
  erewrite bind_return by by apply apply_transform_exact.
  erewrite bind_return; last first.
  { unfold run_hook. cbn [fst snd]. unfold transformed_inputs in Hpre. cbn [fst snd] in Hpre.
    rewrite Hpre. reflexivity. }
  cbn beta iota.
  erewrite bind_return by by apply read_attr_run.
  erewrite bind_return by reflexivity.
  erewrite bind_return by reflexivity.
  unfold run_hook at 1. unfold mbind at 1, py_bind at 1. cbn [fst snd].
  destruct (_predict cls d k kwargs (set_covariate_regressor None m1)) as [[raw | e] m2].
  - erewrite bind_return by reflexivity. done.
  - done.
Qed.

(** X13: a model as the constructor returns it cannot predict: the
    transforms are only assigned by [fit], so [predict] raises an
    [AttributeError] at its first line, before any hook is called, and
    changes neither the model nor the world. *)
Theorem predict_before_fit path_ name_ hp fr pl md tg levels em w0 m w0' :
  __init__ E cls path_ name_ hp fr pl md tg levels em w0 = (Return m, w0') →
  ∀ data known kwargs w,
    predict E cls data known kwargs (m, w)
    = (Raise (AttributeError "target_scaler"), (m, w)).
Proof.
  intros Hinit data known kwargs w.
  apply init_unfitted in Hinit as (Hts & _).
  unfold predict, predict_raw, apply_transform, read_attr.
  erewrite bind_raise; [reflexivity |].
  erewrite bind_raise; [reflexivity |].
  erewrite bind_raise; [reflexivity |].
  erewrite bind_return by reflexivity. cbn [fst]. by rewrite Hts.
Qed.

(** X14: [predict] attaches the covariate regressor again only after
    the prediction hook has returned.  When the hook raises and leaves the
    instance alone, [predict] raises the same error and the model is left
    without its covariate regressor. *)
Theorem predict_failure_detaches_regressor data known kwargs m w ts cs cr d k m1 e :
  target_scaler m = Some ts → covariate_scaler m = Some cs →
  covariate_regressor m = Some (Some cr) →
  preprocess cls (transformed_inputs ts cs (Some cr) data known).1
                 (transformed_inputs ts cs (Some cr) data known).2 false m
  = (Return (d, k), m1) →
  covariate_regressor m1 = Some (Some cr) →
  _predict cls d k kwargs (set_covariate_regressor None m1)
  = (Raise e, set_covariate_regressor None m1) →
  ∃ m' w',
    predict E cls data known kwargs (m, w) = (Raise e, (m', w')) ∧
    covariate_regressor m' = Some None ∧
    m' = set_covariate_regressor None m1 ∧
    events w' = events w ++ [CalledPredict d k].
Proof.
  intros Hts Hcs Hcr Hpre Hcr1 Hhook.
  eexists _, _. split; [| split; [| split; [reflexivity |]]].
  - unfold predict. erewrite bind_raise; [reflexivity |].
    rewrite (predict_raw_run _ _ _ _ _ _ _ _ _ _ _ _ Hts Hcs Hcr Hpre Hcr1), Hhook.
    reflexivity.
  - by destruct m1.
  - done.
Qed.
End MorePredict.

Lemma predict_before_fit_witness :
  ∃ m,
    __init__ demo_external (demo_class [Mean; Quantile half]) (Some "out") None None
             (Some "D") 7 None "target" [half] None (demo_world [])
    = (Return m, demo_world []) ∧
    predict demo_external (demo_class [Mean; Quantile half]) demo_train None ∅
            (m, demo_world [])
    = (Raise (AttributeError "target_scaler"), (m, demo_world [])).
Proof.
  eexists. split; [vm_compute; reflexivity |].
  apply (predict_before_fit demo_external (demo_class [Mean; Quantile half])
           (Some "out") None None (Some "D") 7 None "target" [half] None
           (demo_world []) _ (demo_world [])).
  vm_compute; reflexivity.
Defined.

Lemma predict_failure_detaches_regressor_witness :
  covariate_regressor regressed_model = Some (Some identity_regressor) ∧
  ∃ m' w',
    predict demo_external failing_class demo_train None ∅ (regressed_model, demo_world [])
    = (Raise (HookError "out of memory"), (m', w')) ∧
    covariate_regressor m' = Some None.
Proof.
  split; [reflexivity |].
  destruct (predict_failure_detaches_regressor demo_external failing_class demo_train None ∅
              regressed_model (demo_world []) None None identity_regressor
              demo_train None regressed_model (HookError "out of memory"))
    as (m' & w' & Hrun & Hdetached & _);
    [reflexivity .. |].
  exists m', w'. split; [exact Hrun | exact Hdetached].
Defined.

(** *** The values of the returned table *)

Section PredictValues.
Context (E : External) (cls : ModelClass).
Implicit Types (fr : Frame) (l : label) (g : label → list cell).

(** Selecting from columns generated by label. *)
Lemma filter_generated g l (ls : list label) :
  NoDup ls → l ∈ ls →
  filter (λ c : label * list cell, c.1 = l) ((λ l', (l', g l')) <$> ls) = [(l, g l)].
Proof.
  induction ls as [|l0 ls IH]; intros Hnd Hin; [by apply elem_of_nil in Hin |].
  apply NoDup_cons in Hnd as [Hnotin Hnd]. rewrite fmap_cons.
  destruct (decide (l0 = l)) as [-> | Hne].
  - rewrite filter_cons_True by done. f_equal.
    apply select_absent. by rewrite <- list_fmap_compose, list_fmap_id.
  - rewrite filter_cons_False by done.
    apply elem_of_cons in Hin as [-> | Hin]; [done | by apply IH].
Qed.

(** A table with distinct labels is generated from its own columns. *)
Lemma cols_generated fr :
  NoDup (columns fr) → cols fr = (λ l, (l, hook_column fr l)) <$> columns fr.
Proof.
  unfold hook_column, select, columns. generalize (nan_column fr).
  induction (cols fr) as [|[l0 d0] cs IH]; intros nan Hnd; [done |].
  rewrite fmap_cons in Hnd. apply NoDup_cons in Hnd as [Hnotin Hnd].
  rewrite !fmap_cons. simpl. rewrite filter_cons_True by done. simpl. f_equal.
  rewrite (IH nan Hnd) at 1. apply list_fmap_ext. intros i l Hl. f_equal.
  rewrite filter_cons_False; [done |]. simpl. intros ->.
  apply Hnotin. by eapply list_elem_of_lookup_2.
Qed.

(** Lines 611-613 on a table with distinct labels. *)
Lemma canonical_order_run (m : Model) (w : World) raw :
  NoDup (columns raw) →
  ∃ fr1,
    (if bool_decide (columns raw = column_order m) then mret (M := Method) raw
     else lift_outcome (reindex (column_order m) raw)) (m, w) = (Return fr1, (m, w)) ∧
    cols fr1 = (λ l, (l, hook_column raw l)) <$> column_order m.
Proof.
  intros Hnd. case_bool_decide as Heq.
  - exists raw. split; [done |]. rewrite <- Heq. by apply cols_generated.
  - unfold lift_outcome, reindex. rewrite decide_True by done. by eexists.
Qed.

Lemma has_column_generated g ls fr l :
  cols fr = (λ l', (l', g l')) <$> ls → has_column l fr = bool_decide (l ∈ ls).
Proof.
  intros Hcols. unfold has_column, columns. rewrite Hcols.
  by rewrite <- list_fmap_compose, list_fmap_id.
Qed.

(** Line 618 on generated columns. *)
Lemma assign_generated g ls fr :
  NoDup ls → Mean ∈ ls → median_label ∈ ls →
  cols fr = (λ l, (l, g l)) <$> ls →
  ∃ fr', assign_column Mean median_label fr = Return fr' ∧
         cols fr' = (λ l, (l, g (if decide (l = Mean) then median_label else l))) <$> ls.
Proof.
  intros Hnd Hmean Hmedian Hcols. unfold assign_column, select.
  rewrite (has_column_generated g ls fr Mean Hcols), bool_decide_eq_true_2 by done.
  rewrite Hcols, filter_generated by done. simpl.
  eexists. split; [reflexivity |]. simpl.
  rewrite <- list_fmap_compose. apply list_fmap_ext. intros i l _. simpl.
  by destruct (decide (l = Mean)) as [-> |].
Qed.

(** Line 620 on generated columns. *)
Lemma drop_generated g ls fr l :
  cols fr = (λ l', (l', g l')) <$> ls →
  cols (drop_column l fr) = (λ l', (l', g l')) <$> filter (λ l', l' ≠ l) ls.
Proof.
  intros Hcols. unfold drop_column. simpl. rewrite Hcols. clear Hcols.
  induction ls as [|l0 ls IH]; [done |]. rewrite fmap_cons.
  destruct (decide (l0 ≠ l)).
  - rewrite !filter_cons_True by done. by rewrite fmap_cons, IH.
  - rewrite !filter_cons_False by done. done.
Qed.

Lemma median_in_column_order (m : Model) :
  median_label ∈ column_order m ↔ half ∈ quantile_levels m.
Proof.
  unfold column_order, median_label. rewrite elem_of_cons, list_elem_of_fmap. split.
  - intros [? | (q & Hq & Hin)]; [done |]. by injection Hq as <-.
  - intros Hin. right. by exists half.
Qed.

(** The second half of [predict] without transforms, in closed form. *)
Lemma predict_finish_values data known raw m w :
  target_scaler m = Some None → covariate_regressor m = Some None →
  NoDup (columns raw) → NoDup (quantile_levels m) →
  ∃ out, predict_finish E data known raw (m, w) = (Return out, (m, w)) ∧
         cols out = (λ l, (l, hook_column raw (source_label m l))) <$> canonical_columns m.
Proof.
  intros Hts Hcr Hraw Hlevels. unfold predict_finish.
  erewrite bind_return by reflexivity. cbn [fst].
  pose proof (column_order_NoDup _ Hlevels) as Horder. fold (column_order m) in Horder.
  destruct (canonical_order_run m w raw Hraw) as (fr1 & Hstep1 & Hfr1).
  erewrite bind_return by apply Hstep1. clear Hstep1.
  assert (∃ fr2, (if has_column median_label fr1
                  then predictions ←
                         (if optimized_by_median (eval_metric m)
                          then lift_outcome (assign_column Mean median_label fr1)
                          else mret fr1);
                       mret (M := Method)
                            (if must_drop_median m then drop_column median_label predictions
                             else predictions)
                  else mret fr1) (m, w)
                 = (Return fr2, (m, w)) ∧
               cols fr2 = (λ l, (l, hook_column raw (source_label m l)))
                            <$> canonical_columns m)
    as (fr2 & Hstep2 & Hfr2).
  { rewrite (has_column_generated _ _ fr1 median_label Hfr1).
    unfold source_label, canonical_columns.
    case_bool_decide as Hmedian.
    - apply median_in_column_order in Hmedian as Hhalf.
      rewrite (bool_decide_eq_true_2 _ Hhalf), andb_true_r.
      destruct (optimized_by_median (eval_metric m)).
      + destruct (assign_generated (hook_column raw) _ fr1 Horder) as (fr & Hassign & Hfr);
          [left | done | done |].
        erewrite bind_return by (unfold lift_outcome; by rewrite Hassign).
        rewrite ret_run. eexists. split; [reflexivity |].
        destruct (must_drop_median m); [| done].
        rewrite (drop_generated _ _ _ _ Hfr). unfold column_order.
        by rewrite filter_median_label.
      + erewrite bind_return by reflexivity.
        rewrite ret_run. eexists. split; [reflexivity |].
        destruct (must_drop_median m).
        * rewrite (drop_generated _ _ _ _ Hfr1). unfold column_order.
          rewrite filter_median_label.
          apply list_fmap_ext. intros i l _. by destruct (decide (l = Mean)) as [-> |].
        * rewrite Hfr1.
          apply list_fmap_ext. intros i l _. by destruct (decide (l = Mean)) as [-> |].
    - exists fr1. split; [done |]. rewrite Hfr1.
      assert ((if must_drop_median m then filter (λ q, q ≠ half) (quantile_levels m)
               else quantile_levels m) = quantile_levels m) as ->.
      { destruct (must_drop_median m); [| done].
        rewrite median_in_column_order in Hmedian. clear -Hmedian.
        induction (quantile_levels m) as [|q qs IH]; [done |].
        apply not_elem_of_cons in Hmedian as [Hne Hnotin].
        rewrite filter_cons_True by done. by rewrite IH. }
      rewrite median_in_column_order in Hmedian.
      rewrite (bool_decide_eq_false_2 _ Hmedian), andb_false_r.
      apply list_fmap_ext. intros i l _. by destruct (decide (l = Mean)) as [-> |]. }
  erewrite bind_return by apply Hstep2. clear Hstep2.
  erewrite bind_return by by apply read_attr_run.
  cbn beta iota. exists fr2. split; [| done].
  by rewrite (apply_transform_exact _ _ _ _ _ _ _ Hts).
Qed.

(** X15: without target scaler and covariate regressor, the table that
    [predict] returns holds the hook's own numbers under the canonical
    labels: every quantile column is the hook's column of that label, a
    column of NaN when the hook emitted none; "mean" is the hook's "0.5"
    column when the metric is optimized by the median and the median is
    among the levels, also when "0.5" itself is dropped, and the hook's
    "mean" otherwise. *)
Theorem predict_values data known kwargs s data' known' raw m1 w1 :
  predict_raw cls data known kwargs s = (Return (data', known', raw), (m1, w1)) →
  target_scaler m1 = Some None → covariate_regressor m1 = Some None →
  NoDup (columns raw) → NoDup (quantile_levels m1) →
  ∃ out,
    predict E cls data known kwargs s = (Return out, (m1, w1)) ∧
    cols out = (λ l, (l, hook_column raw (source_label m1 l))) <$> canonical_columns m1 ∧
    (optimized_by_median (eval_metric m1) = true → half ∈ quantile_levels m1 →
     select Mean out = [hook_column raw median_label]) ∧
    ∀ q, Quantile q ∈ columns out → select (Quantile q) out = [hook_column raw (Quantile q)].
Proof.
  intros Hraw Hts Hcr Hnd Hlevels.
  destruct (predict_finish_values data' known' raw m1 w1 Hts Hcr Hnd Hlevels)
    as (out & Hout & Hcols).
  assert (Hcanon : NoDup (canonical_columns m1)).
  { apply column_order_NoDup. destruct (must_drop_median m1); [| done].
    by apply NoDup_filter. }
  exists out. split; [| split; [done | split]].
  - unfold predict. by erewrite bind_return by apply Hraw.
  - intros Hopt Hhalf. unfold select. rewrite Hcols, filter_generated; [| done | left].
    simpl. unfold source_label.
    by rewrite decide_True, Hopt, bool_decide_eq_true_2 by done.
  - intros q Hq. unfold select. unfold columns in Hq. rewrite Hcols in Hq |- *.
    rewrite <- list_fmap_compose, list_fmap_id in Hq.
    rewrite filter_generated by done. simpl. unfold source_label.
    by rewrite decide_False by done.
Qed.
End PredictValues.

Lemma predict_values_witness :
  ∃ out s',
    predict demo_external median_class demo_train None ∅ (median_model, demo_world [])
    = (Return out, s') ∧
    cols out = [(Mean, [Some (Q2Qc 2); Some (Q2Qc 2)]);
                (Quantile (Q2Qc 0.1), [None; None]);
                (Quantile (Q2Qc 0.9), [Some (Q2Qc 4); Some (Q2Qc 4)])].
Proof.
  edestruct (predict_values demo_external median_class demo_train None ∅
               (median_model, demo_world [])) as (out & Hpredict & Hcols & _);
    [vm_compute; reflexivity | reflexivity | reflexivity | compute_done | compute_done |].
  eexists out, _. split; [exact Hpredict |]. rewrite Hcols. reflexivity.
Defined.

(** *** The requested levels in the returned table *)

Section RequestedLevels.
Context (E : External) (cls : ModelClass).

Lemma sorted_levels_filter (P : Qc → Prop) `{∀ q, Decision (P q)} (l : list Qc) :
  sorted_levels l → sorted_levels (filter P l).
Proof.
  induction 1 as [|x l Hs IH Hx]; [constructor |].
  destruct (decide (P x)).
  - rewrite filter_cons_True by done. constructor; [done |].
    rewrite Forall_forall in Hx |- *. intros y [_ Hy]%list_elem_of_filter. by apply Hx.
  - by rewrite filter_cons_False.
Qed.

(** Without the median that was added, the stored levels are the sorted
    set of the levels that were asked for. *)
Lemma filter_added_median (levels : list Qc) :
  half ∉ levels → filter (λ q, q ≠ half) (sorted_set (half :: levels)) = sorted_set levels.
Proof.
  intros Hnotin. symmetry. apply sorted_set_unique.
  - apply sorted_levels_filter, sorted_set_sorted.
  - intros q. rewrite list_elem_of_filter, sorted_set_elem, elem_of_cons. split.
    + intros Hq. split; [by intros -> | by right].
    + by intros [Hne [-> | Hq]].
Qed.

(** X16: a model is built from the levels [levels]; later, with its
    stored levels and median flag as the constructor left them, it
    predicts from a hook table with distinct labels.  The returned table
    has, after "mean", exactly the levels that were asked for: as given
    when the median was among them, and otherwise in increasing order
    without repetitions and without the median that the constructor added. *)
Theorem predict_returns_requested_levels
    path_ name_ hp fr pl md tg levels em w0 m0 w0' data known kwargs s data' known' raw m1 w1 :
  __init__ E cls path_ name_ hp fr pl md tg levels em w0 = (Return m0, w0') →
  (half ∈ levels → NoDup levels) →
  predict_raw cls data known kwargs s = (Return (data', known', raw), (m1, w1)) →
  quantile_levels m1 = quantile_levels m0 →
  must_drop_median m1 = must_drop_median m0 →
  is_Some (target_scaler m1) →
  NoDup (columns raw) →
  ∃ out,
    predict E cls data known kwargs s = (Return out, (m1, w1)) ∧
    columns out
    = Mean :: (str_float <$> (if decide (half ∈ levels) then levels else sorted_set levels)) ∧
    ∀ q, Quantile q ∈ columns out ↔ q ∈ levels.
Proof.
  intros Hinit Hnd Hraw Hlevels Hdrop Hts Hcols.
  apply init_quantile_levels in Hinit as (_ & _ & Hflag & Hadded & Hkept).
  assert (Hstored : NoDup (quantile_levels m1) ∧
            canonical_columns m1
            = Mean :: (str_float <$> (if decide (half ∈ levels) then levels
                                      else sorted_set levels))).
  { unfold canonical_columns. rewrite Hlevels, Hdrop.
    destruct (decide (half ∈ levels)) as [Hin | Hnotin].
    - rewrite (Hkept Hin). split; [by apply Hnd |].
      destruct (must_drop_median m0); [| done].
      by destruct (proj1 Hflag eq_refl).
    - destruct (Hadded Hnotin) as (-> & Hsorted & _).
      split; [by apply sorted_levels_NoDup, sorted_set_sorted |].
      rewrite (proj2 Hflag Hnotin). by rewrite filter_added_median. }
  destruct Hstored as [Hstored Hcanon].
  destruct (predict_finish_run E data' known' raw m1 w1) as (out & Hout & Hout_cols);
    [done | by eapply predict_raw_restores | done | done |].
  exists out. split; [| split].
  - unfold predict. by erewrite bind_return by apply Hraw.
  - by rewrite Hout_cols.
  - intros q. rewrite Hout_cols, Hcanon, elem_of_cons, list_elem_of_fmap.
    split.
    + intros [? | (q' & Hq & Hin)]; [done |]. injection Hq as ->.
      destruct (decide (half ∈ levels)); [done | by apply sorted_set_elem].
    + intros Hq. right. exists q. split; [done |].
      destruct (decide (half ∈ levels)); [done | by apply sorted_set_elem].
Qed.
End RequestedLevels.

Lemma predict_returns_requested_levels_witness :
  ∃ m0 out s',
    __init__ demo_external (demo_class [Quantile (Q2Qc 0.9); Mean]) (Some "out") None None
             (Some "D") 7 None "target" [Q2Qc 0.9; Q2Qc 0.1; Q2Qc 0.9] None (demo_world [])
    = (Return m0, demo_world []) ∧
    quantile_levels m0 = [Q2Qc 0.1; half; Q2Qc 0.9] ∧
    predict demo_external (demo_class [Quantile (Q2Qc 0.9); Mean]) demo_train None ∅
            (interval_model, demo_world [])
    = (Return out, s') ∧
    columns out = [Mean; Quantile (Q2Qc 0.1); Quantile (Q2Qc 0.9)].
Proof.
  assert (Hinit : ∃ m0,
    __init__ demo_external (demo_class [Quantile (Q2Qc 0.9); Mean]) (Some "out") None None
             (Some "D") 7 None "target" [Q2Qc 0.9; Q2Qc 0.1; Q2Qc 0.9] None (demo_world [])
    = (Return m0, demo_world []) ∧
    quantile_levels m0 = [Q2Qc 0.1; half; Q2Qc 0.9] ∧ must_drop_median m0 = true).
  { eexists. split; [vm_compute; reflexivity |]. split; reflexivity. }
  destruct Hinit as (m0 & Hinit & Hlevels & Hdrop).
  destruct (predict_returns_requested_levels demo_external
              (demo_class [Quantile (Q2Qc 0.9); Mean]) (Some "out") None None (Some "D") 7
              None "target" [Q2Qc 0.9; Q2Qc 0.1; Q2Qc 0.9] None (demo_world []) m0
              (demo_world []) demo_train None ∅ (interval_model, demo_world [])
              demo_train None (demo_frame [Quantile (Q2Qc 0.9); Mean])
              interval_model (with_events (demo_world [])
                                [CalledPredict demo_train None]) Hinit)
    as (out & Hpredict & Hcols & _);
    [intros Hin; exfalso; revert Hin; compute_done | vm_compute; reflexivity
    | by rewrite Hlevels | by rewrite Hdrop | by eexists | compute_done |].
  exists m0, out. eexists. split; [exact Hinit |]. split; [exact Hlevels |].
  split; [exact Hpredict |]. rewrite Hcols. vm_compute. reflexivity.
Defined.

(** *** The columns of a prediction *)

Section PredictColumns.
Context (E : External) (cls : ModelClass).

(** C2 as amended: the stored levels are a sorted set, as the
    constructor is specified to leave them, and the prediction hook has
    returned a table whose column labels are pairwise distinct.  Then
    [predict] returns a table whose columns are "mean" followed by one
    column per quantile level in sorted order, without the "0.5" column
    when [must_drop_median] is set, whatever columns the hook emitted;
    columns the hook did not emit are created by the reindexing. *)
Theorem predict_columns data known kwargs s data' known' raw m1 w1 :
  predict_raw cls data known kwargs s = (Return (data', known', raw), (m1, w1)) →
  is_Some (target_scaler m1) →
  NoDup (columns raw) →
  sorted_levels (quantile_levels m1) →
  ∃ out,
    predict E cls data known kwargs s = (Return out, (m1, w1)) ∧
    columns out
    = Mean :: (str_float <$>
                 sorted_set (if must_drop_median m1
                             then filter (λ q, q ≠ half) (quantile_levels m1)
                             else quantile_levels m1)) ∧
    (must_drop_median m1 = true → median_label ∉ columns out).
Proof.
  intros Hraw Hts Hnd Hlevels.
  destruct (predict_finish_run E data' known' raw m1 w1) as (out & Hout & Hcols);
    [done | by eapply predict_raw_restores | done | by apply sorted_levels_NoDup |].
  exists out. split; [| split].
  - unfold predict. by erewrite bind_return by apply Hraw.
  - rewrite Hcols. unfold canonical_columns. do 2 f_equal. symmetry.
    apply sorted_set_unique; [| done].
    destruct (must_drop_median m1); [by apply sorted_levels_filter | done].
  - intros Hdrop. rewrite Hcols. unfold canonical_columns. rewrite Hdrop.
    rewrite <- filter_median_label. intros [Hne _]%list_elem_of_filter. by apply Hne.
Qed.
End PredictColumns.

Lemma predict_columns_witness :
  ∃ out s',
    predict demo_external (demo_class [Quantile (Q2Qc 0.9); Col "extra"; Mean])
            demo_train None ∅ (interval_model, demo_world [])
    = (Return out, s') ∧
    columns out = [Mean; Quantile (Q2Qc 0.1); Quantile (Q2Qc 0.9)].
Proof.
  edestruct (predict_columns demo_external
               (demo_class [Quantile (Q2Qc 0.9); Col "extra"; Mean]) demo_train None ∅
               (interval_model, demo_world [])) as (out & Hpredict & Hcols & _);
    [vm_compute; reflexivity | by eexists | compute_done | compute_done |].
  eexists out, _. split; [exact Hpredict |]. rewrite Hcols. vm_compute. reflexivity.
Defined.

(** C2 as stated fails.  The model stores the median as its only level,
    and the hook returns a table in which the label "0.5" occurs twice:
    the reindexing raises instead of bringing the table to the columns
    mean, 0.5. *)
Lemma predict_columns_counterexample :
  sorted_levels (quantile_levels (naive_model [] [])) ∧
  ∃ w',
    predict demo_external (demo_class [Mean; Quantile half; Quantile half])
            demo_train None ∅ (naive_model [] [], demo_world [])
    = (Raise (ValueError "cannot reindex on an axis with duplicate labels"),
       (naive_model [] [], w')).
Proof.
  split; [by repeat constructor |]. eexists. vm_compute. reflexivity.
Qed.

(** The premise on the stored levels is needed: [predict] takes the
    order of the columns from the levels as they are stored.  A model
    built with the levels (0.9, 0.5), which the constructor keeps in
    this order, and fitted: the columns come out as mean, 0.9, 0.5. *)
Example predict_follows_stored_order :
  ∃ m0 m1 w1 out s',
    __init__ demo_external (demo_class [Mean; Quantile half; Quantile (Q2Qc 0.9)])
             (Some "out") None None (Some "D") 7 None "target"
             [Q2Qc 0.9; half] None (demo_world [0]) = (Return m0, demo_world [0]) ∧
    fit demo_external (demo_class [Mean; Quantile half; Quantile (Q2Qc 0.9)])
        demo_train None None 2 ∅ (m0, demo_world [0]) = (Return m1, (m1, w1)) ∧
    predict demo_external (demo_class [Mean; Quantile half; Quantile (Q2Qc 0.9)])
            demo_train None ∅ (m1, w1) = (Return out, s') ∧
    columns out = [Mean; Quantile (Q2Qc 0.9); Quantile half].
Proof.
  eexists _, _, _, _, _.
  split; [vm_compute; reflexivity |].
  split; [vm_compute; reflexivity |].
  split; [vm_compute; reflexivity |].
  vm_compute. reflexivity.
Qed.

(** *** More on training *)

Section MoreFit.
Context (E : External) (cls : ModelClass).

(** What a call of [fit] that returns has done. *)
Lemma fit_inv train val tl verbosity kwargs m w r m' w' :
  fit E cls train val tl verbosity kwargs (m, w) = (Return r, (m', w')) →
  ∃ tr va m1 w1 budget m2 w2,
    fit_prepare E cls train val tl verbosity (m, tick w) = (Return (tr, va), (m1, w1)) ∧
    fit_time_budget cls (hd 0 (clock w)) tl (m1, w1) = (Return budget, (m2, w2)) ∧
    _fit cls {| fa_train_data := tr; fa_val_data := va; fa_time_limit := budget;
                fa_verbosity := verbosity;
                fa_kwargs := kwargs ∪ _get_system_resources E |} m2 = (Return (), m') ∧
    r = m' ∧
    w' = with_events w2 [CalledFit {| fa_train_data := tr; fa_val_data := va;
                                      fa_time_limit := budget; fa_verbosity := verbosity;
                                      fa_kwargs := kwargs ∪ _get_system_resources E |}].
Proof.
  unfold fit. intros H.
  apply bind_return_inv in H as (t0 & s0 & Hclock & H).
  unfold lift_static in Hclock. cbn [fst snd] in Hclock.
  rewrite time_monotonic_run in Hclock. injection Hclock as <- <-.
  apply bind_return_inv in H as ([tr va] & [m1 w1] & Hprep & H).
  apply bind_return_inv in H as (budget & [m2 w2] & Hbudget & H).
  unfold fit_call_hook in H.
  apply bind_return_inv in H as ([] & s3 & Hemit & H).
  unfold lift_static, emit in Hemit. cbn [fst snd] in Hemit. injection Hemit as <-.
  apply bind_return_inv in H as ([] & [m4 w4] & Hhook & H).
  unfold get_self in H. cbn [fst] in H.
  unfold run_hook in Hhook. cbn [fst snd] in Hhook.
  destruct (_fit cls _ m2) as [[[] | e] m3] eqn:Hfit; [| done].
  simplify_eq. exists tr, va, m1, w1, budget, m2, w2. done.
Qed.

(** What the preparation does to the validation data of a class that
    cannot use it. *)
Lemma fit_prepare_val_data train val tl verbosity s tr va s' :
  can_use_val_data cls = false →
  fit_prepare E cls train val tl verbosity s = (Return (tr, va), s') → va = val.
Proof.
  intros Hcan H. unfold fit_prepare in H.
  apply bind_return_inv in H as (? & ? & _ & H).
  apply bind_return_inv in H as (? & ? & _ & H).
  apply bind_return_inv in H as (? & ? & _ & H).
  apply bind_return_inv in H as (? & ? & _ & H).
  apply bind_return_inv in H as (? & ? & _ & H).
  apply bind_return_inv in H as (? & ? & _ & H).
  apply bind_return_inv in H as (va' & ? & Hval & H).
  rewrite ret_run in H. injection H as _ <- _.
  rewrite Hcan in Hval. destruct val; rewrite ret_run in Hval; by injection Hval as <-.
Qed.

Lemma fit_time_budget_none start s r s' :
  fit_time_budget cls start None s = (Return r, s') → r = None.
Proof. unfold fit_time_budget. rewrite ret_run. by intros [= <- _]. Qed.

(** X17: a call of [fit] that returns has run the preparation and the
    budget phase, has then called the training hook [_fit] exactly once,
    as the last thing it did, on the instance that those two phases left
    and with the data and the budget that they returned, and has
    returned the instance itself, as that call of [_fit] left it.  The
    hook got the caller's verbosity and the caller's keyword arguments
    over the discovered resources; no time limit when the caller gave
    none; and, in a class that cannot use validation data, as by default,
    the validation data as the caller passed it, whatever the transforms
    are. *)
Theorem fit_calls_hook_once train val tl verbosity kwargs m w r m' w' :
  fit E cls train val tl verbosity kwargs (m, w) = (Return r, (m', w')) →
  r = m' ∧
  ∃ before args m1 w1 m2 w2,
    fit_prepare E cls train val tl verbosity (m, tick w)
    = (Return (fa_train_data args, fa_val_data args), (m1, w1)) ∧
    fit_time_budget cls (hd 0 (clock w)) tl (m1, w1)
    = (Return (fa_time_limit args), (m2, w2)) ∧
    _fit cls args m2 = (Return (), m') ∧
    w' = with_events w2 [CalledFit args] ∧
    events w' = events w ++ before ++ [CalledFit args] ∧
    (∀ a, CalledFit a ∉ before) ∧
    fa_verbosity args = verbosity ∧
    fa_kwargs args = kwargs ∪ _get_system_resources E ∧
    (tl = None → fa_time_limit args = None) ∧
    (can_use_val_data cls = false → fa_val_data args = val).
Proof.
  intros H.
  apply fit_inv in H
    as (tr & va & m1 & w1 & budget & m2 & w2 & Hprep & Hbudget & Hhook & -> & ->).
  split; [done |].
  destruct (fit_prepare_quiet E cls _ _ _ _ _ _ _ Hprep) as (l1 & Hw1 & Hl1).
  destruct (fit_time_budget_no_call cls _ _ _ _ _ Hbudget) as (l2 & Hw2 & Hl2).
  simpl in Hw1, Hw2. exists (l1 ++ l2),
    {| fa_train_data := tr; fa_val_data := va; fa_time_limit := budget;
       fa_verbosity := verbosity; fa_kwargs := kwargs ∪ _get_system_resources E |},
    m1, w1, m2, w2.
  split; [exact Hprep |]. split; [exact Hbudget |]. split; [exact Hhook |].
  split; [reflexivity |].
  split; [| split; [| split; [| split; [| split]]]].
  - simpl. rewrite Hw2, Hw1. simpl. by rewrite <- !app_assoc.
  - intros a [? | ?]%elem_of_app; [by eapply Hl1 | by eapply Hl2].
  - done.
  - done.
  - intros ->. simpl. by eapply fit_time_budget_none.
  - intros Hcan. simpl. by eapply fit_prepare_val_data.
Qed.

(** X18: an auxiliary argument [max_time_limit_ratio] that is set to
    [None] is not replaced by the default of the class: with a time limit,
    [fit] raises a [TypeError] when it scales the limit, after the
    preparation and without calling the training hook, whatever the hook
    is. *)
Theorem fit_with_none_ratio train val t verbosity kwargs m w tr va m1 w1 :
  fit_prepare E cls train val (Some t) verbosity (m, tick w) = (Return (tr, va), (m1, w1)) →
  dict_get (KStr "max_time_limit_ratio") (_extra_ag_args m1) = Some PyNone →
  ∀ hook, fit E (with_fit_hook hook cls) train val (Some t) verbosity kwargs (m, w)
          = (Raise TypeError, (m1, tick w1)).
Proof.
  intros Hprep Hratio hook.
  rewrite (fit_after_prepare E (with_fit_hook hook cls) _ _ _ _ _ _ _ _ _ _ Hprep).
  erewrite bind_raise; [reflexivity |].
  unfold fit_time_budget.
  erewrite bind_return by (unfold lift_static; simpl; by rewrite time_monotonic_run).
  erewrite bind_raise; [reflexivity |].
  unfold _preprocess_time_limit. erewrite bind_return by reflexivity. cbn [fst].
  erewrite bind_raise; [reflexivity |]. by rewrite Hratio.
Qed.
End MoreFit.

Lemma fit_calls_hook_once_witness :
  ∃ m' w' before args,
    fit demo_external recording_class demo_train (Some demo_val) None 2 ∅
        (naive_model [] [], demo_world [0]) = (Return m', (m', w')) ∧
    fitted_state m' = PyDict (call_record args) ∧
    events w' = before ++ [CalledFit args] ∧
    (∀ a, CalledFit a ∉ before) ∧
    fa_val_data args = Some demo_val ∧ fa_time_limit args = None.
Proof.
  assert (Hfit : ∃ m' w',
            fit demo_external recording_class demo_train (Some demo_val) None 2 ∅
                (naive_model [] [], demo_world [0]) = (Return m', (m', w')))
    by (eexists _, _; vm_compute; reflexivity).
  destruct Hfit as (m' & w' & Hfit).
  destruct (fit_calls_hook_once demo_external recording_class _ _ _ _ _ _ _ _ _ _ Hfit)
    as (_ & before & args & m1 & w1 & m2 & w2 & _ & _ & Hhook & _ & Hevents & Hbefore & _ & _
        & Hlimit & Hval).
  exists m', w', before, args. split; [exact Hfit |].
  split; [injection Hhook as <-; by destruct m2 |].
  split; [exact Hevents |].
  split; [exact Hbefore |]. split; [exact (Hval eq_refl) | exact (Hlimit eq_refl)].
Defined.

Lemma fit_with_none_ratio_witness :
  ∃ s',
    fit demo_external (demo_class []) demo_train None (Some (Q2Qc 100)) 2 ∅
        (naive_model [] none_ratio_args, demo_world [0; 0]) = (Raise TypeError, s').
Proof.
  eexists.
  apply (fit_with_none_ratio demo_external (demo_class []) demo_train None (Q2Qc 100) 2 ∅
           (naive_model [] none_ratio_args) (demo_world [0; 0]) demo_train None
           (naive_model [] none_ratio_args) (demo_world [0]));
    [vm_compute; reflexivity | reflexivity].
Defined.

(** *** Scoring and the out-of-fold predictions *)

Section ScoringFacts.
Context (E : External) (cls : ModelClass) (Sc : Scoring).

(** [score_and_cache_oof] in closed form, once the inputs are split and
    [predict] has returned. *)
Lemma score_and_cache_oof_run val store_val_score store_predict_time kwargs
    m w past known oof m1 w1 :
  get_model_inputs_for_scoring Sc val (prediction_length m)
    (md_known_covariates (covariate_metadata m)) = Return (past, known) →
  predict E cls past known kwargs (m, tick w) = (Return oof, (m1, w1)) →
  score_and_cache_oof E cls Sc val store_val_score store_predict_time kwargs (m, w)
  = (if store_val_score then
       match metric_score Sc (eval_metric m1) val oof (target m1) with
       | Return v => Return ()
       | Raise e => Raise e
       end
     else Return (),
     ((if store_val_score then
         match metric_score Sc (eval_metric m1) val oof (target m1) with
         | Return v => set_val_score (Some v)
         | Raise e => id
         end
       else id)
        ((if store_predict_time
          then set_predict_time (Some (hd 0 (clock w1) - hd 0 (clock w)))
          else id)
           (set_oof_predictions (Some [oof]) m1)),
      if store_predict_time then tick w1 else w1)).
Proof.
  intros Hinputs Hpredict. unfold score_and_cache_oof.
  erewrite bind_return by reflexivity. cbn [fst].
  erewrite bind_return by (unfold lift_outcome; by rewrite Hinputs).
  cbn beta iota.
  erewrite bind_return
    by (unfold lift_static, time_time; cbn [fst snd]; by rewrite time_monotonic_run).
  erewrite bind_return by apply Hpredict.
  erewrite bind_return by reflexivity.
  set (m2 := set_oof_predictions (Some [oof]) m1).
  assert (Htime :
    (if store_predict_time
     then now ← lift_static time_time;
          modify_self (set_predict_time (Some (now - hd 0 (clock w))))
     else mret ()) (m2, w1)
    = (Return (),
       ((if store_predict_time
         then set_predict_time (Some (hd 0 (clock w1) - hd 0 (clock w))) else id) m2,
        if store_predict_time then tick w1 else w1))).
  { destruct store_predict_time; [| done].
    erewrite bind_return
      by (unfold lift_static, time_time; cbn [fst snd]; by rewrite time_monotonic_run).
    done. }
  erewrite bind_return by apply Htime. clear Htime.
  set (m3 := (if store_predict_time then _ else id) m2).
  destruct store_val_score; [| done].
  assert (eval_metric m3 = eval_metric m1 ∧ target m3 = target m1) as [Hmetric Htarget].
  { subst m3 m2. destruct store_predict_time, m1; done. }
  unfold _score_with_predictions.
  destruct (metric_score Sc (eval_metric m1) val oof (target m1)) as [v | e] eqn:Hscore.
  - erewrite bind_return; last first.
    { erewrite bind_return by reflexivity. cbn [fst].
      unfold lift_outcome. rewrite Hmetric, Htarget, Hscore. reflexivity. }
    done.
  - erewrite bind_raise; last first.
    { erewrite bind_return by reflexivity. cbn [fst].
      unfold lift_outcome. rewrite Hmetric, Htarget, Hscore. reflexivity. }
    done.
Qed.

(** X19: when [predict] returns, [score_and_cache_oof] keeps its table
    as the one out-of-fold prediction of the model.  The prediction time,
    the difference of two clock readings, and the score are stored only
    on request: by default neither changes.  The model is otherwise as
    [predict] left it, and the score that is stored is the one that
    [score] returns for the same data. *)
Theorem score_and_cache_oof_stores val store_val_score store_predict_time kwargs
    m w past known oof m1 w1 v :
  get_model_inputs_for_scoring Sc val (prediction_length m)
    (md_known_covariates (covariate_metadata m)) = Return (past, known) →
  predict E cls past known kwargs (m, tick w) = (Return oof, (m1, w1)) →
  (store_val_score = true →
   metric_score Sc (eval_metric m1) val oof (target m1) = Return v) →
  ∃ m' w',
    score_and_cache_oof E cls Sc val store_val_score store_predict_time kwargs (m, w)
    = (Return (), (m', w')) ∧
    _oof_predictions m' = Some [oof] ∧
    predict_time m'
    = (if store_predict_time then Some (hd 0 (clock w1) - hd 0 (clock w))
       else predict_time m1) ∧
    val_score m' = (if store_val_score then Some v else val_score m1) ∧
    name m' = name m1 ∧ path m' = path m1 ∧ same_fitted_model m' m1 ∧
    (store_val_score = true → kwargs = ∅ →
     score E cls Sc val (m, tick w) = (Return v, (m1, w1))).
Proof.
  intros Hinputs Hpredict Hscore.
  rewrite (score_and_cache_oof_run _ _ _ _ _ _ _ _ _ _ _ Hinputs Hpredict).
  destruct store_val_score.
  - rewrite (Hscore eq_refl). eexists _, _. split; [reflexivity |].
    split; [by destruct store_predict_time, m1 |].
    split; [by destruct store_predict_time, m1 |].
    split; [by destruct store_predict_time, m1 |].
    split; [by destruct store_predict_time, m1 |].
    split; [by destruct store_predict_time, m1 |].
    split; [unfold same_fitted_model; by destruct store_predict_time, m1 |].
    intros _ ->. unfold score.
    erewrite bind_return by reflexivity. cbn [fst].
    erewrite bind_return by (unfold lift_outcome; by rewrite Hinputs).
    cbn beta iota.
    erewrite bind_return by apply Hpredict.
    unfold _score_with_predictions.
    erewrite bind_return by reflexivity. cbn [fst].
    unfold lift_outcome. by rewrite (Hscore eq_refl).
  - eexists _, _. split; [reflexivity |].
    split; [by destruct store_predict_time, m1 |].
    split; [by destruct store_predict_time, m1 |].
    split; [by destruct store_predict_time, m1 |].
    split; [by destruct store_predict_time, m1 |].
    split; [by destruct store_predict_time, m1 |].
    split; [unfold same_fitted_model; by destruct store_predict_time, m1 |].
    done.
Qed.

(** X20: the predictions are cached before they are scored.  When
    the metric raises, [score_and_cache_oof] raises the same error, and
    the model has the new out-of-fold predictions, and the prediction time
    if it was asked for, but its old score. *)
Theorem score_and_cache_oof_failed_scoring val store_predict_time kwargs
    m w past known oof m1 w1 e :
  get_model_inputs_for_scoring Sc val (prediction_length m)
    (md_known_covariates (covariate_metadata m)) = Return (past, known) →
  predict E cls past known kwargs (m, tick w) = (Return oof, (m1, w1)) →
  metric_score Sc (eval_metric m1) val oof (target m1) = Raise e →
  ∃ m' w',
    score_and_cache_oof E cls Sc val true store_predict_time kwargs (m, w)
    = (Raise e, (m', w')) ∧
    _oof_predictions m' = Some [oof] ∧
    val_score m' = val_score m1 ∧
    predict_time m'
    = (if store_predict_time then Some (hd 0 (clock w1) - hd 0 (clock w))
       else predict_time m1).
Proof.
  intros Hinputs Hpredict Hscore.
  rewrite (score_and_cache_oof_run _ _ _ _ _ _ _ _ _ _ _ Hinputs Hpredict), Hscore.
  eexists _, _. split; [reflexivity |].
  split; [| split]; by destruct store_predict_time, m1.
Qed.

(** A call that returns has cached one table. *)
Lemma score_and_cache_oof_inv val store_val_score store_predict_time kwargs s m' w' :
  score_and_cache_oof E cls Sc val store_val_score store_predict_time kwargs s
  = (Return (), (m', w')) →
  ∃ oof, _oof_predictions m' = Some [oof].
Proof.
  unfold score_and_cache_oof. intros H.
  apply bind_return_inv in H as (self & s1 & _ & H).
  apply bind_return_inv in H as ([past known] & s2 & _ & H).
  apply bind_return_inv in H as (t0 & s3 & _ & H).
  apply bind_return_inv in H as (oof & [m1 w1] & _ & H).
  apply bind_return_inv in H as ([] & s4 & Hcache & H).
  unfold modify_self in Hcache. injection Hcache as <-.
  apply bind_return_inv in H as ([] & [m5 w5] & Htime & H).
  exists oof.
  assert (Hm5 : _oof_predictions m5 = Some [oof]).
  { destruct store_predict_time.
    - apply bind_return_inv in Htime as (now & s5 & Hnow & Htime).
      unfold lift_static, time_time in Hnow. cbn [fst snd] in Hnow.
      rewrite time_monotonic_run in Hnow. injection Hnow as _ <-.
      unfold modify_self in Htime. cbn [fst snd] in Htime. injection Htime as <- _.
      by destruct m1.
    - rewrite ret_run in Htime. injection Htime as <- _. by destruct m1. }
  destruct store_val_score.
  - apply bind_return_inv in H as (v & s6 & Hscore & H).
    unfold _score_with_predictions in Hscore.
    apply bind_return_inv in Hscore as (self6 & s7 & Hself & Hscore).
    unfold get_self in Hself. injection Hself as _ <-.
    unfold lift_outcome in Hscore. injection Hscore as _ <-.
    unfold modify_self in H. injection H as <- _. by destruct m5.
  - rewrite ret_run in H. by injection H as <- _.
Qed.

(** X21: the out-of-fold predictions that scoring has cached survive
    [save] and [load]: [load] with [load_oof] returns the scored model,
    located at its directory, with the table that was cached. *)
Theorem cached_oof_survive_save_load val store_val_score store_predict_time kwargs s m' w' :
  score_and_cache_oof E cls Sc val store_val_score store_predict_time kwargs s
  = (Return (), (m', w')) →
  name m' ≠ "" →
  oof_artifact_path (path m') ∉ write_protected w' →
  model_artifact_path (path m') ∉ write_protected w' →
  ∃ oof w'' root,
    _oof_predictions m' = Some [oof] ∧
    save None (m', w') = (Return (path m'), (m', w'')) ∧
    files w'' !! oof_artifact_path (path m') = Some (PickledFrames [oof]) ∧
    rsplit1_head (path m') (name m') = Return root ∧
    load (path m') true true w'' = (Return (set_path_root root m'), w'') ∧
    _oof_predictions (set_path_root root m') = Some [oof].
Proof.
  intros Hscore Hname Hoof Hmodel.
  destruct (score_and_cache_oof_inv _ _ _ _ _ _ _ Hscore) as [oof Hcached].
  destruct (save_run None m' w') as (w'' & Hsave & Hfile & Hoof' & _); [done .. |].
  simpl in Hsave, Hfile, Hoof'. rewrite Hcached in Hoof'.
  destruct (rsplit1_head_total (path m') (name m') Hname) as [root Hroot].
  assert (Hroot' : rsplit1_head (path m') (name (set_oof_predictions None m')) = Return root)
    by by rewrite set_oof_predictions_name.
  exists oof, w'', root. split; [done |]. split; [done |]. split; [done |].
  split; [done |]. split.
  - rewrite (load_reset_run _ _ _ _ true Hfile Hroot').
    assert (_oof_predictions (set_oof_predictions None m') = None) as -> by by destruct m'.
    rewrite bool_decide_eq_true_2 by done. cbn [andb].
    erewrite bind_return by (by rewrite load_oof_predictions_run, Hoof').
    rewrite ret_run, (set_oof_predictions_relocated _ _ _ _ Hcached).
    by assert (set_path (path m') m' = m') as -> by by destruct m'.
  - by destruct m'.
Qed.
End ScoringFacts.

Lemma score_and_cache_oof_stores_witness :
  ∃ m' w',
    score_and_cache_oof demo_external (demo_class [Mean; Quantile half]) demo_scoring
      demo_train true true ∅ (naive_model [] [], demo_world [Q2Qc 10; Q2Qc 12])
    = (Return (), (m', w')) ∧
    _oof_predictions m' = Some [demo_frame [Mean; Quantile half]] ∧
    predict_time m' = Some (Q2Qc 2) ∧
    val_score m' = Some (- half) ∧
    score demo_external (demo_class [Mean; Quantile half]) demo_scoring demo_train
          (naive_model [] [], demo_world [Q2Qc 12])
    = (Return (- half),
       (naive_model [] [],
        with_events (demo_world [Q2Qc 12]) [CalledPredict demo_train None])).
Proof.
  destruct (score_and_cache_oof_stores demo_external (demo_class [Mean; Quantile half])
              demo_scoring demo_train true true ∅ (naive_model [] [])
              (demo_world [Q2Qc 10; Q2Qc 12]) demo_train None
              (demo_frame [Mean; Quantile half]) (naive_model [] [])
              (with_events (demo_world [Q2Qc 12]) [CalledPredict demo_train None])
              (- half))
    as (m' & w' & Hrun & Hoof & Htime & Hscore & _ & _ & _ & Hsame);
    [reflexivity | vm_compute; reflexivity | reflexivity |].
  exists m', w'. split; [exact Hrun |]. split; [exact Hoof |].
  split; [rewrite Htime; f_equal; by apply Qc_is_canon |].
  split; [exact Hscore | exact (Hsame eq_refl eq_refl)].
Defined.

Lemma score_and_cache_oof_failed_scoring_witness :
  ∃ m' w' msg,
    score_and_cache_oof demo_external (demo_class [Mean; Quantile half]) failing_scoring
      demo_train true false ∅ (naive_model [] [], demo_world [Q2Qc 10; Q2Qc 12])
    = (Raise (ValueError msg), (m', w')) ∧
    _oof_predictions m' = Some [demo_frame [Mean; Quantile half]] ∧
    val_score m' = None.
Proof.
  destruct (score_and_cache_oof_failed_scoring demo_external
              (demo_class [Mean; Quantile half]) failing_scoring demo_train false ∅
              (naive_model [] []) (demo_world [Q2Qc 10; Q2Qc 12]) demo_train None
              (demo_frame [Mean; Quantile half]) (naive_model [] [])
              (with_events (demo_world [Q2Qc 12]) [CalledPredict demo_train None])
              (ValueError "predictions do not match the data"))
    as (m' & w' & Hrun & Hoof & Hscore & _);
    [reflexivity | vm_compute; reflexivity | reflexivity |].
  exists m', w'. eexists. split; [exact Hrun |]. split; [exact Hoof | exact Hscore].
Defined.

Lemma cached_oof_survive_save_load_witness :
  ∃ m' w' w'',
    score_and_cache_oof demo_external (demo_class [Mean; Quantile half]) demo_scoring
      demo_train false false ∅ (naive_model [] [], demo_world [0])
    = (Return (), (m', w')) ∧
    save None (m', w') = (Return "out/Naive", (m', w'')) ∧
    load "out/Naive" true true w'' = (Return (set_path_root "out/" m'), w'') ∧
    _oof_predictions (set_path_root "out/" m') = Some [demo_frame [Mean; Quantile half]].
Proof.
  assert (Hscore :
    score_and_cache_oof demo_external (demo_class [Mean; Quantile half]) demo_scoring
      demo_train false false ∅ (naive_model [] [], demo_world [0])
    = (Return (), (set_oof_predictions (Some [demo_frame [Mean; Quantile half]])
                     (naive_model [] []),
                   with_events (demo_world []) [CalledPredict demo_train None])))
    by (vm_compute; reflexivity).
  destruct (cached_oof_survive_save_load demo_external (demo_class [Mean; Quantile half])
              demo_scoring _ _ _ _ _ _ _ Hscore)
    as (oof & w'' & root & Hcached & Hsave & _ & Hroot & Hload & Hloaded);
    [discriminate | apply not_elem_of_empty | apply not_elem_of_empty |].
  injection Hcached as <-. injection Hroot as <-.
  eexists _, _, w''. split; [exact Hscore |]. split; [exact Hsave |].
  split; [exact Hload | exact Hloaded].
Defined.

(** *** Name and place of a new model *)

Section InitIdentity.
Context (E : External) (cls : ModelClass).

Lemma chars_app a b : chars (a +:+ b) = chars a ++ chars b.
Proof. induction a as [|c a IH]; simpl; [done |]. by rewrite <- IH. Qed.

(** [re.sub(r"Model$", "", s)] removes one trailing "Model". *)
Lemma strip_Model_suffix_app c : strip_Model_suffix (c +:+ "Model") = c.
Proof.
  unfold strip_Model_suffix, ends_with, starts_with. rewrite chars_app, reverse_app.
  rewrite bool_decide_eq_true_2 by done.
  change (drop 5 (reverse (chars "Model") ++ reverse (chars c))) with (reverse (chars c)).
  by rewrite reverse_involutive, text_chars.
Qed.

(** The split of the hyperparameters only adds log records. *)
Lemma split_events hp w r w' :
  _check_and_split_hyperparameters E hp w = (r, w') → ∃ l, events w' = events w ++ l.
Proof.
  destruct hp as [[| | | | d | |] |]; try (intros [= _ <-]; exists []; by rewrite app_nil_r).
  rewrite split_run. intros [= _ <-]. by eexists.
Qed.

(** Name, root and path of a model that the constructor returns. *)
Lemma init_identity path_ name_ hp fr pl md tg levels em w m w' :
  __init__ E cls path_ name_ hp fr pl md tg levels em w = (Return m, w') →
  name m = match name_ with
           | Some n => if bool_decide (n = "") then strip_Model_suffix (cls_name cls) else n
           | None => strip_Model_suffix (cls_name cls)
           end ∧
  path m = os_path_join (path_root m) (name m) ∧
  match path_ with
  | Some p => path_root m = p
  | None =>
      rsplit1_head (setup_outputdir E (name m)) (name m) = Return (path_root m) ∧
      ∃ rest, events w' = events w ++ Logged 20 (NoPathSpecified (path_root m)) :: rest
  end.
Proof.
  unfold __init__. intros H.
  apply bind_return_inv in H as (root & w1 & Hroot & H).
  apply bind_return_inv in H as (metric & w2 & Hmetric & H).
  unfold lift_outcome in Hmetric. injection Hmetric as _ <-.
  destruct (forallb _ levels); simpl in H; [| done].
  assert (Hsplit : ∃ hp' extra w3 drop stored,
            _check_and_split_hyperparameters E hp w1 = (Return (hp', extra), w3) ∧
            (Return (A := Model) m, w')
            = (Return {| name := match name_ with
                                 | Some n => if bool_decide (n = "")
                                             then strip_Model_suffix (cls_name cls) else n
                                 | None => strip_Model_suffix (cls_name cls)
                                 end;
                         path_root := root;
                         path := os_path_join root
                                   match name_ with
                                   | Some n => if bool_decide (n = "")
                                               then strip_Model_suffix (cls_name cls) else n
                                   | None => strip_Model_suffix (cls_name cls)
                                   end;
                         eval_metric := metric; target := tg;
                         covariate_metadata := default empty_metadata md;
                         freq := fr; prediction_length := pl;
                         quantile_levels := stored; must_drop_median := drop;
                         _oof_predictions := None;
                         _hyperparameters := hp'; _extra_ag_args := extra;
                         fit_time := None; predict_time := None; predict_1_time := None;
                         val_score := None;
                         target_scaler := None; covariate_scaler := None;
                         covariate_regressor := None;
                         fitted_state := PyNone |}, w3)).
  { destruct (decide (half ∈ levels));
      apply bind_return_inv in H as ([hp' extra] & w3 & Hsplit & H);
      rewrite ret_run in H; eexists _, _, _, _, _; split; try exact Hsplit; by rewrite <- H. }
  destruct Hsplit as (hp' & extra & w3 & drop & stored & Hsplit & Hm).
  injection Hm as -> ->. simpl. split; [done |]. split; [done |].
  destruct (split_events _ _ _ _ Hsplit) as [l Hl].
  destruct path_ as [p |].
  - rewrite ret_run in Hroot. by injection Hroot as <- _.
  - apply bind_return_inv in Hroot as (root' & w0 & Hsplit_root & Hroot).
    unfold lift_outcome in Hsplit_root. injection Hsplit_root as Hsplit_root <-.
    apply bind_return_inv in Hroot as ([] & w4 & Hlog & Hroot).
    unfold logger_log, emit in Hlog. injection Hlog as <-.
    rewrite ret_run in Hroot. injection Hroot as <- <-.
    split; [by destruct (rsplit1_head _ _) |].
    exists l. rewrite Hl. simpl. by rewrite <- app_assoc.
Qed.

(** X22: without a name, or with an empty one, a model is named after
    its class, without one trailing "Model"; a name that is given and not
    empty is kept.  The path is the root joined with the name, and a path
    that is given is the root. *)
Theorem init_names_model_after_class c path_ name_ hp fr pl md tg levels em w m w' :
  cls_name cls = c +:+ "Model" →
  __init__ E cls path_ name_ hp fr pl md tg levels em w = (Return m, w') →
  (name_ = None ∨ name_ = Some "" → name m = c) ∧
  (∀ n, name_ = Some n → n ≠ "" → name m = n) ∧
  path m = os_path_join (path_root m) (name m) ∧
  (∀ p, path_ = Some p → path_root m = p).
Proof.
  intros Hcls Hinit. apply init_identity in Hinit as (Hname & Hpath & Hroot).
  rewrite Hcls, strip_Model_suffix_app in Hname.
  split; [| split; [| split]].
  - by intros [-> | ->].
  - intros n -> Hn. by rewrite bool_decide_eq_false_2 in Hname.
  - done.
  - by intros p ->.
Qed.

(** X23: without a path, the model is placed where the
    output-directory helper says: when the helper returns a directory
    joined with the name of the model, that is the path of the model, its
    root is the directory with its separator, and the choice is logged
    at level 20. *)
Theorem init_without_path d name_ hp fr pl md tg levels em w m w' :
  __init__ E cls None name_ hp fr pl md tg levels em w = (Return m, w') →
  name m ≠ "" → starts_with [sep] (chars (name m)) = false →
  setup_outputdir E (name m) = os_path_join d (name m) →
  path m = os_path_join d (name m) ∧
  path_root m = path_prefix d ∧
  ∃ rest, events w' = events w ++ Logged 20 (NoPathSpecified (path_prefix d)) :: rest.
Proof.
  intros Hinit Hname Hrel Hdir.
  apply init_identity in Hinit as (_ & Hpath & Hroot & (rest & Hevents)).
  destruct (join_chars_prefix (chars d) (chars (name m)) Hrel) as [Hjoin Hprefix].
  assert (path_root m = path_prefix d) as Heq.
  { rewrite Hdir in Hroot. unfold os_path_join in Hroot. rewrite Hjoin in Hroot.
    rewrite rsplit1_head_suffix in Hroot by done. by injection Hroot as <-. }
  rewrite Heq in Hpath, Hevents. split; [| split; [done | by exists rest]].
  rewrite Hpath. unfold os_path_join, path_prefix. by rewrite chars_text, Hprefix, Hjoin.
Qed.
End InitIdentity.

Lemma init_names_model_after_class_witness :
  ∃ m w',
    __init__ demo_external (demo_class []) (Some "out") (Some "") None (Some "D") 7 None
             "target" [half] None (demo_world []) = (Return m, w') ∧
    name m = "Naive" ∧ path m = os_path_join "out" (name m) ∧ path_root m = "out".
Proof.
  assert (Hinit : ∃ m w',
    __init__ demo_external (demo_class []) (Some "out") (Some "") None (Some "D") 7 None
             "target" [half] None (demo_world []) = (Return m, w'))
    by (eexists _, _; vm_compute; reflexivity).
  destruct Hinit as (m & w' & Hinit).
  destruct (init_names_model_after_class demo_external (demo_class []) "Naive"
              _ _ _ _ _ _ _ _ _ _ _ _ eq_refl Hinit) as (Hname & _ & Hpath & Hroot).
  exists m, w'. split; [exact Hinit |]. split; [apply Hname; by right |].
  rewrite (Hroot "out" eq_refl) in Hpath. split; [exact Hpath | exact (Hroot "out" eq_refl)].
Defined.

Lemma init_without_path_witness :
  ∃ m w',
    __init__ models_dir_external (demo_class []) None None None (Some "D") 7 None
             "target" [half] None (demo_world []) = (Return m, w') ∧
    path m = "AutogluonModels/ag-2024/Naive" ∧
    path_root m = "AutogluonModels/ag-2024/" ∧
    ∃ rest, events w' = Logged 20 (NoPathSpecified "AutogluonModels/ag-2024/") :: rest.
Proof.
  assert (Hinit : ∃ m w',
    __init__ models_dir_external (demo_class []) None None None (Some "D") 7 None
             "target" [half] None (demo_world []) = (Return m, w') ∧ name m = "Naive").
  { eexists _, _. split; [vm_compute; reflexivity | reflexivity]. }
  destruct Hinit as (m & w' & Hinit & Hname).
  destruct (init_without_path models_dir_external (demo_class []) "AutogluonModels/ag-2024"
              _ _ _ _ _ _ _ _ _ _ _ Hinit) as (Hpath & Hroot & Hlog);
    [by rewrite Hname | by rewrite Hname | by rewrite Hname |].
  exists m, w'. split; [exact Hinit |]. rewrite Hname in Hpath.
  split; [exact Hpath |]. split; [exact Hroot | exact Hlog].
Defined.

(** *** The constructor's arguments, read back *)

Section GetParams.
Context (E : External) (cls : ModelClass).

(** X24: [get_params] gives back the hyperparameters that the
    constructor was called with, up to the order of the keys: every key
    reads as in the caller's mapping, the reserved key included, except
    that a reserved key given with an empty mapping is left out.  Its
    name and path are the model's name and root, and its levels are the
    stored levels. *)
Theorem get_params_restores_hyperparameters path_ name_ d fr pl md tg levels em w m w' :
  __init__ E cls path_ name_ (Some (PyDict d)) fr pl md tg levels em w = (Return m, w') →
  (∀ k, k ≠ reserved_key E ∨ dict_get (reserved_key E) d ≠ Some (PyDict []) →
        dict_get k (p_hyperparameters (get_params E m)) = dict_get k d) ∧
  (dict_get (reserved_key E) d = Some (PyDict []) →
   dict_get (reserved_key E) (p_hyperparameters (get_params E m)) = None) ∧
  p_name (get_params E m) = name m ∧
  p_path (get_params E m) = path_root m ∧
  p_quantile_levels (get_params E m) = quantile_levels m.
Proof.
  intros H. split; [| split; [| done]].
  all: apply init_inv in H as (_ & _ & _ & w1 & Hsplit).
  all: rewrite split_run in Hsplit; fold (reserved_key E) in Hsplit.
  all: unfold get_params; cbn [p_hyperparameters]; fold (reserved_key E).
  - intros k Hk.
    destruct (dict_get (reserved_key E) d) as [v |] eqn:Hreserved; simpl in Hsplit.
    + destruct v as [| | | | extra | |]; try done.
      injection Hsplit as <- <- _. destruct extra as [|kv extra].
      * destruct Hk as [Hne | Hne]; [by apply dict_get_remove_ne | done].
      * rewrite dict_get_set.
        destruct (decide (reserved_key E = k)) as [<- | Hne]; [done |].
        by apply dict_get_remove_ne.
    + injection Hsplit as <- <- _.
      destruct (decide (k = reserved_key E)) as [-> | Hne].
      * by rewrite dict_get_remove_eq.
      * by apply dict_get_remove_ne.
  - intros Hempty. rewrite Hempty in Hsplit. simpl in Hsplit.
    injection Hsplit as <- <- _. apply dict_get_remove_eq.
Qed.
End GetParams.

Lemma get_params_restores_hyperparameters_witness :
  ∃ m w',
    __init__ demo_external (demo_class []) (Some "out") None
             (Some (PyDict demo_hyperparameters)) (Some "D") 7
             None "target" [Q2Qc 0.1; half] None (demo_world []) = (Return m, w') ∧
    dict_get (KStr "ag_args_fit") (p_hyperparameters (get_params demo_external m))
    = Some (PyDict [(KStr "max_time_limit", PyNum (Q2Qc 50))]) ∧
    dict_get (KInt 3) (p_hyperparameters (get_params demo_external m)) = Some (PyStr "x") ∧
    ∃ m2 w2,
      __init__ demo_external (demo_class []) (Some "out") None
               (Some (PyDict empty_aux_hyperparameters)) (Some "D") 7
               None "target" [Q2Qc 0.1; half] None (demo_world []) = (Return m2, w2) ∧
      dict_get (KStr "ag_args_fit") (p_hyperparameters (get_params demo_external m2)) = None.
Proof.
  assert (H1 : ∃ m w',
            __init__ demo_external (demo_class []) (Some "out") None
              (Some (PyDict demo_hyperparameters)) (Some "D") 7
              None "target" [Q2Qc 0.1; half] None (demo_world []) = (Return m, w'))
    by (eexists _, _; vm_compute; reflexivity).
  assert (H2 : ∃ m2 w2,
            __init__ demo_external (demo_class []) (Some "out") None
              (Some (PyDict empty_aux_hyperparameters)) (Some "D") 7
              None "target" [Q2Qc 0.1; half] None (demo_world []) = (Return m2, w2))
    by (eexists _, _; vm_compute; reflexivity).
  destruct H1 as (m & w' & H1). destruct H2 as (m2 & w2 & H2).
  destruct (get_params_restores_hyperparameters demo_external _ _ _ _ _ _ _ _ _ _ _ _ _ H1)
    as (Hget & _).
  destruct (get_params_restores_hyperparameters demo_external _ _ _ _ _ _ _ _ _ _ _ _ _ H2)
    as (_ & Hempty & _).
  exists m, w'. split; [exact H1 |].
  rewrite !Hget by (right; discriminate).
  split; [reflexivity |]. split; [reflexivity |].
  exists m2, w2. split; [exact H2 |]. apply Hempty. reflexivity.
Defined.

(** *** The covariate regressor during training *)

Section RegressorFit.
Context (E : External) (cls : ModelClass).

(** When the transforms have been created, all three attributes exist. *)
Lemma initialize_transforms_inv s m1 w1 :
  _initialize_transforms_and_regressor E cls s = (Return (), (m1, w1)) →
  w1 = s.2 ∧ is_Some (target_scaler m1) ∧ is_Some (covariate_scaler m1) ∧
  is_Some (covariate_regressor m1).
Proof.
  unfold _initialize_transforms_and_regressor. intros H.
  apply bind_return_inv in H as (self1 & s1 & Hself1 & H).
  unfold get_self in Hself1. injection Hself1 as _ <-.
  apply bind_return_inv in H as (ts & s2 & Hts & H).
  unfold lift_outcome in Hts. injection Hts as _ <-.
  apply bind_return_inv in H as ([] & s3 & Hset1 & H).
  unfold modify_self in Hset1. injection Hset1 as <-.
  apply bind_return_inv in H as (self2 & s4 & Hself2 & H).
  unfold get_self in Hself2. injection Hself2 as _ <-.
  apply bind_return_inv in H as (cs & s5 & Hcs & H).
  unfold lift_outcome in Hcs. injection Hcs as _ <-.
  apply bind_return_inv in H as ([] & s6 & Hset2 & H).
  unfold modify_self in Hset2. injection Hset2 as <-.
  apply bind_return_inv in H as (self3 & s7 & Hself3 & H).
  unfold get_self in Hself3. injection Hself3 as _ <-.
  apply bind_return_inv in H as (cr & s8 & Hcr & H).
  unfold lift_outcome in Hcr. injection Hcr as _ <-.
  unfold modify_self in H. injection H as <- <-.
  destruct s as [[] ?]. simpl. eauto.
Qed.

(** X25: when [fit] has created a covariate regressor, the regressor
    is fitted, before the training data reaches [preprocess] or the
    training hook, with the fraction [_covariate_regressor_fit_time_fraction]
    (0.5 in the base class) of the caller's time limit, no limit when the
    caller gave none, and with the verbosity lowered by one; this holds
    whether the rest of the preparation returns or raises. *)
Theorem fit_regressor_time_limit train val tl verbosity m w m1 cr r s' :
  _initialize_transforms_and_regressor E cls (m, w) = (Return (), (m1, w)) →
  covariate_regressor m1 = Some (Some cr) →
  fit_prepare E cls train val tl verbosity (m, w) = (r, s') →
  ∃ rest,
    events s'.2
    = events w ++ RegressorFit ((λ t, _covariate_regressor_fit_time_fraction cls * t) <$> tl)
                               (verbosity - 1) :: rest ∧
    ∀ args, CalledFit args ∉ rest.
Proof.
  intros Hinit Hcr Hprep.
  destruct (initialize_transforms_inv _ _ _ Hinit) as (_ & [ts Hts] & [cs Hcs] & _).
  unfold fit_prepare in Hprep.
  erewrite bind_return in Hprep by apply Hinit.
  erewrite bind_return in Hprep by by apply apply_transform_exact.
  erewrite bind_return in Hprep by by apply apply_transform_exact.
  erewrite bind_return in Hprep by by apply read_attr_run.
  erewrite bind_return in Hprep by reflexivity.
  match type of Hprep with
  | ?c ?s = _ =>
      assert (Hquiet : preserves quiet_step c) by preserves_steps;
      destruct (Hquiet _ _ _ Hprep) as (rest & Hrest & Hcalls)
  end.
  exists rest. split; [| done]. rewrite Hrest. simpl. by rewrite <- app_assoc.
Qed.
End RegressorFit.

Lemma fit_regressor_time_limit_witness :
  _covariate_regressor_fit_time_fraction (demo_class []) = Q2Qc 0.5 ∧
  ∃ s' rest,
    fit_prepare regressor_external (demo_class []) demo_train None (Some (Q2Qc 100)) 2
                (naive_model [] [], demo_world [])
    = (Return (demo_train, None), s') ∧
    events s'.2 = RegressorFit (Some (Q2Qc 50)) 1 :: rest.
Proof.
  split; [reflexivity |].
  assert (Hprep : ∃ s',
            fit_prepare regressor_external (demo_class []) demo_train None (Some (Q2Qc 100)) 2
                        (naive_model [] [], demo_world [])
            = (Return (demo_train, None), s'))
    by (eexists; vm_compute; reflexivity).
  destruct Hprep as [s' Hprep].
  destruct (fit_regressor_time_limit regressor_external (demo_class []) demo_train None
              (Some (Q2Qc 100)) 2 (naive_model [] []) (demo_world [])
              (set_covariate_regressor (Some identity_regressor) (naive_model [] []))
              identity_regressor (Return (demo_train, None)) s')
    as (rest & Hevents & _); [vm_compute; reflexivity | reflexivity | exact Hprep |].
  exists s', rest. split; [exact Hprep |]. rewrite Hevents. simpl.
  do 3 f_equal. by apply Qc_is_canon.
Defined.
